(** * EB_MATLAB: the MATLAB easyblock (easybuild/easyblocks/m/matlab.py)

    A shallow embedding of [configure_step] and [install_step] and of the
    library calls they are written with, followed by the properties of the
    installer-configuration templating and of the per-key install loop.

    Python level.  The modern branch of [install_step] writes a [str] to a
    [tempfile.NamedTemporaryFile()] opened in its default binary mode, which
    only Python 2 accepts, and the module imports [py2vs3]; the embedding
    follows Python 2: a [str] is a byte string ([string], one [ascii] per
    byte), [re.I] folds ASCII letters only, and [LooseVersion] compares
    through [cmp], where a number is smaller than a string. *)

From Stdlib Require Import ZArith NArith Ascii String List Bool Lia.
From stdpp Require Import base strings gmap stringmap.

Local Open Scope string_scope.
Import ListNotations.

(** ** Python [str] operations *)

Module PyStr.

Definition newline : ascii := "010"%char.
Definition backslash : ascii := "092"%char.

(** [s.startswith(p)] *)
Definition startswith (p s : string) : bool := String.prefix p s.

(** [sub in s] *)
Fixpoint contains (sub s : string) : bool :=
  startswith sub s ||
  match s with
  | EmptyString => false
  | String _ s' => contains sub s'
  end.

(** [c in s] for a single character *)
Fixpoint has_char (c : ascii) (s : string) : bool :=
  match s with
  | EmptyString => false
  | String d s' => Ascii.eqb c d || has_char c s'
  end.

(** [s.count(c)] for a single character *)
Fixpoint count_char (c : ascii) (s : string) : nat :=
  match s with
  | EmptyString => 0
  | String d s' => (if Ascii.eqb c d then 1 else 0) + count_char c s'
  end.

(** The scan of [s.replace(old, new)] for a non-empty [old]: left to right,
    non-overlapping.  [skip] counts the characters of an occurrence already
    replaced that are still to be passed over. *)
Fixpoint replace_go (old new : string) (skip : nat) (s : string) : string :=
  match s with
  | EmptyString => EmptyString
  | String c s' =>
      match skip with
      | S k => replace_go old new k s'
      | O =>
          if startswith old s
          then new +:+ replace_go old new (String.length old - 1) s'
          else String c (replace_go old new 0 s')
      end
  end.

(** For the empty [old] Python puts [new] before every character and at the
    end. *)
Fixpoint interleave (new s : string) : string :=
  match s with
  | EmptyString => new
  | String c s' => new +:+ String c (interleave new s')
  end.

(** [s.replace(old, new)] *)
Definition replace (old new s : string) : string :=
  match old with
  | EmptyString => interleave new s
  | String _ _ => replace_go old new 0 s
  end.

(** The scan of [s.split(sep)] for a non-empty [sep]; the head of the result
    is the segment being read. *)
Fixpoint split_go (sep : string) (skip : nat) (s : string) : list string :=
  match s with
  | EmptyString => [EmptyString]
  | String c s' =>
      match skip with
      | S k => split_go sep k s'
      | O =>
          if startswith sep s
          then EmptyString :: split_go sep (String.length sep - 1) s'
          else
            match split_go sep 0 s' with
            | seg :: segs => String c seg :: segs
            | [] => [String c EmptyString]
            end
      end
  end.

(** [s.split(sep)]; [None] is the [ValueError] of an empty separator. *)
Definition split (sep s : string) : option (list string) :=
  match sep with
  | EmptyString => None
  | String _ _ => Some (split_go sep 0 s)
  end.

(** The lines of a text, the way [^] and [.] of [re] see them: the segments
    between newline characters. *)
Definition lines (s : string) : list string :=
  split_go (String newline EmptyString) 0 s.

(** [sep.join(l)] is [String.concat sep l]. *)
Definition join (sep : string) (l : list string) : string := String.concat sep l.

(** ASCII lower-casing of one byte, the case folding of [re.I] on a byte
    string. *)
Definition lower_ascii (c : ascii) : ascii :=
  let n := nat_of_ascii c in
  if (65 <=? n)%nat && (n <=? 90)%nat then ascii_of_nat (n + 32) else c.

Fixpoint lower (s : string) : string :=
  match s with
  | EmptyString => EmptyString
  | String c s' => String (lower_ascii c) (lower s')
  end.

(** [s[:n]] *)
Fixpoint take (n : nat) (s : string) : string :=
  match n, s with
  | S k, String c s' => String c (take k s')
  | _, _ => EmptyString
  end.

End PyStr.

(** ** The fragment of [re] the easyblock uses

    Patterns are parsed from the pattern text of the source.  The fragment
    has literal characters, [.], [^] and a greedy [*] on a character or on
    [.]; a pattern with any other metacharacter is outside it ([None]). *)

Module Re.

Inductive atom : Type :=
  | Lit (c : ascii)
  | AnyChar
  | Bol.

Inductive item : Type :=
  | Once (a : atom)
  | Star (a : atom).

Record flags : Type := Flags { ignorecase : bool; multiline : bool }.

Definition no_flags : flags := Flags false false.
Definition I : flags := Flags true false.
Definition M : flags := Flags false true.

Record pattern : Type := Pattern { pattern_text : string; pattern_flags : flags; items : list item }.

Definition is_meta (c : ascii) : bool :=
  PyStr.has_char c "$+?{}[]()|\*".

Definition atom_of (c : ascii) : option atom :=
  if is_meta c then None
  else if Ascii.eqb c "^" then Some Bol
  else if Ascii.eqb c "." then Some AnyChar
  else Some (Lit c).

Fixpoint parse (s : string) : option (list item) :=
  match s with
  | EmptyString => Some []
  | String c s' =>
      match atom_of c with
      | None => None
      | Some a =>
          match s' with
          | String "*" s'' =>
              match a with
              | Bol => None
              | _ => option_map (cons (Star a)) (parse s'')
              end
          | _ => option_map (cons (Once a)) (parse s')
          end
      end
  end.

(** [re.compile(text, flags)] *)
Definition compile (text : string) (fl : flags) : option pattern :=
  option_map (Pattern text fl) (parse text).

Definition atom_matches (fl : flags) (a : atom) (c : ascii) : bool :=
  match a with
  | Lit d =>
      if ignorecase fl
      then Ascii.eqb (PyStr.lower_ascii d) (PyStr.lower_ascii c)
      else Ascii.eqb d c
  | AnyChar => negb (Ascii.eqb c PyStr.newline)
  | Bol => false
  end.

(** Whether the position after character [c] is a place where [^] matches. *)
Definition bol_after (fl : flags) (c : ascii) : bool :=
  multiline fl && Ascii.eqb c PyStr.newline.

(** The length of the match of [re] at the head of [s], if there is one;
    [bol] tells whether [^] matches here.  The star is greedy and gives
    characters back one at a time. *)
Fixpoint match_items (fl : flags) (re : list item) : bool -> string -> option nat :=
  match re with
  | [] => fun _ _ => Some 0
  | Once Bol :: re' =>
      fun bol s => if bol then match_items fl re' bol s else None
  | Once a :: re' =>
      fun _ s =>
        match s with
        | String c s' =>
            if atom_matches fl a c
            then option_map S (match_items fl re' (bol_after fl c) s')
            else None
        | EmptyString => None
        end
  | Star a :: re' =>
      fix star (bol : bool) (s : string) {struct s} : option nat :=
        match
          match s with
          | String c s' =>
              if atom_matches fl a c
              then option_map S (star (bol_after fl c) s')
              else None
          | EmptyString => None
          end
        with
        | Some n => Some n
        | None => match_items fl re' bol s
        end
  end.

(** [regex.search(s)], as the truth value the source tests. *)
Fixpoint search_go (fl : flags) (re : list item) (bol : bool) (s : string) : bool :=
  match match_items fl re bol s with
  | Some _ => true
  | None =>
      match s with
      | EmptyString => false
      | String c s' => search_go fl re (bol_after fl c) s'
      end
  end.

Definition search (p : pattern) (s : string) : bool :=
  search_go (pattern_flags p) (items p) true s.

(** The scan of [regex.sub(repl, s)]: leftmost matches, left to right,
    non-overlapping; [expand] turns the matched text into its replacement.
    [skip] counts the characters of a replaced match still to be passed
    over, [adj] tells that the last match ended here (an empty match next to
    it is not replaced). *)
Fixpoint sub_go (fl : flags) (re : list item) (expand : string -> string)
    (skip : nat) (adj bol : bool) (s : string) : string :=
  match s with
  | EmptyString =>
      match match_items fl re bol EmptyString with
      | Some _ => if adj then EmptyString else expand EmptyString
      | None => EmptyString
      end
  | String c s' =>
      match skip with
      | S k => sub_go fl re expand k true (bol_after fl c) s'
      | O =>
          match match_items fl re bol s with
          | Some (S n) =>
              expand (PyStr.take (S n) s) +:+ sub_go fl re expand n true (bol_after fl c) s'
          | Some O =>
              (if adj then EmptyString else expand EmptyString)
              +:+ String c (sub_go fl re expand 0 false (bol_after fl c) s')
          | None => String c (sub_go fl re expand 0 false (bol_after fl c) s')
          end
      end
  end.

Section Sub.

(** A replacement string without a backslash is used as it is.  One with a
    backslash goes through [sre_parse.parse_template], which is not part of
    this repository: [compile_repl] stands for it, [None] for the [re.error]
    it raises, the function it returns for the expansion at a match. *)
Variable compile_repl : string -> option (string -> string).

Definition sub (p : pattern) (repl s : string) : option string :=
  if PyStr.has_char PyStr.backslash repl
  then
    match compile_repl repl with
    | Some expand => Some (sub_go (pattern_flags p) (items p) expand 0 false true s)
    | None => None
    end
  else Some (sub_go (pattern_flags p) (items p) (fun _ => repl) 0 false true s).

End Sub.

End Re.

(** ** [distutils.version.LooseVersion] *)

Module LooseVersion.

Inductive component : Type :=
  | Num (n : N)
  | Str (s : string).

(** The character classes of [component_re], [(\d+ | [a-z]+ | \.)]. *)
Inductive cls : Type := Digit | Lower | Dot | Other.

Definition classify (c : ascii) : cls :=
  let n := nat_of_ascii c in
  if (48 <=? n)%nat && (n <=? 57)%nat then Digit
  else if (97 <=? n)%nat && (n <=? 122)%nat then Lower
  else if Ascii.eqb c "." then Dot
  else Other.

Definition cls_eqb (a b : cls) : bool :=
  match a, b with
  | Digit, Digit | Lower, Lower | Dot, Dot | Other, Other => true
  | _, _ => false
  end.

(** [component_re.split(vstring)] without its empty strings: the maximal
    runs of digits, of lower-case letters and of other characters, and every
    dot on its own. *)
Fixpoint tokens (s : string) : list (cls * string) :=
  match s with
  | EmptyString => []
  | String c s' =>
      let k := classify c in
      match k, tokens s' with
      | Dot, r => (Dot, String c EmptyString) :: r
      | _, (k', t) :: r =>
          if cls_eqb k k'
          then (k, String c t) :: r
          else (k, String c EmptyString) :: (k', t) :: r
      | _, [] => [(k, String c EmptyString)]
      end
  end.

(** [int(x)] on a run of decimal digits. *)
Fixpoint int_go (acc : N) (s : string) : N :=
  match s with
  | EmptyString => acc
  | String c s' => int_go (10 * acc + (N_of_ascii c - 48))%N s'
  end.

Definition int (s : string) : N := int_go 0%N s.

Definition component_of (t : cls * string) : list component :=
  match t with
  | (Dot, _) => []
  | (Digit, s) => [Num (int s)]
  | (_, s) => [Str s]
  end.

(** [LooseVersion.parse]: the value of the [version] attribute. *)
Definition parse (vstring : string) : list component :=
  concat (map component_of (tokens vstring)).

(** [LooseVersion(vstring)]: the constructor parses only a non-empty string,
    so the object of an empty one has no [version] attribute ([None]). *)
Definition LooseVersion (vstring : string) : option (list component) :=
  match vstring with
  | EmptyString => None
  | _ => Some (parse vstring)
  end.

(** Python 2 [cmp] of two components: numbers by value, strings bytewise, a
    number before a string. *)
Definition cmp_component (a b : component) : comparison :=
  match a, b with
  | Num x, Num y => N.compare x y
  | Str x, Str y => String.compare x y
  | Num _, Str _ => Lt
  | Str _, Num _ => Gt
  end.

(** Python 2 [cmp] of two lists. *)
Fixpoint cmp_list (a b : list component) : comparison :=
  match a, b with
  | [], [] => Eq
  | [], _ :: _ => Lt
  | _ :: _, [] => Gt
  | x :: a', y :: b' =>
      match cmp_component x y with
      | Eq => cmp_list a' b'
      | c => c
      end
  end.

(** [LooseVersion.__cmp__]; [None] is the [AttributeError] of an object
    without [version]. *)
Definition cmp (a b : option (list component)) : option comparison :=
  match a, b with
  | Some x, Some y => Some (cmp_list x y)
  | _, _ => None
  end.

(** [a >= b] *)
Definition ge (a b : option (list component)) : option bool :=
  option_map (fun c => match c with Lt => false | _ => true end) (cmp a b).

(** [a < b] *)
Definition lt (a b : option (list component)) : option bool :=
  option_map (fun c => match c with Lt => true | _ => false end) (cmp a b).

End LooseVersion.

(** ** [os.path.join] (posixpath) *)

Module Posixpath.

Fixpoint endswith_sep (s : string) : bool :=
  match s with
  | EmptyString => false
  | String c EmptyString => Ascii.eqb c "/"
  | String _ s' => endswith_sep s'
  end.

Definition join2 (path b : string) : string :=
  if PyStr.startswith "/" b then b
  else
    match path with
    | EmptyString => b
    | _ => if endswith_sep path then path +:+ b else path +:+ "/" +:+ b
    end.

(** [os.path.join(a, *p)] *)
Definition join (a : string) (p : list string) : string := fold_left join2 p a.

End Posixpath.

(** ** Exceptions, the process state and the monad of the two steps *)

Inductive exn : Type :=
  | EasyBuildError (fmt : string) (args : list string)
  | IOError (msg : string)
  | AttributeError (msg : string)
  | ReError (msg : string)
  | ShutilError (msg : string)
  | Raised (name msg : string).

Inductive arg : Type :=
  | AStr (s : string)
  | AInt (n : nat).

(** What a step does that is visible outside of it, in order. *)
Inductive event : Type :=
  | AdjustPermissions (path : string)
  | ChangeDir (path : string)
  | Mkdtemp (path : string)
  | RunCmd (cmd : string)
  | Debug (fmt : string) (args : list arg).

(** The value of [self.cfg['key']]. *)
Inductive key_value : Type :=
  | KeyNone
  | KeyStr (s : string)
  | KeyList (l : list string).

(** The entries of [self.cfg] the easyblock reads. *)
Record Cfg : Type := mkCfg {
  license_file : option string;
  license_server : option string;
  license_server_port : option string;
  java_options : string;
  key : key_value;
  preinstallopts : string;
  installopts : string;
  start_dir : string
}.

(** The attributes of the easyblock object that the steps only read. *)
Record Self : Type := mkSelf {
  version : string;
  builddir : string;
  installdir : string
}.

(** What the steps read and write: [self.cfg], [os.environ], the regular
    files (path to contents) and directories they deal with, the working
    directory, and the events so far. *)
Record State : Type := mkState {
  cfg : Cfg;
  environ : gmap string string;
  files : gmap string string;
  dirs : gset string;
  cwd : string;
  trace : list event
}.

Definition set_cfg (c : Cfg) (st : State) : State :=
  mkState c (environ st) (files st) (dirs st) (cwd st) (trace st).
Definition set_environ (e : gmap string string) (st : State) : State :=
  mkState (cfg st) e (files st) (dirs st) (cwd st) (trace st).
Definition set_files (f : gmap string string) (st : State) : State :=
  mkState (cfg st) (environ st) f (dirs st) (cwd st) (trace st).
Definition set_dirs (d : gset string) (st : State) : State :=
  mkState (cfg st) (environ st) (files st) d (cwd st) (trace st).
Definition set_cwd (d : string) (st : State) : State :=
  mkState (cfg st) (environ st) (files st) (dirs st) d (trace st).
Definition emit (e : event) (st : State) : State :=
  mkState (cfg st) (environ st) (files st) (dirs st) (cwd st) (trace st ++ [e]).

Definition set_preinstallopts (p : string) (c : Cfg) : Cfg :=
  mkCfg (license_file c) (license_server c) (license_server_port c) (java_options c)
        (key c) p (installopts c) (start_dir c).

(** A computation either returns or raises; the state survives a raise. *)
Definition Py (A : Type) : Type := State -> State * (exn + A).

Definition ret {A} (a : A) : Py A := fun st => (st, inr a).
Definition raise {A} (e : exn) : Py A := fun st => (st, inl e).
Definition bind {A B} (m : Py A) (k : A -> Py B) : Py B :=
  fun st =>
    match m st with
    | (st', inr a) => k a st'
    | (st', inl e) => (st', inl e)
    end.

Notation "'let!' x ':=' m 'in' k" := (bind m (fun x => k))
  (at level 10, x pattern, m at level 100, k at level 200).
Notation "'do!' m 'in' k" := (bind m (fun _ => k))
  (at level 10, m at level 100, k at level 200).

Definition get : Py State := fun st => (st, inr st).
Definition modify (f : State -> State) : Py unit := fun st => (f st, inr tt).

(** [try: m  except IOError as err: h err] *)
Definition except_IOError {A} (m : Py A) (h : string -> Py A) : Py A :=
  fun st =>
    match m st with
    | (st', inl (IOError msg)) => h msg st'
    | r => r
    end.

(** [m] followed by [f] whether [m] raised or not, as the exit of a [with]
    block does. *)
Definition finally {A} (m : Py A) (f : Py unit) : Py A :=
  fun st =>
    match m st with
    | (st', r) =>
        match f st' with
        | (st'', inl e) => (st'', inl e)
        | (st'', inr _) => (st'', r)
        end
    end.

(** [for x in l: body x] *)
Fixpoint for_each {A} (l : list A) (body : A -> Py unit) : Py unit :=
  match l with
  | [] => ret tt
  | x :: l' => do! body x in for_each l' body
  end.

(** [enumerate(l)] *)
Fixpoint enumerate_from {A} (i : nat) (l : list A) : list (nat * A) :=
  match l with
  | [] => []
  | x :: l' => (i, x) :: enumerate_from (S i) l'
  end.

Definition enumerate {A} (l : list A) : list (nat * A) := enumerate_from 0 l.

Definition nl : string := String PyStr.newline EmptyString.
Definition dquote : string := String (ascii_of_nat 34) EmptyString.

(** *** The calls into the standard library and into the framework

    The framework helpers ([adjust_permissions], [change_dir], [write_file],
    [read_file]) and [tempfile] are not part of this repository.  They are
    taken on the path on which they succeed, apart from reading a file that
    does not exist; a file is its path and its contents. *)

Definition log_debug (fmt : string) (args : list arg) : Py unit :=
  modify (emit (Debug fmt args)).

(** [os.getenv(name, default)] *)
Definition getenv (name default : string) : Py string :=
  let! st := get in
  ret (match environ st !! name with Some v => v | None => default end).

Definition write_file (path txt : string) : Py unit :=
  modify (fun st => set_files (<[path := txt]> (files st)) st).

Definition read_file (path : string) : Py string :=
  let! st := get in
  match files st !! path with
  | Some txt => ret txt
  | None => raise (EasyBuildError "Failed to read %s: %s" [path; "No such file or directory"])
  end.

(** [open(path).read()] *)
Definition open_read (path : string) : Py string :=
  let! st := get in
  match files st !! path with
  | Some txt => ret txt
  | None => raise (IOError ("No such file or directory: " +:+ path))
  end.

(** [shutil.copyfile(src, dst)] *)
Definition copyfile (src dst : string) : Py unit :=
  if String.eqb src dst
  then raise (ShutilError "are the same file")
  else let! txt := open_read src in write_file dst txt.

Definition adjust_permissions (path : string) : Py unit :=
  modify (emit (AdjustPermissions path)).

Definition change_dir (path : string) : Py unit :=
  modify (fun st => emit (ChangeDir path) (set_cwd path st)).

(** A path that names neither a file nor a directory of the state. *)
Definition fresh_path (st : State) : string :=
  fresh_string_of_set "/tmp/tmp" (dirs st ∪ dom (files st)).

(** [tempfile.mkdtemp()]: a new directory with a path not in use. *)
Definition mkdtemp : Py string :=
  let! st := get in
  let d := fresh_path st in
  do! modify (fun st => emit (Mkdtemp d) (set_dirs ({[d]} ∪ dirs st) st)) in
  ret d.

(** [tempfile.NamedTemporaryFile()]: a new empty file with a path not in
    use; the result is [fd.name]. *)
Definition NamedTemporaryFile : Py string :=
  let! st := get in
  let name := fresh_path st in
  do! write_file name EmptyString in
  ret name.

(** [fd.write(txt)] on the temporary file [name].  The text is taken as
    written through at once; the source does not flush the file before the
    command runs, and no statement below speaks of what the file holds while
    it runs. *)
Definition fd_write (name txt : string) : Py unit := write_file name txt.

(** Leaving the [with] block of a temporary file closes and deletes it. *)
Definition NamedTemporaryFile_exit (name : string) : Py unit :=
  modify (fun st => set_files (delete name (files st)) st).

(** [LooseVersion(a) >= LooseVersion(b)] *)
Definition version_ge (a b : string) : Py bool :=
  match LooseVersion.ge (LooseVersion.LooseVersion a) (LooseVersion.LooseVersion b) with
  | Some r => ret r
  | None => raise (AttributeError "LooseVersion instance has no attribute 'version'")
  end.

(** [s.split(sep)] *)
Definition str_split (s sep : string) : Py (list string) :=
  match PyStr.split sep s with
  | Some l => ret l
  | None => raise (Raised "ValueError" "empty separator")
  end.

Definition re_compile (text : string) (fl : Re.flags) : Py Re.pattern :=
  match Re.compile text fl with
  | Some p => ret p
  | None => raise (ReError text)
  end.

(** ** The easyblock *)

Section EB_MATLAB.

(** [sre_parse.parse_template], see [Re.sub]. *)
Variable compile_repl : string -> option (string -> string).

(** The installer behind [run_cmd]: from the state at the call and the
    command, the captured output and the exit code of [simple=False], or the
    exception [run_cmd] raises.  [run_cmd] belongs to the framework. *)
Variable installer : State -> string -> exn + (string * Z).

Definition run_cmd (cmd : string) : Py (string * Z) :=
  let! st := get in
  do! modify (emit (RunCmd cmd)) in
  match installer st cmd with
  | inr r => ret r
  | inl e => raise e
  end.

Definition re_sub (p : Re.pattern) (repl s : string) : Py string :=
  match Re.sub compile_repl p repl s with
  | Some r => ret r
  | None => raise (ReError repl)
  end.

(** [__init__]: [self.configfile] *)
Definition configfile (self : Self) : string :=
  Posixpath.join (builddir self) ["my_installer_input.txt"].

(** The text of the license file [configure_step] creates. *)
Definition lictxt (licserv licport : string) : string :=
  PyStr.join nl ["SERVER " +:+ licserv +:+ " 000000000000 " +:+ licport; "USE_SERVER"].

(** Lines 72-87: the license file to use, created when none is configured. *)
Definition license_step (self : Self) : Py string :=
  let! st := get in
  match license_file (cfg st) with
  | Some licfile => ret licfile
  | None =>
      let! licserv :=
        match license_server (cfg st) with
        | Some s => ret s
        | None => getenv "EB_MATLAB_LICENSE_SERVER" "license.example.com"
        end in
      let! licport :=
        match license_server_port (cfg st) with
        | Some s => ret s
        | None => getenv "EB_MATLAB_LICENSE_SERVER_PORT" "00000"
        end in
      let licfile := Posixpath.join (builddir self) ["matlab.lic"] in
      do! write_file licfile (lictxt licserv licport) in
      ret licfile
  end.

(** Lines 93-101: the four substitutions. *)
Definition compose_config (self : Self) (licfile config : string) : Py string :=
  let! regdest := re_compile "^# destinationFolder=.*" Re.M in
  let! regagree := re_compile "^# agreeToLicense=.*" Re.M in
  let! regmode := re_compile "^# mode=.*" Re.M in
  let! reglicpath := re_compile "^# licensePath=.*" Re.M in
  let! config := re_sub regdest ("destinationFolder=" +:+ installdir self) config in
  let! config := re_sub regagree "agreeToLicense=Yes" config in
  let! config := re_sub regmode "mode=silent" config in
  re_sub reglicpath ("licensePath=" +:+ licfile) config.

Definition configure_step (self : Self) : Py unit :=
  let! licfile := license_step self in
  let! config :=
    except_IOError
      (let! st := get in
       do! copyfile (Posixpath.join (start_dir (cfg st)) ["installer_input.txt"])
                    (configfile self) in
       let! config := read_file (configfile self) in
       let! config := compose_config self licfile config in
       do! write_file (configfile self) config in
       ret config)
      (fun err =>
         raise (EasyBuildError "Failed to create installation config file %s: %s"
                               [configfile self; err])) in
  log_debug ("configuration file written to %s:" +:+ nl +:+ " %s")
            [AStr (configfile self); AStr config].

(** Lines 137-141: the keys to install with. *)
Definition install_keys : Py (list string) :=
  let! st := get in
  match key (cfg st) with
  | KeyList l => ret l
  | KeyStr s => str_split s ","
  | KeyNone =>
      let! s := getenv "EB_MATLAB_KEY"
                  "00000-00000-00000-00000-00000-00000-00000-00000-00000-00000" in
      str_split s ","
  end.

(** Line 155: the configuration of one key. *)
Definition tmp_config_for (key template : string) : string :=
  PyStr.replace "# fileInstallationKey=" ("fileInstallationKey=" +:+ key) template.

(** Lines 160-166: the command of version 2020a and later. *)
Definition binary_installer_cmd (c : Cfg) (src tmp_configfile : string) : string :=
  PyStr.join " " [preinstallopts c; src; "-inputFile"; tmp_configfile; installopts c].

(** Lines 175-185: the command of the older versions. *)
Definition script_installer_cmd (c : Cfg) (self : Self) (src tmpdir key : string) : string :=
  PyStr.join " " [preinstallopts c; src; "-v"; tmpdir; "-inputFile"; configfile self;
                  "-fileInstallationKey"; key; installopts c].

(** Lines 148-171: the installer run of version 2020a and later. *)
Definition run_binary_installer (self : Self) (src key : string) : Py (string * string) :=
  do! log_debug "Version is %s - using binary installer method" [AStr (version self)] in
  let! tmp_configfile := NamedTemporaryFile in
  except_IOError
    (finally
       (let! tmp_config := open_read (configfile self) in
        let tmp_config := tmp_config_for key tmp_config in
        do! fd_write tmp_configfile tmp_config in
        do! log_debug ("temp config file written to %s:" +:+ nl +:+ " %s")
                      [AStr tmp_configfile; AStr tmp_config] in
        let! st := get in
        let cmd := binary_installer_cmd (cfg st) src tmp_configfile in
        let! r := run_cmd cmd in
        ret (cmd, fst r))
       (NamedTemporaryFile_exit tmp_configfile))
    (fun err =>
       raise (EasyBuildError "Failed to create temporary config file %s: %s"
                             [tmp_configfile; err])).

(** Lines 173-187: the installer run of the older versions. *)
Definition run_script_installer (self : Self) (src tmpdir key : string) : Py (string * string) :=
  do! log_debug "Version is %s - using script installer method" [AStr (version self)] in
  let! st := get in
  let cmd := script_installer_cmd (cfg st) self src tmpdir key in
  let! r := run_cmd cmd in
  ret (cmd, fst r).

Definition patterns : list string :=
  ["Error: You have entered an invalid File Installation Key"].

(** Lines 189-198: the check of the installer output. *)
Definition check_output (cmd out : string) : Py unit :=
  for_each patterns (fun pattern =>
    let! regex := re_compile pattern Re.I in
    if Re.search regex out
    then raise (EasyBuildError
                  "Found error pattern '%s' in output of installation command '%s': %s"
                  [Re.pattern_text regex; cmd; out])
    else ret tt).

(** Lines 148-187: the installer run of one key, by the method of the
    version; the result is the command and its captured output. *)
Definition run_installer (self : Self) (src tmpdir key : string) : Py (string * string) :=
  let! modern := version_ge (version self) "2020a" in
  if modern
  then run_binary_installer self src key
  else run_script_installer self src tmpdir key.

(** Lines 144-198: the body of the loop over the keys. *)
Definition install_with_key (self : Self) (src tmpdir : string) (nkeys : nat)
    (ik : nat * string) : Py unit :=
  let '(i, key) := ik in
  do! log_debug "Installing with key %s of %s" [AInt (i + 1); AInt nkeys] in
  let! (cmd, out) := run_installer self src tmpdir key in
  check_output cmd out.

(** Lines 144-198: the loop over the keys. *)
Definition install_loop (self : Self) (src tmpdir : string) (keys : list string) : Py unit :=
  for_each (enumerate keys) (install_with_key self src tmpdir (length keys)).

(** Lines 113-135: what [install_step] does before it reads the keys; the
    result is [src] and [tmpdir]. *)
Definition install_prepare (self : Self) : Py (string * string) :=
  let! st := get in
  let src := Posixpath.join (start_dir (cfg st)) ["install"] in
  do! adjust_permissions src in
  let! recent := version_ge (version self) "2016b" in
  do! (if recent
       then
         let jdir := Posixpath.join (start_dir (cfg st))
                       ["sys"; "java"; "jre"; "glnxa64"; "jre"; "bin"] in
         for_each [Posixpath.join (start_dir (cfg st)) ["bin"; "glnxa64"]; jdir]
                  adjust_permissions
       else ret tt) in
  do! modify (fun st => set_environ (delete "DISPLAY" (environ st)) st) in
  do! (if negb (PyStr.contains "_JAVA_OPTIONS" (preinstallopts (cfg st)))
       then
         let java_opts := "export _JAVA_OPTIONS=" +:+ dquote +:+ java_options (cfg st)
                          +:+ dquote +:+ " && " in
         modify (fun st =>
                   set_cfg (set_preinstallopts (java_opts +:+ preinstallopts (cfg st)) (cfg st)) st)
       else ret tt) in
  let! recent := version_ge (version self) "2016b" in
  do! (if recent then change_dir (builddir self) else ret tt) in
  let! d := mkdtemp in
  let tmpdir := "-tmpdir " +:+ d in
  ret (src, tmpdir).

Definition install_step (self : Self) : Py unit :=
  let! (src, tmpdir) := install_prepare self in
  let! keys := install_keys in
  install_loop self src tmpdir keys.

End EB_MATLAB.

(** ** The module file *)

Section EB_MATLAB_module.

(** The text of [super(EB_MATLAB, self).make_module_extra()] and the two
    methods of [self.module_generator], which belong to the framework. *)
Variable super_make_module_extra : Py string.
Variable prepend_paths : string -> string -> string.
Variable set_environment : string -> string -> string.

(** Lines 208-219.  An empty [java_options] is false. *)
Definition make_module_extra (self : Self) : Py string :=
  let! txt := super_make_module_extra in
  let! runtime := version_ge (version self) "2017a" in
  let txt :=
    if runtime
    then
      fold_left
        (fun txt ldlibdir =>
           let libdir := Posixpath.join ldlibdir ["glnxa64"] in
           txt +:+ prepend_paths "LD_LIBRARY_PATH" libdir)
        ["runtime"; "bin"; Posixpath.join "sys" ["os"]] txt
    else txt in
  let! st := get in
  let txt :=
    if String.eqb (java_options (cfg st)) ""
    then txt
    else txt +:+ set_environment "_JAVA_OPTIONS" (java_options (cfg st)) in
  ret txt.

End EB_MATLAB_module.

(** ** Vocabulary of the statements *)

(** The commands given to [run_cmd], in order. *)
Fixpoint runs (tr : list event) : list string :=
  match tr with
  | [] => []
  | RunCmd cmd :: tr' => cmd :: runs tr'
  | _ :: tr' => runs tr'
  end.

(** The directories made by [tempfile.mkdtemp], in order. *)
Fixpoint mkdtemps (tr : list event) : list string :=
  match tr with
  | [] => []
  | Mkdtemp d :: tr' => d :: mkdtemps tr'
  | _ :: tr' => mkdtemps tr'
  end.

(** Modelled from the spec: the generic command execution and output capture
    behind [run_cmd] (easybuild.tools.run), which is not under src/.  The spec
    gives this collaborator a simple contract: the composed command is
    executed and the combined output text and the exit status of the installer
    subprocess are captured.  [proc] is the subprocess: from the state at the
    call and the command, its output and its exit status; both are handed
    back to the caller, whatever the status is. *)
Definition spec_run_cmd (proc : State -> string -> string * Z)
    : State -> string -> exn + (string * Z) :=
  fun st cmd => inr (proc st cmd).

(** A computation that neither reads nor writes the state. *)
Definition pure_py {A} (m : Py A) : Prop := exists r, forall st, m st = (st, r).

(** The regex items of a text without metacharacters. *)
Fixpoint lit_items (text : string) : list Re.item :=
  match text with
  | EmptyString => []
  | String c text' => Re.Once (Re.Lit c) :: lit_items text'
  end.

(** The items of [^marker.*]. *)
Definition marker_items (marker : string) : list Re.item :=
  Re.Once Re.Bol :: lit_items marker ++ [Re.Star Re.AnyChar].

Definition invalid_key_pattern : string :=
  "Error: You have entered an invalid File Installation Key".

Definition found_error_fmt : string :=
  "Found error pattern '%s' in output of installation command '%s': %s".

Definition key_marker : string := "# fileInstallationKey=".

Definition default_lictxt : string :=
  "SERVER license.example.com 000000000000 00000" +:+ nl +:+ "USE_SERVER".

(** The events and errors of one installer run. *)
Definition debug_binary (self : Self) : event :=
  Debug "Version is %s - using binary installer method" [AStr (version self)].
Definition debug_script (self : Self) : event :=
  Debug "Version is %s - using script installer method" [AStr (version self)].
Definition debug_tmp_config (name tmp_config : string) : event :=
  Debug ("temp config file written to %s:" +:+ nl +:+ " %s") [AStr name; AStr tmp_config].
Definition debug_installing (i n : nat) : event :=
  Debug "Installing with key %s of %s" [AInt i; AInt n].
Definition tmp_config_error (name msg : string) : exn :=
  EasyBuildError "Failed to create temporary config file %s: %s" [name; msg].

(** The state in which [install_step] reads the keys, for a version that
    compares with 2016b as [recent] tells. *)
Definition java_opts (c : Cfg) : string :=
  "export _JAVA_OPTIONS=" +:+ dquote +:+ java_options c +:+ dquote +:+ " && ".

Definition prepared_cfg (c : Cfg) : Cfg :=
  if PyStr.contains "_JAVA_OPTIONS" (preinstallopts c)
  then c
  else set_preinstallopts (java_opts c +:+ preinstallopts c) c.

Definition prepare_events (self : Self) (recent : bool) (st : State) : list event :=
  AdjustPermissions (Posixpath.join (start_dir (cfg st)) ["install"])
  :: (if recent
      then [AdjustPermissions (Posixpath.join (start_dir (cfg st)) ["bin"; "glnxa64"]);
            AdjustPermissions (Posixpath.join (start_dir (cfg st))
                                 ["sys"; "java"; "jre"; "glnxa64"; "jre"; "bin"]);
            ChangeDir (builddir self)]
      else [])
  ++ [Mkdtemp (fresh_path st)].

Definition prepared (self : Self) (recent : bool) (st : State) : State :=
  mkState (prepared_cfg (cfg st))
          (delete "DISPLAY" (environ st))
          (files st)
          ({[fresh_path st]} ∪ dirs st)
          (if recent then builddir self else cwd st)
          (trace st ++ prepare_events self recent st).

(** [LooseVersion(v)] *)
Definition lv (v : string) : option (list LooseVersion.component) :=
  LooseVersion.LooseVersion v.

(** The states of the script loop differ in their events only. *)
Definition same_but_trace (st st' : State) : Prop :=
  cfg st' = cfg st /\ environ st' = environ st /\ files st' = files st
  /\ dirs st' = dirs st /\ cwd st' = cwd st.

(** [u] cuts the occurrences of [p]: none runs into it from the left. *)
Definition cuts (p u : string) : Prop :=
  forall t, PyStr.startswith p (t +:+ u) = PyStr.startswith p t.

Definition no_newline (s : string) : Prop := PyStr.has_char PyStr.newline s = false.

(** Where a line stops: at the end of the text or before a newline. *)
Definition line_end (rest : string) : Prop :=
  rest = "" \/ exists r, rest = String PyStr.newline r.

(** What [^marker.*] with [re.M] and the replacement [repl] make of one
    line. *)
Definition sub_line (marker repl l : string) : string :=
  if PyStr.startswith marker l then repl else l.

(** The four markers of [configure_step]. *)
Definition is_marker_line (l : string) : bool :=
  PyStr.startswith "# destinationFolder=" l
  || PyStr.startswith "# agreeToLicense=" l
  || PyStr.startswith "# mode=" l
  || PyStr.startswith "# licensePath=" l.

(** The activated form of a line of the template: a marker line becomes its
    assignment, any other line stays. *)
Definition activate (installdir licfile l : string) : string :=
  if PyStr.startswith "# destinationFolder=" l then "destinationFolder=" +:+ installdir
  else if PyStr.startswith "# agreeToLicense=" l then "agreeToLicense=Yes"
  else if PyStr.startswith "# mode=" l then "mode=silent"
  else if PyStr.startswith "# licensePath=" l then "licensePath=" +:+ licfile
  else l.

(** The license file [configure_step] puts into the configuration. *)
Definition licfile_of (self : Self) (c : Cfg) : string :=
  match license_file c with
  | Some f => f
  | None => Posixpath.join (builddir self) ["matlab.lic"]
  end.

(** The template [configure_step] copies. *)
Definition template_path (c : Cfg) : string :=
  Posixpath.join (start_dir c) ["installer_input.txt"].

Definition no_backslash (s : string) : Prop := PyStr.has_char PyStr.backslash s = false.

(** [s[-1]], when there is one. *)
Fixpoint last_char (s : string) : option ascii :=
  match s with
  | EmptyString => None
  | String c EmptyString => Some c
  | String _ s' => last_char s'
  end.

(** The host and the port of the license file [configure_step] writes: the
    configured value, else the value of the environment, else the
    placeholder. *)
Definition license_host (st : State) : string :=
  match license_server (cfg st) with
  | Some s => s
  | None =>
      match environ st !! "EB_MATLAB_LICENSE_SERVER" with
      | Some v => v
      | None => "license.example.com"
      end
  end.

Definition license_port (st : State) : string :=
  match license_server_port (cfg st) with
  | Some s => s
  | None =>
      match environ st !! "EB_MATLAB_LICENSE_SERVER_PORT" with
      | Some v => v
      | None => "00000"
      end
  end.

Definition placeholder_key : string :=
  "00000-00000-00000-00000-00000-00000-00000-00000-00000-00000".

Definition config_file_error (self : Self) (msg : string) : exn :=
  EasyBuildError "Failed to create installation config file %s: %s" [configfile self; msg].

Definition no_version_error : exn :=
  AttributeError "LooseVersion instance has no attribute 'version'".



(** ** Concrete inputs *)

(** A template with one line for each marker, as the vendor ships it. *)
Definition ex_template : string :=
  "## MATLAB installer input" +:+ nl
  +:+ "# destinationFolder=" +:+ nl
  +:+ "# fileInstallationKey=" +:+ nl
  +:+ "# agreeToLicense=" +:+ nl
  +:+ "# mode=" +:+ nl
  +:+ "# licensePath=" +:+ nl.

Definition ex_cfg (licserv : option string) (k : key_value) : Cfg :=
  mkCfg None licserv None "-Xmx256m" k "" "" "/build/matlab".

(** A state with the template unpacked and nothing else. *)
Definition ex_state (licserv : option string) (k : key_value) : State :=
  mkState (ex_cfg licserv k) ∅ {[ "/build/matlab/installer_input.txt" := ex_template ]} ∅ "/" [].

Definition ex_self (v installdir : string) : Self := mkSelf v "/build" installdir.

(** No replacement template with a backslash is accepted. *)
Definition no_escapes : string -> option (string -> string) := fun _ => None.

(** An installer that fails without saying why. *)
Definition silent_installer : State -> string -> exn + (string * Z) :=
  fun _ _ => inr ("Installation finished", 1%Z).

(** An installer that rejects the key BBBB, given on the command line or in
    the input file. *)
Definition picky_installer : State -> string -> exn + (string * Z) :=
  fun _ cmd =>
    if PyStr.contains "BBBB" cmd
    then inr ("error: you have entered an INVALID file installation key", 0%Z)
    else inr ("Installation finished", 0%Z).

(** The state after [configure_step] on [ex_state]. *)
Definition ex_configured (k : key_value) : State :=
  fst (configure_step no_escapes (ex_self "2020a" "/opt/matlab") (ex_state None k)).

(** * Properties *)

(** ** Strings *)

Lemma str_app_nil_l (s : string) : "" +:+ s = s.
Proof. reflexivity. Qed.

Lemma str_app_cons (c : ascii) (s t : string) : String c s +:+ t = String c (s +:+ t).
Proof. reflexivity. Qed.

Lemma str_app_nil_r (s : string) : s +:+ "" = s.
Proof.
  induction s as [|c s IH]; [reflexivity | now rewrite str_app_cons, IH].
Qed.

Lemma str_app_assoc (a b c : string) : (a +:+ b) +:+ c = a +:+ (b +:+ c).
Proof.
  induction a as [|x a IH]; [reflexivity | now rewrite !str_app_cons, IH].
Qed.

Lemma str_app_inv_head (a b c : string) : a +:+ b = a +:+ c -> b = c.
Proof.
  induction a as [|x a IH]; intros H; [exact H|].
  rewrite !str_app_cons in H. injection H as H. auto.
Qed.

Lemma str_length_app (a b : string) :
  String.length (a +:+ b) = String.length a + String.length b.
Proof.
  induction a as [|x a IH]; [reflexivity|].
  rewrite str_app_cons. simpl. now rewrite IH.
Qed.

Lemma startswith_nil (s : string) : PyStr.startswith "" s = true.
Proof. destruct s; reflexivity. Qed.

Lemma startswith_cons (c d : ascii) (p s : string) :
  PyStr.startswith (String c p) (String d s) = Ascii.eqb c d && PyStr.startswith p s.
Proof.
  unfold PyStr.startswith; simpl.
  destruct (ascii_dec c d) as [->|Hne].
  - now rewrite Ascii.eqb_refl.
  - apply Ascii.eqb_neq in Hne. now rewrite Hne.
Qed.

Lemma startswith_app (p s : string) : PyStr.startswith p (p +:+ s) = true.
Proof.
  induction p as [|c p IH].
  - apply startswith_nil.
  - now rewrite str_app_cons, startswith_cons, Ascii.eqb_refl.
Qed.

Lemma startswith_inv (p s : string) :
  PyStr.startswith p s = true -> exists t, s = p +:+ t.
Proof.
  revert s; induction p as [|c p IH]; intros s H.
  - now exists s.
  - destruct s as [|d s]; [discriminate|].
    rewrite startswith_cons in H. apply andb_true_iff in H as [Hc Hp].
    apply Ascii.eqb_eq in Hc as ->. destruct (IH _ Hp) as [t ->]. now exists t.
Qed.

(** ** [os.path.join] *)

Lemma join_relative_inj (b x y : string) :
  PyStr.startswith "/" x = false -> PyStr.startswith "/" y = false ->
  Posixpath.join b [x] = Posixpath.join b [y] -> x = y.
Proof.
  intros Hx Hy. unfold Posixpath.join; simpl. unfold Posixpath.join2.
  rewrite Hx, Hy. destruct b as [|c b]; [auto|].
  destruct (Posixpath.endswith_sep (String c b)).
  - apply str_app_inv_head.
  - intros H. apply str_app_inv_head in H. now apply str_app_inv_head in H.
Qed.

Lemma configfile_not_licfile (self : Self) :
  configfile self <> Posixpath.join (builddir self) ["matlab.lic"].
Proof.
  unfold configfile. intros H. apply join_relative_inj in H; [discriminate | reflexivity ..].
Qed.

(** ** The monad *)

Lemma pure_ret {A} (a : A) : pure_py (ret a).
Proof. now exists (inr a). Qed.

Lemma pure_raise {A} (e : exn) : pure_py (@raise A e).
Proof. now exists (inl e). Qed.

Lemma pure_bind {A B} (m : Py A) (k : A -> Py B) :
  pure_py m -> (forall a, pure_py (k a)) -> pure_py (bind m k).
Proof.
  intros [r Hm] Hk. destruct r as [e|a].
  - exists (inl e). intros st. unfold bind. now rewrite Hm.
  - destruct (Hk a) as [r Hr]. exists r. intros st. unfold bind. now rewrite Hm.
Qed.

Lemma pure_re_compile (text : string) (fl : Re.flags) : pure_py (re_compile text fl).
Proof. unfold re_compile. destruct (Re.compile text fl); [apply pure_ret | apply pure_raise]. Qed.

Lemma pure_re_sub cr (p : Re.pattern) (repl s : string) : pure_py (re_sub cr p repl s).
Proof. unfold re_sub. destruct (Re.sub cr p repl s); [apply pure_ret | apply pure_raise]. Qed.

Lemma pure_compose_config cr self licfile config :
  pure_py (compose_config cr self licfile config).
Proof.
  unfold compose_config.
  repeat (apply pure_bind; [first [apply pure_re_compile | apply pure_re_sub] | intros ?]).
  apply pure_re_sub.
Qed.

(** ** The license file *)

Lemma license_step_default self st :
  license_file (cfg st) = None ->
  license_server (cfg st) = None ->
  license_server_port (cfg st) = None ->
  environ st !! "EB_MATLAB_LICENSE_SERVER" = None ->
  environ st !! "EB_MATLAB_LICENSE_SERVER_PORT" = None ->
  license_step self st =
    (set_files (<[Posixpath.join (builddir self) ["matlab.lic"] := default_lictxt]> (files st)) st,
     inr (Posixpath.join (builddir self) ["matlab.lic"])).
Proof.
  intros Hf Hs Hp Hes Hep.
  unfold license_step, bind, get, getenv, write_file, modify, ret, bind, get.
  rewrite Hf, Hs, Hp. simpl. rewrite Hes, Hep. reflexivity.
Qed.

(** After the license file is settled, [configure_step] writes to
    [self.configfile] only. *)
Lemma configure_rest_files cr self licfile st p :
  p <> configfile self ->
  let rest :=
    let! config :=
      except_IOError
        (let! st := get in
         do! copyfile (Posixpath.join (start_dir (cfg st)) ["installer_input.txt"])
                      (configfile self) in
         let! config := read_file (configfile self) in
         let! config := compose_config cr self licfile config in
         do! write_file (configfile self) config in
         ret config)
        (fun err =>
           raise (EasyBuildError "Failed to create installation config file %s: %s"
                                 [configfile self; err])) in
    log_debug ("configuration file written to %s:" +:+ nl +:+ " %s")
              [AStr (configfile self); AStr config] in
  files (fst (rest st)) !! p = files st !! p.
Proof.
  intros Hp rest. subst rest.
  unfold except_IOError, bind, get, copyfile, open_read, read_file, write_file,
    log_debug, modify, raise, ret, bind, get.
  destruct (String.eqb _ _); [reflexivity|].
  destruct (files st !! _) as [tpl|]; [|reflexivity].
  cbn [files set_files fst]. rewrite lookup_insert_eq.
  destruct (pure_compose_config cr self licfile tpl) as [r Hr]. rewrite Hr.
  destruct r as [e|config].
  - destruct e; cbn; now rewrite lookup_insert_ne.
  - cbn. now rewrite !lookup_insert_ne.
Qed.

(** C7, as amended: when no license file, no license server and no license
    server port are configured and neither EB_MATLAB_LICENSE_SERVER nor
    EB_MATLAB_LICENSE_SERVER_PORT is set, [configure_step] leaves in
    builddir/matlab.lic exactly the text
    "SERVER license.example.com 000000000000 00000", a newline, "USE_SERVER",
    whether the rest of the step succeeds or not. *)
Theorem configure_step_default_license cr self st :
  license_file (cfg st) = None ->
  license_server (cfg st) = None ->
  license_server_port (cfg st) = None ->
  environ st !! "EB_MATLAB_LICENSE_SERVER" = None ->
  environ st !! "EB_MATLAB_LICENSE_SERVER_PORT" = None ->
  files (fst (configure_step cr self st)) !! Posixpath.join (builddir self) ["matlab.lic"]
  = Some default_lictxt.
Proof.
  intros Hf Hs Hp Hes Hep. unfold configure_step.
  unfold bind at 1. rewrite license_step_default by assumption.
  pose proof (configure_rest_files cr self (Posixpath.join (builddir self) ["matlab.lic"])) as H.
  cbv zeta in H. rewrite H.
  - cbn. apply lookup_insert_eq.
  - intros E. symmetry in E. now apply configfile_not_licfile in E.
Qed.

(** ** [re] on a pattern without metacharacters *)

Lemma lower_app (a b : string) : PyStr.lower (a +:+ b) = PyStr.lower a +:+ PyStr.lower b.
Proof.
  induction a as [|c a IH]; [reflexivity|].
  rewrite str_app_cons. simpl. now rewrite IH.
Qed.

Lemma match_lit_icase (text : string) (bol : bool) (s : string) :
  Re.match_items Re.I (lit_items text) bol s =
  if PyStr.startswith (PyStr.lower text) (PyStr.lower s)
  then Some (String.length text) else None.
Proof.
  revert bol s; induction text as [|c text IH]; intros bol s.
  - simpl. now rewrite startswith_nil.
  - destruct s as [|d s]; [reflexivity|].
    cbn [lit_items Re.match_items PyStr.lower String.length].
    rewrite startswith_cons. cbn [Re.atom_matches Re.I Re.ignorecase].
    destruct (Ascii.eqb _ _); [|reflexivity].
    rewrite IH. cbn [andb]. now destruct (PyStr.startswith _ _).
Qed.

Lemma search_lit_icase (text : string) (bol : bool) (s : string) :
  Re.search_go Re.I (lit_items text) bol s =
  PyStr.contains (PyStr.lower text) (PyStr.lower s).
Proof.
  revert bol; induction s as [|d s IH]; intros bol.
  - cbn [Re.search_go]. rewrite match_lit_icase. cbn [PyStr.lower PyStr.contains].
    destruct (PyStr.startswith _ _); reflexivity.
  - cbn [Re.search_go]. rewrite match_lit_icase. cbn [PyStr.lower PyStr.contains].
    destruct (PyStr.startswith _ _); [reflexivity|]. cbn [orb]. apply IH.
Qed.

Lemma compile_invalid_key_pattern :
  Re.compile invalid_key_pattern Re.I =
  Some (Re.Pattern invalid_key_pattern Re.I (lit_items invalid_key_pattern)).
Proof. reflexivity. Qed.

(** The check of the output raises exactly when the output holds the
    message, whatever the case of its letters. *)
Lemma check_output_spec (cmd out : string) (st : State) :
  check_output cmd out st =
  (st, if PyStr.contains (PyStr.lower invalid_key_pattern) (PyStr.lower out)
       then inl (EasyBuildError found_error_fmt [invalid_key_pattern; cmd; out])
       else inr tt).
Proof.
  unfold check_output, patterns, for_each, re_compile.
  change "Error: You have entered an invalid File Installation Key" with invalid_key_pattern.
  rewrite compile_invalid_key_pattern. unfold bind, ret, Re.search.
  cbn [Re.pattern_flags Re.items Re.pattern_text]. rewrite search_lit_icase.
  destruct (PyStr.contains _ _); reflexivity.
Qed.

(** ** The loop *)

Lemma for_each_app {A} (l1 l2 : list A) (body : A -> Py unit) (st : State) :
  for_each (l1 ++ l2) body st = (do! for_each l1 body in for_each l2 body) st.
Proof.
  revert st; induction l1 as [|x l1 IH]; intros st; [reflexivity|].
  cbn [app for_each]. unfold bind.
  destruct (body x st) as [st' [e|[]]]; [reflexivity|]. rewrite IH. reflexivity.
Qed.

Lemma for_each_ext {A} (l : list A) (f g : A -> Py unit) :
  (forall x st, f x st = g x st) -> forall st, for_each l f st = for_each l g st.
Proof.
  intros H. induction l as [|x l IH]; intros st; [reflexivity|].
  cbn [for_each]. unfold bind. rewrite H. destruct (g x st) as [st' [e|[]]]; auto.
Qed.

Lemma enumerate_from_app {A} (i : nat) (l1 l2 : list A) :
  enumerate_from i (l1 ++ l2) =
  (enumerate_from i l1 ++ enumerate_from (i + length l1) l2)%list.
Proof.
  revert i; induction l1 as [|x l1 IH]; intros i; cbn [app enumerate_from length].
  - now rewrite Nat.add_0_r.
  - rewrite IH. now replace (S i + length l1) with (i + S (length l1)) by lia.
Qed.

Lemma runs_app (a b : list event) : runs (a ++ b) = (runs a ++ runs b)%list.
Proof.
  induction a as [|e a IH]; [reflexivity|]. destruct e; cbn [app runs]; rewrite IH; reflexivity.
Qed.

Lemma mkdtemps_app (a b : list event) :
  mkdtemps (a ++ b) = (mkdtemps a ++ mkdtemps b)%list.
Proof.
  induction a as [|e a IH]; [reflexivity|].
  destruct e; cbn [app mkdtemps]; rewrite IH; reflexivity.
Qed.

(** ** One installer run *)

Ltac py_unfold :=
  unfold run_binary_installer, run_script_installer, run_cmd,
    NamedTemporaryFile, NamedTemporaryFile_exit, fd_write, open_read, write_file,
    log_debug, except_IOError, finally, bind, get, modify, raise, ret.

Lemma run_script_installer_eq inst self src tmpdir key st :
  run_script_installer inst self src tmpdir key st =
  let st1 := emit (debug_script self) st in
  let cmd := script_installer_cmd (cfg st) self src tmpdir key in
  (emit (RunCmd cmd) st1,
   match inst st1 cmd with
   | inr (out, _) => inr (cmd, out)
   | inl e => inl e
   end).
Proof.
  py_unfold. cbv zeta. cbn [cfg emit].
  destruct (inst _ _) as [e|[out ec]]; reflexivity.
Qed.

Lemma run_binary_installer_eq inst self src key st :
  run_binary_installer inst self src key st =
  let st1 := emit (debug_binary self) st in
  let name := fresh_path st in
  match <[name := ""]> (files st) !! configfile self with
  | None =>
      (set_files (delete name (<[name := ""]> (files st))) st1,
       inl (tmp_config_error name ("No such file or directory: " +:+ configfile self)))
  | Some base =>
      let tmp := tmp_config_for key base in
      let st2 := emit (debug_tmp_config name tmp)
                   (set_files (<[name := tmp]> (<[name := ""]> (files st))) st1) in
      let cmd := binary_installer_cmd (cfg st) src name in
      (set_files (delete name (files st2)) (emit (RunCmd cmd) st2),
       match inst st2 cmd with
       | inr (out, _) => inr (cmd, out)
       | inl (IOError msg) => inl (tmp_config_error name msg)
       | inl e => inl e
       end)
  end.
Proof.
  py_unfold. cbv zeta. cbn [cfg emit files set_files].
  change (fresh_path (emit _ st)) with (fresh_path st).
  destruct (_ !! configfile self) as [base|]; [|reflexivity].
  destruct (inst _ _) as [e|[out ec]]; [destruct e|]; reflexivity.
Qed.

Lemma run_installer_eq inst self src tmpdir key st :
  run_installer inst self src tmpdir key st =
  match LooseVersion.ge (LooseVersion.LooseVersion (version self))
                        (LooseVersion.LooseVersion "2020a") with
  | Some true => run_binary_installer inst self src key st
  | Some false => run_script_installer inst self src tmpdir key st
  | None => (st, inl (AttributeError "LooseVersion instance has no attribute 'version'"))
  end.
Proof.
  unfold run_installer, version_ge, bind.
  destruct (LooseVersion.ge _ _) as [[|]|]; reflexivity.
Qed.

(** One installer run gives [run_cmd] at most one command, and exactly the
    command it returns when it returns. *)
Lemma run_installer_runs inst self src tmpdir key st :
  exists l,
    runs (trace (fst (run_installer inst self src tmpdir key st)))
    = (runs (trace st) ++ l)%list
    /\ length l <= 1
    /\ forall cmd out,
         snd (run_installer inst self src tmpdir key st) = inr (cmd, out) -> l = [cmd].
Proof.
  rewrite run_installer_eq. destruct (LooseVersion.ge _ _) as [[|]|].
  - rewrite run_binary_installer_eq. cbv zeta.
    destruct (_ !! configfile self) as [base|].
    + exists [binary_installer_cmd (cfg st) src (fresh_path st)]. split; [|split].
      * cbn [fst trace set_files emit]. rewrite !runs_app. cbn. now rewrite !app_nil_r.
      * simpl; lia.
      * cbn [snd]. intros cmd out.
        destruct (inst _ _) as [e|[o ec]]; [destruct e; discriminate|]. now intros [= <- _].
    + exists []. split; [|split].
      * cbn [fst trace set_files emit]. rewrite runs_app. cbn. now rewrite !app_nil_r.
      * simpl; lia.
      * discriminate.
  - rewrite run_script_installer_eq. cbv zeta.
    exists [script_installer_cmd (cfg st) self src tmpdir key]. split; [|split].
    + cbn [fst trace emit]. rewrite !runs_app. cbn. now rewrite !app_nil_r.
    + simpl; lia.
    + cbn [snd]. intros cmd out.
      destruct (inst _ _) as [e|[o ec]]; [discriminate|]. now intros [= <- _].
  - exists []. split; [now rewrite app_nil_r|]. split; [simpl; lia | discriminate].
Qed.

(** ** One pass of the loop *)

Lemma install_with_key_eq inst self src tmpdir n i key st :
  install_with_key inst self src tmpdir n (i, key) st =
  match run_installer inst self src tmpdir key (emit (debug_installing (i + 1) n) st) with
  | (st2, inr (cmd, out)) =>
      (st2, if PyStr.contains (PyStr.lower invalid_key_pattern) (PyStr.lower out)
            then inl (EasyBuildError found_error_fmt [invalid_key_pattern; cmd; out])
            else inr tt)
  | (st2, inl e) => (st2, inl e)
  end.
Proof.
  unfold install_with_key, log_debug, modify. unfold bind at 1 2.
  change (emit (Debug _ _) st) with (emit (debug_installing (i + 1) n) st).
  destruct (run_installer _ _ _ _ _ _) as [st2 [e|[cmd out]]]; [reflexivity|].
  apply check_output_spec.
Qed.

(** A pass that returns has run exactly one command. *)
Lemma install_with_key_ok_runs inst self src tmpdir n ik st st' :
  install_with_key inst self src tmpdir n ik st = (st', inr tt) ->
  exists cmd, runs (trace st') = (runs (trace st) ++ [cmd])%list.
Proof.
  destruct ik as [i key]. rewrite install_with_key_eq.
  destruct (run_installer_runs inst self src tmpdir key (emit (debug_installing (i + 1) n) st))
    as (l & Hl & _ & Hcmd).
  destruct (run_installer _ _ _ _ _ _) as [st2 [e|[cmd out]]]; [discriminate|].
  cbn [fst snd] in *. rewrite (Hcmd cmd out eq_refl) in Hl.
  destruct (PyStr.contains _ _); [discriminate|]. intros [= <-].
  exists cmd. rewrite Hl. cbn [trace emit]. rewrite runs_app. cbn. now rewrite app_nil_r.
Qed.

Lemma for_each_ok_runs inst self src tmpdir n l st st' :
  for_each l (install_with_key inst self src tmpdir n) st = (st', inr tt) ->
  length (runs (trace st')) = length (runs (trace st)) + length l.
Proof.
  revert st; induction l as [|ik l IH]; intros st.
  - intros [= <-]. cbn. lia.
  - cbn [for_each]. unfold bind.
    destruct (install_with_key _ _ _ _ _ _ _) as [st1 [e|[]]] eqn:E; [discriminate|].
    intros H. apply IH in H. apply install_with_key_ok_runs in E as [cmd E].
    rewrite H, E, length_app. cbn. lia.
Qed.

Lemma length_enumerate_from {A} (i : nat) (l : list A) :
  length (enumerate_from i l) = length l.
Proof. revert i; induction l as [|x l IH]; intros i; cbn; [reflexivity | now rewrite IH]. Qed.

(** C1: in a run of the loop over the keys, when the passes for the keys
    [pre] have returned and the installer run for the next key [k] returns
    the command [cmd] and an output [out] that holds the invalid-key message
    in any letter case, the loop raises the error that carries the pattern,
    [cmd] and [out], in the state the installer run left: the installer has
    run once for each key up to [k], and for none of the keys [post]. *)
Theorem invalid_key_aborts_loop inst self src tmpdir pre k post st st1 st2 cmd out :
  let keys := (pre ++ k :: post)%list in
  for_each (enumerate pre) (install_with_key inst self src tmpdir (length keys)) st
    = (st1, inr tt) ->
  run_installer inst self src tmpdir k
    (emit (debug_installing (length pre + 1) (length keys)) st1) = (st2, inr (cmd, out)) ->
  PyStr.contains (PyStr.lower invalid_key_pattern) (PyStr.lower out) = true ->
  install_loop inst self src tmpdir keys st
    = (st2, inl (EasyBuildError found_error_fmt [invalid_key_pattern; cmd; out]))
  /\ length (runs (trace st2)) = length (runs (trace st)) + length pre + 1.
Proof.
  intros keys Hpre Hrun Hout. split.
  - unfold install_loop, enumerate. subst keys.
    rewrite enumerate_from_app, for_each_app. unfold bind at 1.
    unfold enumerate in Hpre. rewrite Hpre. cbn [enumerate_from for_each]. unfold bind.
    rewrite install_with_key_eq. cbn [Nat.add]. rewrite Hrun, Hout. reflexivity.
  - apply for_each_ok_runs in Hpre. unfold enumerate in Hpre.
    rewrite length_enumerate_from in Hpre.
    destruct (run_installer_runs inst self src tmpdir k
                (emit (debug_installing (length pre + 1) (length keys)) st1))
      as (l & Hl & _ & Hcmd).
    rewrite Hrun in Hl, Hcmd. cbn [fst snd] in *. rewrite (Hcmd cmd out eq_refl) in Hl.
    rewrite Hl. cbn [trace emit]. rewrite runs_app, !length_app. cbn. lia.
Qed.

(** ** The steps before the loop *)

Lemma fresh_path_same (a b : State) :
  dirs a = dirs b -> files a = files b -> fresh_path a = fresh_path b.
Proof. unfold fresh_path. now intros -> ->. Qed.

Lemma state_eq (a b : State) :
  cfg a = cfg b -> environ a = environ b -> files a = files b -> dirs a = dirs b ->
  cwd a = cwd b -> trace a = trace b -> a = b.
Proof. destruct a, b; cbn; now intros -> -> -> -> -> ->. Qed.

Lemma install_prepare_eq self st :
  install_prepare self st =
  match LooseVersion.ge (LooseVersion.LooseVersion (version self))
                        (LooseVersion.LooseVersion "2016b") with
  | Some recent =>
      (prepared self recent st,
       inr (Posixpath.join (start_dir (cfg st)) ["install"], "-tmpdir " +:+ fresh_path st))
  | None =>
      (emit (AdjustPermissions (Posixpath.join (start_dir (cfg st)) ["install"])) st,
       inl (AttributeError "LooseVersion instance has no attribute 'version'"))
  end.
Proof.
  unfold install_prepare, adjust_permissions, change_dir, mkdtemp, version_ge,
    modify, get, ret, raise.
  unfold bind at 1 2 3.
  destruct (LooseVersion.ge _ _) as [recent|]; [|reflexivity].
  destruct recent, (PyStr.contains "_JAVA_OPTIONS" (preinstallopts (cfg st))) eqn:E;
    cbn [for_each negb]; unfold bind, ret;
    repeat match goal with
      | |- context [fresh_path ?x] =>
          lazymatch x with
          | st => fail
          | _ => replace (fresh_path x) with (fresh_path st)
                   by (apply fresh_path_same; reflexivity)
          end
      end;
    (f_equal; apply state_eq;
     unfold prepared, prepared_cfg, prepare_events, java_opts;
     cbn [cfg environ files dirs cwd trace emit set_environ set_cfg set_dirs set_cwd
          preinstallopts];
     rewrite ?E; repeat rewrite <- app_assoc; reflexivity).
Qed.

(** ** The version test *)

(** C5: [LooseVersion] reads "2016b" as the number 2016 and the letter b
    and orders 2016b < 2017a < 2020a < 2020b; the order is not the one of
    the strings (999b is before 2020a as a version and after it as a
    string).  An installer run takes the input-file method with the
    temporary configuration exactly when the version is at or above 2020a,
    and the script method below it. *)
Theorem version_order_selects_method :
  lv "2016b" = Some [LooseVersion.Num 2016; LooseVersion.Str "b"]
  /\ lv "2020a" = Some [LooseVersion.Num 2020; LooseVersion.Str "a"]
  /\ LooseVersion.cmp (lv "2016b") (lv "2017a") = Some Lt
  /\ LooseVersion.cmp (lv "2017a") (lv "2020a") = Some Lt
  /\ LooseVersion.cmp (lv "2020a") (lv "2020b") = Some Lt
  /\ LooseVersion.cmp (lv "2016b") (lv "2020b") = Some Lt
  /\ (LooseVersion.cmp (lv "999b") (lv "2020a") = Some Lt
      /\ String.compare "999b" "2020a" = Gt)
  /\ (forall inst self src tmpdir key st,
         run_installer inst self src tmpdir key st =
         match LooseVersion.ge (lv (version self)) (lv "2020a") with
         | Some true => run_binary_installer inst self src key st
         | Some false => run_script_installer inst self src tmpdir key st
         | None =>
             (st, inl (AttributeError "LooseVersion instance has no attribute 'version'"))
         end)
  /\ (forall inst self src tmpdir key st,
         exists rest,
           trace (fst (run_installer inst self src tmpdir key st)) =
           (trace st
            ++ match LooseVersion.ge (lv (version self)) (lv "2020a") with
               | Some true => debug_binary self :: rest
               | Some false =>
                   [debug_script self;
                    RunCmd (script_installer_cmd (cfg st) self src tmpdir key)]
               | None => []
               end)%list).
Proof.
  repeat split; try reflexivity.
  - intros. apply run_installer_eq.
  - intros inst self src tmpdir key st. rewrite run_installer_eq. unfold lv.
    destruct (LooseVersion.ge _ _) as [[|]|].
    + rewrite run_binary_installer_eq. cbv zeta.
      destruct (_ !! configfile self) as [base|].
      * eexists. cbn [fst trace set_files emit]. rewrite <- !app_assoc. reflexivity.
      * exists []. reflexivity.
    + rewrite run_script_installer_eq. cbv zeta. exists [].
      cbn [fst trace emit]. now rewrite <- app_assoc.
    + exists []. cbn [fst]. now rewrite app_nil_r.
Qed.

(** ** Splitting at one character *)

Lemma split_char_cons (c d : ascii) (s : string) :
  PyStr.split_go (String c "") 0 (String d s) =
  if Ascii.eqb c d
  then "" :: PyStr.split_go (String c "") 0 s
  else match PyStr.split_go (String c "") 0 s with
       | seg :: segs => String d seg :: segs
       | [] => [String d ""]
       end.
Proof.
  cbn [PyStr.split_go]. rewrite startswith_cons, startswith_nil, andb_true_r.
  reflexivity.
Qed.

Lemma split_go_nonempty (sep : string) (skip : nat) (s : string) :
  PyStr.split_go sep skip s <> [].
Proof.
  revert skip; induction s as [|d s IH]; intros skip; [discriminate|].
  cbn [PyStr.split_go]. destruct skip; [|apply IH].
  destruct (PyStr.startswith sep _); [discriminate|].
  destruct (PyStr.split_go sep 0 s); discriminate.
Qed.

Lemma split_char_length (c : ascii) (s : string) :
  length (PyStr.split_go (String c "") 0 s) = PyStr.count_char c s + 1.
Proof.
  induction s as [|d s IH]; [reflexivity|].
  rewrite split_char_cons. cbn [PyStr.count_char]. destruct (Ascii.eqb c d).
  - cbn [length]. rewrite IH. lia.
  - destruct (PyStr.split_go _ 0 s) as [|seg segs] eqn:E;
      [now apply split_go_nonempty in E|]. cbn [length] in *. lia.
Qed.

Lemma split_char_join (c : ascii) (s : string) :
  PyStr.join (String c "") (PyStr.split_go (String c "") 0 s) = s.
Proof.
  unfold PyStr.join. induction s as [|d s IH]; [reflexivity|].
  rewrite split_char_cons. destruct (Ascii.eqb_spec c d) as [->|Hne].
  - destruct (PyStr.split_go _ 0 s) as [|seg segs] eqn:E;
      [now apply split_go_nonempty in E|].
    cbn [String.concat] in *. rewrite IH. reflexivity.
  - destruct (PyStr.split_go _ 0 s) as [|seg segs] eqn:E;
      [now apply split_go_nonempty in E|].
    destruct segs; cbn [String.concat] in *; rewrite <- IH; reflexivity.
Qed.

Lemma split_char_segments (c : ascii) (s : string) :
  Forall (fun seg => PyStr.has_char c seg = false) (PyStr.split_go (String c "") 0 s).
Proof.
  induction s as [|d s IH]; [repeat constructor|].
  rewrite split_char_cons. destruct (Ascii.eqb c d) eqn:Ecd.
  - constructor; [reflexivity | exact IH].
  - destruct (PyStr.split_go _ 0 s) as [|seg segs]; [repeat constructor; cbn; now rewrite Ecd|].
    inversion IH; subst. constructor; [|assumption]. cbn. now rewrite Ecd.
Qed.

(** ** The keys *)

Lemma install_keys_state st : fst (install_keys st) = st.
Proof.
  unfold install_keys, bind, get, getenv, str_split, bind, get, ret.
  destruct (key (cfg st)); reflexivity.
Qed.

Lemma prepared_cfg_key c : key (prepared_cfg c) = key c.
Proof. unfold prepared_cfg. now destruct (PyStr.contains _ _). Qed.

(** The steps before the loop do not change the keys that are read. *)
Lemma install_keys_prepared self recent st :
  install_keys (prepared self recent st) = (prepared self recent st, snd (install_keys st)).
Proof.
  unfold install_keys, bind, get, getenv, str_split, bind, get, ret.
  change (cfg (prepared self recent st)) with (prepared_cfg (cfg st)).
  rewrite prepared_cfg_key.
  destruct (key (cfg st)); cbn [snd]; try reflexivity.
  change (environ (prepared self recent st)) with (delete "DISPLAY" (environ st)).
  now rewrite lookup_delete_ne.
Qed.

Lemma runs_prepare_events self recent st : runs (prepare_events self recent st) = [].
Proof. unfold prepare_events. now destruct recent. Qed.

Lemma install_step_eq inst self st :
  install_step inst self st =
  match LooseVersion.ge (lv (version self)) (lv "2016b") with
  | Some recent =>
      match snd (install_keys st) with
      | inr keys =>
          install_loop inst self (Posixpath.join (start_dir (cfg st)) ["install"])
            ("-tmpdir " +:+ fresh_path st) keys (prepared self recent st)
      | inl e => (prepared self recent st, inl e)
      end
  | None =>
      (emit (AdjustPermissions (Posixpath.join (start_dir (cfg st)) ["install"])) st,
       inl (AttributeError "LooseVersion instance has no attribute 'version'"))
  end.
Proof.
  unfold install_step. unfold bind at 1. rewrite install_prepare_eq. unfold lv.
  destruct (LooseVersion.ge _ _) as [recent|]; [|reflexivity].
  unfold bind. rewrite install_keys_prepared. now destruct (snd (install_keys st)).
Qed.


Lemma install_keys_list st l : key (cfg st) = KeyList l -> install_keys st = (st, inr l).
Proof. intros Hl. unfold install_keys, bind, get, ret. now rewrite Hl. Qed.


(** ** The loop of the older versions *)

Lemma lt_not_ge (a b : option (list LooseVersion.component)) :
  LooseVersion.lt a b = Some true -> LooseVersion.ge a b = Some false.
Proof.
  unfold LooseVersion.lt, LooseVersion.ge.
  destruct (LooseVersion.cmp a b) as [[]|]; cbn; congruence.
Qed.

Lemma script_pass inst self src tmpdir n i key st :
  LooseVersion.ge (lv (version self)) (lv "2020a") = Some false ->
  fst (install_with_key inst self src tmpdir n (i, key) st)
  = emit (RunCmd (script_installer_cmd (cfg st) self src tmpdir key))
      (emit (debug_script self) (emit (debug_installing (i + 1) n) st)).
Proof.
  intros Hv. rewrite install_with_key_eq, run_installer_eq. unfold lv in Hv. rewrite Hv.
  rewrite run_script_installer_eq. cbv zeta. cbn [cfg emit].
  destruct (inst _ _) as [e|[out ec]]; [reflexivity|].
  now destruct (PyStr.contains _ _).
Qed.

Lemma runs_script_pass (tr : list event) (a b : nat) (self : Self) (c : string) :
  runs (((tr ++ [debug_installing a b]) ++ [debug_script self]) ++ [RunCmd c])
  = (runs tr ++ [c])%list.
Proof. rewrite !runs_app. cbn. now rewrite !app_nil_r. Qed.

Lemma mkdtemps_script_pass (tr : list event) (a b : nat) (self : Self) (c : string) :
  mkdtemps (((tr ++ [debug_installing a b]) ++ [debug_script self]) ++ [RunCmd c])
  = mkdtemps tr.
Proof. rewrite !mkdtemps_app. cbn. now rewrite !app_nil_r. Qed.

Lemma script_loop inst self src tmpdir n l st :
  LooseVersion.ge (lv (version self)) (lv "2020a") = Some false ->
  let r := for_each l (install_with_key inst self src tmpdir n) st in
  exists m,
    m <= length l
    /\ (l <> [] -> 1 <= m)
    /\ (snd r = inr tt -> m = length l)
    /\ same_but_trace st (fst r)
    /\ runs (trace (fst r))
       = (runs (trace st)
          ++ map (fun ik => script_installer_cmd (cfg st) self src tmpdir (snd ik)) (firstn m l))%list
    /\ mkdtemps (trace (fst r)) = mkdtemps (trace st).
Proof.
  intros Hv. revert st; induction l as [|[i key] l IH]; intros st r; subst r.
  - exists 0. cbn [for_each ret fst snd length firstn map].
    rewrite app_nil_r. unfold same_but_trace. repeat split; auto. congruence.
  - cbn [for_each]. unfold bind.
    pose proof (script_pass inst self src tmpdir n i key st Hv) as Hp.
    destruct (install_with_key _ _ _ _ _ _ _) as [st1 [e|[]]]; cbn [fst snd] in *.
    + exists 1. subst st1. cbn [length firstn map snd trace emit].
      rewrite runs_script_pass, mkdtemps_script_pass.
      unfold same_but_trace. cbn [cfg environ files dirs cwd emit].
      repeat split; auto; try lia. discriminate.
    + destruct (IH st1) as (m & Hm & _ & Hok & Hsame & Hruns & Hmk).
      exists (S m). subst st1. cbn [length firstn map snd].
      rewrite Hruns, Hmk. cbn [trace emit cfg].
      rewrite runs_script_pass, mkdtemps_script_pass.
      destruct Hsame as (H1 & H2 & H3 & H4 & H5).
      cbn [cfg environ files dirs cwd emit] in *.
      unfold same_but_trace.
      split; [lia|]. split; [intros _; lia|]. split; [intros H'; now rewrite Hok|].
      split; [repeat split; assumption|]. split; [|reflexivity].
      now rewrite <- app_assoc.
Qed.

Lemma ge_defined_of_lt (v a b : string) r :
  LooseVersion.lt (lv v) (lv a) = Some r ->
  exists recent, LooseVersion.ge (lv v) (lv b) = Some recent \/ b = "".
Proof.
  unfold LooseVersion.lt, LooseVersion.ge, LooseVersion.cmp, lv, LooseVersion.LooseVersion.
  destruct v; [discriminate|]. intros _. destruct b; [exists true; now right|].
  eexists. left. reflexivity.
Qed.

Lemma fresh_path_fresh st : fresh_path st ∉ dirs st ∪ dom (files st).
Proof. apply fresh_string_of_set_fresh. Qed.

Lemma fresh_path_not_dir st : fresh_path st ∉ dirs st.
Proof. pose proof (fresh_path_fresh st) as H. set_solver. Qed.

Lemma fresh_path_not_in_files st : fresh_path st ∉ dom (files st).
Proof. pose proof (fresh_path_fresh st) as H. set_solver. Qed.

Lemma fresh_path_made (d : string) (X : gset string) : d ∈ ({[d]} ∪ X : gset string).
Proof. set_solver. Qed.

Lemma install_keys_snd st keys : install_keys st = (st, inr keys) -> snd (install_keys st) = inr keys.
Proof. now intros ->. Qed.

(** C8, as amended: for a version below 2020a, [install_step] makes one
    temporary directory, before the loop, at a path that was not in use, and
    every installer run of the step is the script command with that same
    directory: the commands are those of the first [m] keys, in order, with
    [m] the whole list when the step returns. *)
Theorem script_installs_share_one_tmpdir inst self st keys :
  LooseVersion.lt (lv (version self)) (lv "2020a") = Some true ->
  install_keys st = (st, inr keys) ->
  let st' := fst (install_step inst self st) in
  let src := Posixpath.join (start_dir (cfg st)) ["install"] in
  exists d m,
    (d ∉ dirs st) /\ (d ∉ dom (files st)) /\ (d ∈ dirs st')
    /\ mkdtemps (trace st') = (mkdtemps (trace st) ++ [d])%list
    /\ m <= length keys
    /\ (keys <> [] -> 1 <= m)
    /\ (snd (install_step inst self st) = inr tt -> m = length keys)
    /\ runs (trace st')
       = (runs (trace st)
          ++ map (script_installer_cmd (prepared_cfg (cfg st)) self src ("-tmpdir " +:+ d))
                 (firstn m keys))%list.
Proof.
  intros Hlt Hkeys st' src. subst st'.
  destruct (ge_defined_of_lt _ _ "2016b" _ Hlt) as [recent [Hrec|?]]; [|discriminate].
  rewrite install_step_eq, Hrec, (install_keys_snd _ _ Hkeys).
  apply lt_not_ge in Hlt. unfold install_loop.
  destruct (script_loop inst self src ("-tmpdir " +:+ fresh_path st) (length keys)
              (enumerate keys) (prepared self recent st) Hlt)
    as (m & Hm & Hne & Hok & Hsame & Hruns & Hmk).
  cbv zeta in *. fold src.
  destruct Hsame as (_ & _ & _ & Hdirs & _).
  unfold enumerate in *. rewrite length_enumerate_from in *.
  exists (fresh_path st), m. repeat split.
  - apply fresh_path_not_dir.
  - apply fresh_path_not_in_files.
  - rewrite Hdirs. cbn [prepared dirs]. apply fresh_path_made.
  - rewrite Hmk. cbn [prepared trace]. rewrite mkdtemps_app. f_equal.
    unfold prepare_events. now destruct recent.
  - exact Hm.
  - intros Hk. apply Hne. destruct keys; [congruence | discriminate].
  - exact Hok.
  - rewrite Hruns. cbn [prepared trace cfg].
    rewrite runs_app, runs_prepare_events, app_nil_r. f_equal.
    clear. generalize 0 as i. revert m. induction keys as [|k keys IH]; intros m i.
    + now destruct m.
    + destruct m; [reflexivity|]. cbn [enumerate_from firstn map snd]. now rewrite IH.
Qed.

Lemma prepared_preinstallopts c :
  exists pfx, preinstallopts (prepared_cfg c) = pfx +:+ preinstallopts c.
Proof.
  unfold prepared_cfg. destruct (PyStr.contains _ _).
  - now exists "".
  - now exists (java_opts c).
Qed.

Lemma for_each_one_state {A} (x : A) (body : A -> Py unit) (st : State) :
  fst (for_each [x] body st) = fst (body x st).
Proof.
  cbn [for_each]. unfold bind, ret. now destruct (body x st) as [st1 [e|[]]].
Qed.

(** C6: for one key [k] and a version below 2020a, the step makes a
    temporary directory [d] at a path that was not in use and then runs one
    command: the pre-install options (the configured ones, after the export
    of _JAVA_OPTIONS when they do not name it), the path of install, -v,
    -tmpdir [d], -inputFile, the configuration file, -fileInstallationKey,
    [k] and the install options, joined by single spaces, in this order. *)
Theorem script_install_command inst self st k :
  LooseVersion.lt (lv (version self)) (lv "2020a") = Some true ->
  install_keys st = (st, inr [k]) ->
  let st' := fst (install_step inst self st) in
  exists d pre before,
    (exists pfx, pre = pfx +:+ preinstallopts (cfg st))
    /\ (d ∉ dirs st) /\ (d ∉ dom (files st)) /\ (d ∈ dirs st')
    /\ mkdtemps before = [] /\ runs before = []
    /\ trace st' =
       (trace st ++ before
        ++ [Mkdtemp d; debug_installing 1 1; debug_script self;
            RunCmd (PyStr.join " " [pre; Posixpath.join (start_dir (cfg st)) ["install"];
                                    "-v"; "-tmpdir " +:+ d; "-inputFile"; configfile self;
                                    "-fileInstallationKey"; k; installopts (cfg st)])])%list.
Proof.
  intros Hlt Hkeys st'. subst st'.
  destruct (ge_defined_of_lt _ _ "2016b" _ Hlt) as [recent [Hrec|?]]; [|discriminate].
  rewrite install_step_eq, Hrec, (install_keys_snd _ _ Hkeys).
  apply lt_not_ge in Hlt. unfold install_loop, enumerate. cbn [enumerate_from length].
  rewrite for_each_one_state, script_pass by assumption.
  pose proof (fresh_path_fresh st) as Hfresh.
  exists (fresh_path st), (preinstallopts (prepared_cfg (cfg st))),
    (removelast (prepare_events self recent st)).
  repeat split.
  - apply prepared_preinstallopts.
  - apply fresh_path_not_dir.
  - apply fresh_path_not_in_files.
  - cbn [emit prepared dirs]. apply fresh_path_made.
  - unfold prepare_events. now destruct recent.
  - unfold prepare_events. now destruct recent.
  - cbn [emit prepared trace cfg]. unfold script_installer_cmd.
    assert (installopts (prepared_cfg (cfg st)) = installopts (cfg st)) as ->
      by (unfold prepared_cfg; now destruct (PyStr.contains _ _)).
    unfold prepare_events. destruct recent; cbn [removelast app]; rewrite <- !app_assoc;
      reflexivity.
Qed.

(** ** Occurrences of one text in another *)

Lemma has_char_app (c : ascii) (a b : string) :
  PyStr.has_char c (a +:+ b) = PyStr.has_char c a || PyStr.has_char c b.
Proof.
  induction a as [|d a IH]; [reflexivity|].
  rewrite str_app_cons. cbn [PyStr.has_char]. now rewrite IH, orb_assoc.
Qed.

Lemma startswith_app_l (p t u : string) :
  PyStr.startswith p t = true -> PyStr.startswith p (t +:+ u) = true.
Proof.
  intros H. apply startswith_inv in H as [r ->]. rewrite str_app_assoc. apply startswith_app.
Qed.

Lemma startswith_length (p s : string) :
  PyStr.startswith p s = true -> String.length p <= String.length s.
Proof.
  intros H. apply startswith_inv in H as [r ->]. rewrite str_length_app. lia.
Qed.

(** A prefix of [t +:+ u] that is not a prefix of [t] runs from inside [t]
    into [u]: what is left of it after [t] is not empty and is a prefix of
    [u]. *)
Lemma startswith_straddle (p t u : string) :
  PyStr.startswith p (t +:+ u) = true ->
  PyStr.startswith p t = true
  \/ exists c p2, PyStr.has_char c p = true /\ PyStr.startswith (String c p2) u = true.
Proof.
  revert p; induction t as [|d t IH]; intros p H.
  - destruct p as [|c p]; [left; apply startswith_nil|].
    right. exists c, p. split; [cbn; now rewrite Ascii.eqb_refl | exact H].
  - destruct p as [|c p]; [left; apply startswith_nil|].
    rewrite str_app_cons, startswith_cons in H. apply andb_true_iff in H as [Hc Hp].
    destruct (IH _ Hp) as [Ht|(c' & p2 & Hin & Hu)].
    + left. rewrite startswith_cons, Hc, Ht. reflexivity.
    + right. exists c', p2. split; [|exact Hu]. cbn. rewrite Hin. apply orb_true_r.
Qed.

Lemma cuts_intro (p u : string) :
  (forall c p2, PyStr.has_char c p = true -> PyStr.startswith (String c p2) u = false) ->
  (PyStr.startswith p u = true -> p = "") ->
  cuts p u.
Proof.
  intros Hu Hnil t. destruct (PyStr.startswith p t) eqn:Ht.
  - now apply startswith_app_l.
  - destruct (PyStr.startswith p (t +:+ u)) eqn:Htu; [|reflexivity].
    apply startswith_straddle in Htu as [Ht'|(c & p2 & Hin & Hp2)]; [congruence|].
    now rewrite (Hu _ _ Hin) in Hp2.
Qed.

(** A text that starts with a character found nowhere in [p] cuts. *)
Lemma cuts_foreign_char (p : string) (d : ascii) (u : string) :
  PyStr.has_char d p = false -> cuts p (String d u).
Proof.
  intros Hd. apply cuts_intro.
  - intros c p2 Hc. rewrite startswith_cons.
    destruct (Ascii.eqb_spec c d) as [->|]; [congruence | reflexivity].
  - destruct p as [|c p]; [reflexivity|]. rewrite startswith_cons.
    cbn in Hd. apply orb_false_iff in Hd as [Hd _]. rewrite Ascii.eqb_sym, Hd. discriminate.
Qed.

Lemma cuts_nil (p : string) : cuts p "".
Proof. intros t. now rewrite str_app_nil_r. Qed.

(** A text whose first character does not come back in it does not overlap
    itself. *)
Lemma cuts_self (c : ascii) (p u : string) :
  PyStr.has_char c p = false ->
  forall t, t <> "" ->
    PyStr.startswith (String c p) (t +:+ String c p +:+ u) = PyStr.startswith (String c p) t.
Proof.
  intros Hc t Ht. destruct (PyStr.startswith (String c p) t) eqn:E.
  - now apply startswith_app_l.
  - destruct (PyStr.startswith _ (t +:+ _)) eqn:Htu; [|reflexivity].
    exfalso. destruct t as [|d t]; [congruence|].
    rewrite str_app_cons, !startswith_cons in *.
    apply andb_true_iff in Htu as [Hcd Htu]. rewrite Hcd in E. cbn in E.
    apply startswith_straddle in Htu as [Ht'|(c' & p2 & Hin & Hp2)]; [congruence|].
    rewrite str_app_cons, startswith_cons in Hp2. apply andb_true_iff in Hp2 as [Hc' _].
    apply Ascii.eqb_eq in Hc' as ->. congruence.
Qed.

(** ** [str.replace] *)

Lemma replace_go_skip (old new p s : string) :
  PyStr.replace_go old new (String.length p) (p +:+ s) = PyStr.replace_go old new 0 s.
Proof.
  induction p as [|c p IH]; [now destruct s|]. rewrite str_app_cons. exact IH.
Qed.

Lemma replace_go_occurrence (c : ascii) (p new s : string) :
  PyStr.replace_go (String c p) new 0 (String c p +:+ s)
  = new +:+ PyStr.replace_go (String c p) new 0 s.
Proof.
  rewrite str_app_cons. cbn [PyStr.replace_go].
  rewrite <- str_app_cons, startswith_app.
  replace (String.length (String c p) - 1) with (String.length p)
    by (cbn [String.length]; lia).
  now rewrite replace_go_skip.
Qed.

Lemma replace_go_cut (old new u : string) :
  (forall t, t <> "" -> PyStr.startswith old (t +:+ u) = PyStr.startswith old t) ->
  forall a k, k <= String.length a ->
    PyStr.replace_go old new k (a +:+ u)
    = PyStr.replace_go old new k a +:+ PyStr.replace_go old new 0 u.
Proof.
  intros Hcut. induction a as [|d a IH]; intros k Hk.
  - cbn in Hk. assert (k = 0) as -> by lia. reflexivity.
  - rewrite str_app_cons. destruct k as [|k].
    + cbn [PyStr.replace_go]. rewrite <- str_app_cons, Hcut by discriminate.
      destruct (PyStr.startswith old (String d a)) eqn:E.
      * apply startswith_length in E. cbn [String.length] in E.
        rewrite IH by lia. now rewrite str_app_assoc.
      * rewrite IH by lia. reflexivity.
    + cbn [PyStr.replace_go]. cbn [String.length] in Hk. apply IH. lia.
Qed.

Lemma replace_go_absent (old new s : string) :
  PyStr.contains old s = false -> PyStr.replace_go old new 0 s = s.
Proof.
  induction s as [|c s IH]; [reflexivity|]. cbn [PyStr.contains PyStr.replace_go].
  intros H. apply orb_false_iff in H as [-> H]. now rewrite IH.
Qed.

(** A marker whose first character does not come back in it: every
    occurrence is replaced, what is around an occurrence is treated on its
    own. *)
Lemma replace_around_occurrence (c : ascii) (p new a b : string) :
  PyStr.has_char c p = false ->
  PyStr.replace (String c p) new (a +:+ String c p +:+ b)
  = PyStr.replace (String c p) new a +:+ new +:+ PyStr.replace (String c p) new b.
Proof.
  intros Hc. unfold PyStr.replace.
  rewrite replace_go_cut; [|now apply cuts_self | lia].
  now rewrite replace_go_occurrence.
Qed.

(** ** The configuration of one key *)

Lemma fresh_path_not_file st : files st !! fresh_path st = None.
Proof.
  pose proof (fresh_path_fresh st) as H. apply not_elem_of_dom. set_solver.
Qed.

Lemma lookup_beside_fresh st path txt x :
  files st !! path = Some txt -> <[fresh_path st := x]> (files st) !! path = Some txt.
Proof.
  intros H. rewrite lookup_insert_ne; [exact H|].
  intros E. rewrite <- E, fresh_path_not_file in H. discriminate.
Qed.

(** The run of version 2020a and later, when the configuration file is
    there: the state it leaves and what it returns. *)
Lemma run_binary_installer_found inst self src key st base :
  files st !! configfile self = Some base ->
  let name := fresh_path st in
  let tmp := tmp_config_for key base in
  let st2 := emit (debug_tmp_config name tmp)
               (set_files (<[name := tmp]> (files st)) (emit (debug_binary self) st)) in
  let cmd := binary_installer_cmd (cfg st) src name in
  run_binary_installer inst self src key st =
  (set_files (files st) (emit (RunCmd cmd) st2),
   match inst st2 cmd with
   | inr (out, _) => inr (cmd, out)
   | inl (IOError msg) => inl (tmp_config_error name msg)
   | inl e => inl e
   end).
Proof.
  intros Hbase. cbv zeta. rewrite run_binary_installer_eq. cbv zeta.
  rewrite (lookup_beside_fresh _ _ _ _ Hbase).
  rewrite insert_insert_eq. cbn [files emit set_files].
  rewrite delete_insert_eq. rewrite delete_id by apply fresh_path_not_file. reflexivity.
Qed.

(** C10: the configuration of one key is a plain text replacement of the
    marker "# fileInstallationKey=": around any occurrence of the marker,
    the text before and the text after are treated on their own and the
    occurrence becomes "fileInstallationKey=" and the key, so what followed
    the marker on its line follows the key; a text without the marker is
    unchanged.  In the run of version 2020a and later this text, made from
    the configuration file, is what is written for the installer. *)
Theorem key_substitution_is_plain_replacement :
  (forall key pre post,
      tmp_config_for key (pre +:+ key_marker +:+ post)
      = tmp_config_for key pre +:+ "fileInstallationKey=" +:+ key +:+ tmp_config_for key post)
  /\ (forall key s,
         PyStr.contains key_marker s = false -> tmp_config_for key s = s)
  /\ tmp_config_for "KEY1" ("a=1 # fileInstallationKey=old" +:+ nl +:+ "# fileInstallationKey=")
     = "a=1 fileInstallationKey=KEY1old" +:+ nl +:+ "fileInstallationKey=KEY1"
  /\ (forall inst self src tmpdir key st base,
         LooseVersion.ge (lv (version self)) (lv "2020a") = Some true ->
         files st !! configfile self = Some base ->
         exists name,
           trace (fst (run_installer inst self src tmpdir key st))
           = (trace st
              ++ [debug_binary self;
                  debug_tmp_config name (tmp_config_for key base);
                  RunCmd (binary_installer_cmd (cfg st) src name)])%list).
Proof.
  split; [|split; [|split]].
  - intros key pre post. unfold tmp_config_for, key_marker.
    rewrite replace_around_occurrence by reflexivity. now rewrite str_app_assoc.
  - intros key s H. unfold tmp_config_for. now apply replace_go_absent.
  - reflexivity.
  - intros inst self src tmpdir key st base Hv Hbase.
    rewrite run_installer_eq. unfold lv in Hv. rewrite Hv.
    rewrite (run_binary_installer_found _ _ _ _ _ _ Hbase). cbv zeta.
    exists (fresh_path st). cbn [fst trace set_files emit]. now rewrite <- !app_assoc.
Qed.

(** ** Lines *)

Lemma join_cons2 (sep l1 l2 : string) (ls : list string) :
  PyStr.join sep (l1 :: l2 :: ls) = l1 +:+ sep +:+ PyStr.join sep (l2 :: ls).
Proof. reflexivity. Qed.

Lemma join_one (sep l : string) : PyStr.join sep [l] = l.
Proof. reflexivity. Qed.

Lemma join_lines (s : string) : PyStr.join nl (PyStr.lines s) = s.
Proof. apply split_char_join. Qed.

Lemma lines_no_newline (s : string) : Forall no_newline (PyStr.lines s).
Proof. apply split_char_segments. Qed.

Lemma lines_nonempty (s : string) : PyStr.lines s <> [].
Proof. apply split_go_nonempty. Qed.

Lemma has_char_cons (c d : ascii) (s : string) :
  PyStr.has_char c (String d s) = Ascii.eqb c d || PyStr.has_char c s.
Proof. reflexivity. Qed.

Lemma has_char_cons_false (c d : ascii) (s : string) :
  PyStr.has_char c (String d s) = false ->
  Ascii.eqb c d = false /\ PyStr.has_char c s = false.
Proof. rewrite has_char_cons. apply orb_false_iff. Qed.

Lemma lines_line_then (l rest : string) :
  no_newline l ->
  PyStr.lines (l +:+ nl +:+ rest) = l :: PyStr.lines rest.
Proof.
  unfold no_newline, PyStr.lines. induction l as [|c l IH]; intros Hl.
  - unfold nl. rewrite str_app_nil_l, str_app_cons, split_char_cons.
    now rewrite Ascii.eqb_refl.
  - apply has_char_cons_false in Hl as [Hc Hl].
    rewrite str_app_cons, split_char_cons, Hc, IH by assumption. reflexivity.
Qed.

Lemma lines_one (l : string) : no_newline l -> PyStr.lines l = [l].
Proof.
  unfold no_newline, PyStr.lines. induction l as [|c l IH]; intros Hl; [reflexivity|].
  apply has_char_cons_false in Hl as [Hc Hl].
  rewrite split_char_cons, Hc, IH by assumption. reflexivity.
Qed.

Lemma lines_join (ls : list string) :
  ls <> [] -> Forall no_newline ls -> PyStr.lines (PyStr.join nl ls) = ls.
Proof.
  induction ls as [|l ls IH]; [congruence|]. intros _ H. inversion H as [|? ? Hl Hls]; subst.
  destruct ls as [|l2 ls]; [now apply lines_one|].
  rewrite join_cons2, lines_line_then by assumption. rewrite IH; [reflexivity | discriminate | assumption].
Qed.

(** ** [str.replace] and [in], line by line *)

Lemma replace_go_newline (old new s : string) :
  no_newline old -> old <> "" ->
  PyStr.replace_go old new 0 (String PyStr.newline s)
  = String PyStr.newline (PyStr.replace_go old new 0 s).
Proof.
  intros Hold Hne. cbn [PyStr.replace_go].
  destruct old as [|c old]; [congruence|]. rewrite startswith_cons.
  apply has_char_cons_false in Hold as [Hc _].
  now rewrite Ascii.eqb_sym, Hc.
Qed.

Lemma replace_go_join (old new : string) (ls : list string) :
  no_newline old -> old <> "" ->
  PyStr.replace_go old new 0 (PyStr.join nl ls)
  = PyStr.join nl (map (PyStr.replace_go old new 0) ls).
Proof.
  intros Hold Hne. induction ls as [|l ls IH]; [reflexivity|].
  destruct ls as [|l2 ls]; [reflexivity|].
  cbn [map] in *. rewrite !join_cons2. unfold nl at 1. rewrite str_app_cons, str_app_nil_l.
  rewrite replace_go_cut; [| intros t _; now apply cuts_foreign_char | lia].
  rewrite replace_go_newline, IH by assumption. reflexivity.
Qed.

Lemma replace_go_no_newline (old new : string) (k : nat) (l : string) :
  no_newline new -> no_newline l -> no_newline (PyStr.replace_go old new k l).
Proof.
  unfold no_newline. intros Hnew. revert k; induction l as [|c l IH]; intros k Hl; [reflexivity|].
  apply has_char_cons_false in Hl as [Hc Hl]. cbn [PyStr.replace_go].
  destruct k; [|now apply IH]. destruct (PyStr.startswith old _).
  - rewrite has_char_app, Hnew. now apply IH.
  - rewrite has_char_cons, Hc. now apply IH.
Qed.

Lemma lines_replace (old new s : string) :
  no_newline old -> old <> "" -> no_newline new ->
  PyStr.lines (PyStr.replace_go old new 0 s)
  = map (PyStr.replace_go old new 0) (PyStr.lines s).
Proof.
  intros Hold Hne Hnew. rewrite <- (join_lines s) at 1.
  rewrite replace_go_join by assumption. apply lines_join.
  - pose proof (lines_nonempty s). now destruct (PyStr.lines s).
  - apply List.Forall_map. eapply List.Forall_impl; [|apply lines_no_newline].
    intros l Hl. now apply replace_go_no_newline.
Qed.

Lemma contains_nil_r (p : string) : p <> "" -> PyStr.contains p "" = false.
Proof. now destruct p. Qed.

Lemma contains_cut (p a u : string) :
  cuts p u -> p <> "" ->
  PyStr.contains p (a +:+ u) = PyStr.contains p a || PyStr.contains p u.
Proof.
  intros Hcut Hp. induction a as [|d a IH].
  - now rewrite str_app_nil_l, contains_nil_r.
  - rewrite str_app_cons. cbn [PyStr.contains].
    rewrite <- str_app_cons, Hcut, IH. now rewrite orb_assoc.
Qed.

Lemma contains_join (p : string) (ls : list string) :
  no_newline p -> p <> "" ->
  PyStr.contains p (PyStr.join nl ls) = existsb (PyStr.contains p) ls.
Proof.
  intros Hp Hne. induction ls as [|l ls IH]; [now apply contains_nil_r|].
  destruct ls as [|l2 ls]; [cbn [existsb]; now rewrite orb_false_r|].
  rewrite join_cons2. unfold nl at 1. rewrite str_app_cons, str_app_nil_l.
  rewrite contains_cut; [| now apply cuts_foreign_char | assumption].
  cbn [PyStr.contains existsb] in *. rewrite IH.
  destruct p as [|c p]; [congruence|]. rewrite startswith_cons.
  apply has_char_cons_false in Hp as [Hc _]. now rewrite Ascii.eqb_sym, Hc.
Qed.

Lemma contains_lines (p s : string) :
  no_newline p -> p <> "" ->
  PyStr.contains p s = existsb (PyStr.contains p) (PyStr.lines s).
Proof. intros Hp Hne. rewrite <- (join_lines s) at 1. now apply contains_join. Qed.

(** ** The pass of version 2020a and later *)

Lemma binary_pass inst self src tmpdir n i key st base :
  LooseVersion.ge (lv (version self)) (lv "2020a") = Some true ->
  files st !! configfile self = Some base ->
  let st1 := fst (install_with_key inst self src tmpdir n (i, key) st) in
  files st1 = files st /\ cfg st1 = cfg st /\ dirs st1 = dirs st
  /\ trace st1 =
     (trace st
      ++ [debug_installing (i + 1) n; debug_binary self;
          debug_tmp_config (fresh_path st) (tmp_config_for key base);
          RunCmd (binary_installer_cmd (cfg st) src (fresh_path st))])%list.
Proof.
  intros Hv Hbase. cbv zeta. rewrite install_with_key_eq, run_installer_eq.
  unfold lv in Hv. rewrite Hv.
  rewrite (run_binary_installer_found inst self src key
             (emit (debug_installing (i + 1) n) st) base Hbase).
  cbv zeta. change (fresh_path (emit _ st)) with (fresh_path st). cbn [cfg files emit].
  destruct (inst _ _) as [e|[out ec]]; [destruct e|destruct (PyStr.contains _ _)];
    cbn [fst files cfg dirs trace set_files emit]; rewrite <- !app_assoc; auto.
Qed.

Lemma existsb_middle {A} (f : A -> bool) (a : list A) (x y : A) (b : list A) :
  f x = f y -> existsb f (a ++ x :: b) = existsb f (a ++ y :: b).
Proof. intros H. rewrite !existsb_app. cbn. now rewrite H. Qed.

Lemma existsb_false {A} (f : A -> bool) (l : list A) :
  Forall (fun x => f x = false) l -> existsb f l = false.
Proof. induction 1 as [|x l Hx _ IH]; [reflexivity|]. cbn. now rewrite Hx, IH. Qed.

Lemma map_replace_absent (old new : string) (ls : list string) :
  Forall (fun l => PyStr.contains old l = false) ls ->
  map (PyStr.replace_go old new 0) ls = ls.
Proof.
  induction 1 as [|l ls Hl _ IH]; [reflexivity|]. cbn. now rewrite IH, replace_go_absent.
Qed.

(** C4: for the keys AAAA and BBBB and a version at or above 2020a.  When
    the base configuration has the line "# fileInstallationKey=" and the
    marker nowhere else, the configuration of key BBBB has the line
    "fileInstallationKey=BBBB" in its place, all other lines unchanged, does
    not hold the marker, and holds AAAA only if the base does.  In the loop,
    after the pass of AAAA has returned, the pass of BBBB writes exactly this
    text, made from the base configuration. *)
Theorem second_key_configuration :
  (forall base before after,
      PyStr.lines base = (before ++ key_marker :: after)%list ->
      Forall (fun l => PyStr.contains key_marker l = false) (before ++ after) ->
      let variant := tmp_config_for "BBBB" base in
      PyStr.lines variant = (before ++ "fileInstallationKey=BBBB" :: after)%list
      /\ PyStr.contains key_marker variant = false
      /\ PyStr.contains "AAAA" variant = PyStr.contains "AAAA" base)
  /\ (forall inst self src tmpdir st st1 base,
         LooseVersion.ge (lv (version self)) (lv "2020a") = Some true ->
         files st !! configfile self = Some base ->
         install_with_key inst self src tmpdir 2 (0, "AAAA") st = (st1, inr tt) ->
         exists name,
           trace (fst (install_loop inst self src tmpdir ["AAAA"; "BBBB"] st))
           = (trace st1
              ++ [debug_installing 2 2; debug_binary self;
                  debug_tmp_config name (tmp_config_for "BBBB" base);
                  RunCmd (binary_installer_cmd (cfg st) src name)])%list).
Proof.
  split.
  - intros base before after Hlines Habsent variant.
    assert (Hv : PyStr.lines variant = (before ++ "fileInstallationKey=BBBB" :: after)%list).
    { subst variant. unfold tmp_config_for, PyStr.replace.
      rewrite lines_replace by (reflexivity || discriminate).
      rewrite Hlines, map_app. cbn [map].
      apply Forall_app in Habsent as [Hb Ha].
      now rewrite !map_replace_absent by assumption. }
    split; [exact Hv|split].
    + rewrite contains_lines by (reflexivity || discriminate). rewrite Hv.
      apply existsb_false. apply Forall_app in Habsent as [Hb Ha].
      apply Forall_app. split; [assumption|]. constructor; [reflexivity | assumption].
    + rewrite !(contains_lines "AAAA") by (reflexivity || discriminate).
      rewrite Hv, Hlines. now apply existsb_middle.
  - intros inst self src tmpdir st st1 base Hv Hbase Hfirst.
    destruct (binary_pass inst self src tmpdir 2 0 "AAAA" st base Hv Hbase)
      as (Hfiles & Hcfg & _ & _).
    rewrite Hfirst in Hfiles, Hcfg. cbn [fst] in Hfiles, Hcfg.
    unfold install_loop, enumerate. cbn [enumerate_from length for_each]. unfold bind at 1.
    rewrite Hfirst. fold (for_each [(1, "BBBB")] (install_with_key inst self src tmpdir 2) st1).
    rewrite for_each_one_state.
    assert (Hbase1 : files st1 !! configfile self = Some base) by now rewrite Hfiles.
    destruct (binary_pass inst self src tmpdir 2 1 "BBBB" st1 base Hv Hbase1)
      as (_ & _ & _ & Htrace).
    exists (fresh_path st1). rewrite Htrace, Hcfg. reflexivity.
Qed.

(** ** [^marker.*] with [re.M] *)

Lemma match_star_cons fl a re' bol c s :
  Re.match_items fl (Re.Star a :: re') bol (String c s) =
  match
    (if Re.atom_matches fl a c
     then option_map S (Re.match_items fl (Re.Star a :: re') (Re.bol_after fl c) s)
     else None)
  with
  | Some n => Some n
  | None => Re.match_items fl re' bol (String c s)
  end.
Proof. reflexivity. Qed.

Lemma match_star_nil fl a re' bol :
  Re.match_items fl (Re.Star a :: re') bol "" = Re.match_items fl re' bol "".
Proof. reflexivity. Qed.

Lemma match_star_any (bol : bool) (l rest : string) :
  no_newline l -> line_end rest ->
  Re.match_items Re.M [Re.Star Re.AnyChar] bol (l +:+ rest) = Some (String.length l).
Proof.
  unfold no_newline. intros Hl Hrest. revert bol; induction l as [|c l IH]; intros bol.
  - rewrite str_app_nil_l. destruct Hrest as [->|[r ->]]; [reflexivity|].
    rewrite match_star_cons. cbn [Re.atom_matches]. now rewrite Ascii.eqb_refl.
  - apply has_char_cons_false in Hl as [Hc Hl]. rewrite str_app_cons.
    rewrite match_star_cons. cbn [Re.atom_matches]. rewrite Ascii.eqb_sym, Hc. cbn [negb].
    rewrite (IH Hl). reflexivity.
Qed.

Lemma match_lit_cons fl c m re' bol d s :
  Re.match_items fl (lit_items (String c m) ++ re') bol (String d s) =
  if Re.atom_matches fl (Re.Lit c) d
  then option_map S (Re.match_items fl (lit_items m ++ re') (Re.bol_after fl d) s)
  else None.
Proof. reflexivity. Qed.

Lemma match_lit_end fl c m re' bol :
  Re.match_items fl (lit_items (String c m) ++ re') bol "" = None.
Proof. reflexivity. Qed.

Lemma atom_matches_lit (c d : ascii) : Re.atom_matches Re.M (Re.Lit c) d = Ascii.eqb c d.
Proof. reflexivity. Qed.

Lemma match_lit_mismatch (m : string) (re' : list Re.item) (bol : bool) (s : string) :
  PyStr.startswith m s = false ->
  Re.match_items Re.M (lit_items m ++ re') bol s = None.
Proof.
  revert bol s; induction m as [|c m IH]; intros bol s H.
  - now rewrite startswith_nil in H.
  - destruct s as [|d s]; [apply match_lit_end|]. rewrite startswith_cons in H.
    rewrite match_lit_cons, atom_matches_lit.
    destruct (Ascii.eqb c d); [|reflexivity]. cbn [andb] in H. now rewrite IH.
Qed.

Lemma match_lit_star (m : string) (bol : bool) (l rest : string) :
  no_newline l -> line_end rest ->
  Re.match_items Re.M (lit_items m ++ [Re.Star Re.AnyChar]) bol (m +:+ l +:+ rest)
  = Some (String.length m + String.length l).
Proof.
  intros Hl Hrest. revert bol; induction m as [|c m IH]; intros bol.
  - rewrite str_app_nil_l. cbn [lit_items app String.length Nat.add].
    now apply match_star_any.
  - rewrite str_app_cons, match_lit_cons, atom_matches_lit, Ascii.eqb_refl, IH.
    reflexivity.
Qed.

(** The match of [^marker.*] at the start of a line is the whole line, when
    the line starts with the marker; elsewhere there is no match. *)
Lemma match_marker_line (m l rest : string) :
  no_newline m -> m <> "" -> no_newline l -> line_end rest ->
  Re.match_items Re.M (marker_items m) true (l +:+ rest)
  = if PyStr.startswith m l then Some (String.length l) else None.
Proof.
  intros Hm Hne Hl Hrest. unfold marker_items.
  change (Re.match_items Re.M (Re.Once Re.Bol :: lit_items m ++ [Re.Star Re.AnyChar]) true
            (l +:+ rest))
    with (Re.match_items Re.M (lit_items m ++ [Re.Star Re.AnyChar]) true (l +:+ rest)).
  assert (Hcut : PyStr.startswith m (l +:+ rest) = PyStr.startswith m l).
  { destruct Hrest as [->|[r ->]]; [now rewrite str_app_nil_r|].
    now apply cuts_foreign_char. }
  destruct (PyStr.startswith m l) eqn:E.
  - apply startswith_inv in E as [t ->]. rewrite str_app_assoc.
    unfold no_newline in Hl. rewrite has_char_app in Hl. apply orb_false_iff in Hl as [_ Ht].
    rewrite match_lit_star by assumption. now rewrite str_length_app.
  - now apply match_lit_mismatch.
Qed.

Lemma match_marker_midline (m s : string) :
  Re.match_items Re.M (marker_items m) false s = None.
Proof. reflexivity. Qed.

(** ** [regex.sub] of [^marker.*], line by line *)

Section SubLines.

Variables (m repl : string).
Hypothesis m_no_newline : no_newline m.
Hypothesis m_nonempty : m <> "".

Let sub := Re.sub_go Re.M (marker_items m) (fun _ => repl).

(** From inside a line to its end nothing matches. *)
Lemma sub_midline_end (adj : bool) (l : string) :
  no_newline l -> sub 0 adj false l = l.
Proof.
  unfold no_newline, sub. revert adj; induction l as [|c l IH]; intros adj Hl; [reflexivity|].
  apply has_char_cons_false in Hl as [Hc Hl].
  cbn [Re.sub_go]. rewrite match_marker_midline.
  unfold Re.bol_after. cbn [Re.M Re.multiline andb]. rewrite Ascii.eqb_sym, Hc.
  now rewrite IH.
Qed.

Lemma sub_midline_newline (adj : bool) (l r : string) :
  no_newline l ->
  sub 0 adj false (l +:+ String PyStr.newline r)
  = l +:+ String PyStr.newline (sub 0 false true r).
Proof.
  unfold no_newline, sub. revert adj; induction l as [|c l IH]; intros adj Hl.
  - rewrite !str_app_nil_l. cbn [Re.sub_go]. rewrite match_marker_midline.
    unfold Re.bol_after. cbn [Re.M Re.multiline andb]. now rewrite Ascii.eqb_refl.
  - apply has_char_cons_false in Hl as [Hc Hl]. rewrite !str_app_cons.
    cbn [Re.sub_go]. rewrite match_marker_midline.
    unfold Re.bol_after. cbn [Re.M Re.multiline andb]. rewrite Ascii.eqb_sym, Hc.
    now rewrite IH.
Qed.

(** Passing over the rest of a replaced line. *)
Lemma sub_skip_line (l rest : string) :
  no_newline l ->
  sub (String.length l) true false (l +:+ rest) = sub 0 true false rest.
Proof.
  unfold no_newline, sub. induction l as [|c l IH]; intros Hl.
  - rewrite str_app_nil_l. now destruct rest.
  - apply has_char_cons_false in Hl as [Hc Hl]. rewrite str_app_cons.
    cbn [String.length Re.sub_go].
    unfold Re.bol_after. cbn [Re.M Re.multiline andb]. rewrite Ascii.eqb_sym, Hc.
    now apply IH.
Qed.

(** The last line of a text. *)
Lemma sub_last_line (adj : bool) (l : string) :
  no_newline l -> sub 0 adj true l = sub_line m repl l.
Proof.
  intros Hl. pose proof (match_marker_line m l "" m_no_newline m_nonempty Hl (or_introl eq_refl)) as Hm.
  rewrite str_app_nil_r in Hm. unfold sub_line, sub.
  destruct l as [|c l].
  - cbn [Re.sub_go]. rewrite Hm. now destruct (PyStr.startswith m "") eqn:E; [destruct m|].
  - cbn [Re.sub_go]. rewrite Hm.
    pose proof Hl as Hl'. apply has_char_cons_false in Hl' as [Hc Hl'].
    unfold Re.bol_after. cbn [Re.M Re.multiline andb]. rewrite Ascii.eqb_sym, Hc.
    destruct (PyStr.startswith m _); cbn [String.length].
    + pose proof (sub_skip_line l "" Hl') as Hs. rewrite str_app_nil_r in Hs.
      unfold sub in Hs. rewrite Hs. cbn [Re.sub_go]. rewrite match_marker_midline.
      now rewrite str_app_nil_r.
    + fold sub. now rewrite sub_midline_end.
Qed.

(** A line followed by more. *)
Lemma sub_line_then (adj : bool) (l r : string) :
  no_newline l ->
  sub 0 adj true (l +:+ String PyStr.newline r)
  = sub_line m repl l +:+ String PyStr.newline (sub 0 false true r).
Proof.
  intros Hl.
  pose proof (match_marker_line m l (String PyStr.newline r) m_no_newline m_nonempty Hl
                (or_intror (ex_intro _ r eq_refl))) as Hm.
  unfold sub_line, sub. destruct l as [|c l].
  - rewrite !str_app_nil_l in *. cbn [Re.sub_go]. rewrite Hm.
    destruct (PyStr.startswith m "") eqn:E; [now destruct m|].
    unfold Re.bol_after. cbn [Re.M Re.multiline andb]. now rewrite Ascii.eqb_refl.
  - rewrite !str_app_cons in *. cbn [Re.sub_go]. rewrite Hm.
    pose proof Hl as Hl'. apply has_char_cons_false in Hl' as [Hc Hl'].
    unfold Re.bol_after. cbn [Re.M Re.multiline andb]. rewrite Ascii.eqb_sym, Hc.
    destruct (PyStr.startswith m _); cbn [String.length].
    + pose proof (sub_skip_line l (String PyStr.newline r) Hl') as Hs.
      unfold sub in Hs. rewrite Hs. cbn [Re.sub_go]. rewrite match_marker_midline.
      unfold Re.bol_after. cbn [Re.M Re.multiline andb]. now rewrite Ascii.eqb_refl.
    + fold sub. rewrite sub_midline_newline by assumption. now rewrite str_app_cons.
Qed.

Lemma sub_join (adj : bool) (ls : list string) :
  ls <> [] -> Forall no_newline ls ->
  sub 0 adj true (PyStr.join nl ls) = PyStr.join nl (map (sub_line m repl) ls).
Proof.
  revert adj; induction ls as [|l ls IH]; intros adj Hne H; [congruence|].
  inversion H as [|? ? Hl Hls]; subst. destruct ls as [|l2 ls].
  - now apply sub_last_line.
  - cbn [map] in *. rewrite !join_cons2. unfold nl at 1 3.
    rewrite !str_app_cons, !str_app_nil_l, sub_line_then by assumption.
    rewrite IH; [reflexivity | discriminate | assumption].
Qed.

End SubLines.

(** ** The four substitutions *)

Lemma re_sub_marker cr (text m repl s : string) :
  no_backslash repl -> no_newline m -> m <> "" ->
  Re.sub cr (Re.Pattern text Re.M (marker_items m)) repl s
  = Some (PyStr.join nl (map (sub_line m repl) (PyStr.lines s))).
Proof.
  intros Hb Hm Hne. unfold Re.sub. unfold no_backslash in Hb. rewrite Hb.
  cbn [Re.pattern_flags Re.items]. rewrite <- (join_lines s) at 1.
  rewrite sub_join; [reflexivity | assumption | assumption | apply lines_nonempty
                    | apply lines_no_newline].
Qed.

Lemma sub_line_no_newline (m repl : string) (ls : list string) :
  no_newline repl -> Forall no_newline ls -> Forall no_newline (map (sub_line m repl) ls).
Proof.
  intros Hr H. apply List.Forall_map. eapply List.Forall_impl; [|exact H].
  intros l Hl. unfold sub_line. now destruct (PyStr.startswith m l).
Qed.

Lemma lines_sub_lines (m repl : string) (ls : list string) :
  ls <> [] -> no_newline repl -> Forall no_newline ls ->
  PyStr.lines (PyStr.join nl (map (sub_line m repl) ls)) = map (sub_line m repl) ls.
Proof.
  intros Hne Hr H. apply lines_join; [now destruct ls | now apply sub_line_no_newline].
Qed.

Lemma startswith_first_differs (c d : ascii) (p s : string) :
  Ascii.eqb c d = false -> PyStr.startswith (String c p) (String d s) = false.
Proof. intros H. now rewrite startswith_cons, H. Qed.

Lemma startswith_first_differs' (c d : ascii) (p s t : string) :
  Ascii.eqb c d = false -> PyStr.startswith (String c p) (String d s +:+ t) = false.
Proof. intros H. now rewrite str_app_cons, startswith_cons, H. Qed.

Lemma activate_sub_lines (installdir licfile l : string) :
  sub_line "# licensePath=" ("licensePath=" +:+ licfile)
    (sub_line "# mode=" "mode=silent"
       (sub_line "# agreeToLicense=" "agreeToLicense=Yes"
          (sub_line "# destinationFolder=" ("destinationFolder=" +:+ installdir) l)))
  = activate installdir licfile l.
Proof.
  unfold activate, sub_line.
  destruct (PyStr.startswith "# destinationFolder=" l) eqn:E1.
  { rewrite !(startswith_first_differs' "#" "d") by reflexivity. reflexivity. }
  destruct (PyStr.startswith "# agreeToLicense=" l) eqn:E2; [reflexivity|].
  destruct (PyStr.startswith "# mode=" l) eqn:E3; [reflexivity|].
  reflexivity.
Qed.

Lemma activate_not_marker (installdir licfile l : string) :
  is_marker_line (activate installdir licfile l) = false.
Proof.
  unfold activate, is_marker_line.
  destruct (PyStr.startswith "# destinationFolder=" l) eqn:E1.
  { rewrite !(startswith_first_differs' "#" "d") by reflexivity. reflexivity. }
  destruct (PyStr.startswith "# agreeToLicense=" l) eqn:E2; [reflexivity|].
  destruct (PyStr.startswith "# mode=" l) eqn:E3; [reflexivity|].
  destruct (PyStr.startswith "# licensePath=" l) eqn:E4.
  { rewrite !(startswith_first_differs' "#" "l") by reflexivity. reflexivity. }
  now rewrite E1, E2, E3, E4.
Qed.

Lemma no_backslash_app (a b : string) : no_backslash a -> no_backslash b -> no_backslash (a +:+ b).
Proof. unfold no_backslash. intros Ha Hb. now rewrite has_char_app, Ha, Hb. Qed.

Lemma no_newline_app (a b : string) : no_newline a -> no_newline b -> no_newline (a +:+ b).
Proof. unfold no_newline. intros Ha Hb. now rewrite has_char_app, Ha, Hb. Qed.

Lemma compile_marker_dest :
  Re.compile "^# destinationFolder=.*" Re.M
  = Some (Re.Pattern "^# destinationFolder=.*" Re.M (marker_items "# destinationFolder=")).
Proof. reflexivity. Qed.

Lemma compile_marker_agree :
  Re.compile "^# agreeToLicense=.*" Re.M
  = Some (Re.Pattern "^# agreeToLicense=.*" Re.M (marker_items "# agreeToLicense=")).
Proof. reflexivity. Qed.

Lemma compile_marker_mode :
  Re.compile "^# mode=.*" Re.M
  = Some (Re.Pattern "^# mode=.*" Re.M (marker_items "# mode=")).
Proof. reflexivity. Qed.

Lemma compile_marker_licpath :
  Re.compile "^# licensePath=.*" Re.M
  = Some (Re.Pattern "^# licensePath=.*" Re.M (marker_items "# licensePath=")).
Proof. reflexivity. Qed.

Lemma bind_ret {A B} (a : A) (k : A -> Py B) (st : State) : bind (ret a) k st = k a st.
Proof. reflexivity. Qed.

Lemma compose_config_spec cr self licfile config st :
  no_newline (installdir self) -> no_backslash (installdir self) ->
  no_newline licfile -> no_backslash licfile ->
  compose_config cr self licfile config st
  = (st, inr (PyStr.join nl (map (activate (installdir self) licfile) (PyStr.lines config)))).
Proof.
  intros Hn1 Hb1 Hn2 Hb2. unfold compose_config, re_compile.
  rewrite compile_marker_dest, compile_marker_agree, compile_marker_mode,
    compile_marker_licpath.
  rewrite !bind_ret.
  unfold re_sub at 1.
  rewrite re_sub_marker
    by (try apply no_backslash_app; (reflexivity || discriminate || assumption)).
  rewrite bind_ret. unfold re_sub at 1.
  rewrite re_sub_marker by (reflexivity || discriminate).
  rewrite bind_ret. unfold re_sub at 1.
  rewrite re_sub_marker by (reflexivity || discriminate).
  rewrite bind_ret. unfold re_sub.
  rewrite re_sub_marker
    by (try apply no_backslash_app; (reflexivity || discriminate || assumption)).
  unfold ret.
  pose proof (lines_nonempty config) as Hne. pose proof (lines_no_newline config) as Hnn.
  set (f1 := sub_line "# destinationFolder=" _).
  set (f2 := sub_line "# agreeToLicense=" _).
  set (f3 := sub_line "# mode=" _).
  set (f4 := sub_line "# licensePath=" _).
  assert (H1 : PyStr.lines (PyStr.join nl (map f1 (PyStr.lines config))) = map f1 (PyStr.lines config)).
  { apply lines_sub_lines; [assumption | now apply no_newline_app | assumption]. }
  rewrite H1.
  assert (Hnn1 : Forall no_newline (map f1 (PyStr.lines config))).
  { apply sub_line_no_newline; [now apply no_newline_app | assumption]. }
  assert (Hne1 : map f1 (PyStr.lines config) <> []) by (now destruct (PyStr.lines config)).
  assert (H2 : PyStr.lines (PyStr.join nl (map f2 (map f1 (PyStr.lines config))))
               = map f2 (map f1 (PyStr.lines config))).
  { apply lines_sub_lines; [assumption | reflexivity | assumption]. }
  rewrite H2.
  assert (Hnn2 : Forall no_newline (map f2 (map f1 (PyStr.lines config)))).
  { apply sub_line_no_newline; [reflexivity | assumption]. }
  assert (Hne2 : map f2 (map f1 (PyStr.lines config)) <> [])
    by (now destruct (map f1 (PyStr.lines config))).
  assert (H3 : PyStr.lines (PyStr.join nl (map f3 (map f2 (map f1 (PyStr.lines config)))))
               = map f3 (map f2 (map f1 (PyStr.lines config)))).
  { apply lines_sub_lines; [assumption | reflexivity | assumption]. }
  rewrite H3. rewrite !map_map. do 3 f_equal.
  apply map_ext. intros l. apply activate_sub_lines.
Qed.

(** ** The paths of [configure_step] are different files *)

Lemma last_char_app (a b : string) : b <> "" -> last_char (a +:+ b) = last_char b.
Proof.
  intros Hb. induction a as [|c a IH]; [reflexivity|].
  rewrite str_app_cons. cbn [last_char]. rewrite IH.
  destruct (a +:+ b) eqn:E; [|reflexivity].
  destruct a; [now rewrite str_app_nil_l in E | discriminate].
Qed.

Lemma endswith_sep_last (s : string) :
  Posixpath.endswith_sep s = true -> last_char s = Some "/"%char.
Proof.
  induction s as [|c s IH]; [discriminate|]. cbn. destruct s; [|exact IH].
  intros H. apply Ascii.eqb_eq in H. now subst.
Qed.

Lemma str_app_inv_tail (a b x : string) : a +:+ x = b +:+ x -> a = b.
Proof.
  revert b; induction a as [|c a IH]; intros b H.
  - destruct b as [|d b]; [reflexivity|]. exfalso.
    apply (f_equal String.length) in H. rewrite str_app_nil_l, str_length_app in H.
    cbn in H. lia.
  - destruct b as [|d b].
    + exfalso. apply (f_equal String.length) in H.
      rewrite str_app_nil_l, str_length_app in H. cbn in H. lia.
    + rewrite !str_app_cons in H. injection H as -> H. now rewrite (IH _ H).
Qed.

(** [os.path.join(p, x)] for a relative [x]: [x] after nothing or after a
    text that ends with a slash. *)
Lemma join_relative (p x : string) :
  PyStr.startswith "/" x = false ->
  exists p', Posixpath.join p [x] = p' +:+ x /\ (p' = "" \/ last_char p' = Some "/"%char).
Proof.
  intros Hx. unfold Posixpath.join. cbn [fold_left]. unfold Posixpath.join2. rewrite Hx.
  destruct p as [|c p]; [exists ""; auto|].
  destruct (Posixpath.endswith_sep (String c p)) eqn:E.
  - exists (String c p). split; [reflexivity|]. right. now apply endswith_sep_last.
  - exists (String c p +:+ "/"). split; [now rewrite str_app_assoc|].
    right. now rewrite last_char_app.
Qed.

Lemma template_not_configfile (self : Self) (c : Cfg) : template_path c <> configfile self.
Proof.
  unfold template_path, configfile.
  destruct (join_relative (start_dir c) "installer_input.txt" eq_refl) as (a & -> & Ha).
  destruct (join_relative (builddir self) "my_installer_input.txt" eq_refl) as (b & -> & _).
  change "my_installer_input.txt" with ("my_" +:+ "installer_input.txt").
  rewrite <- str_app_assoc. intros H. apply str_app_inv_tail in H. subst a.
  destruct Ha as [Ha|Ha].
  - destruct b; discriminate.
  - rewrite last_char_app in Ha; discriminate.
Qed.

Lemma template_not_licfile (self : Self) (c : Cfg) :
  template_path c <> Posixpath.join (builddir self) ["matlab.lic"].
Proof.
  unfold template_path.
  destruct (join_relative (start_dir c) "installer_input.txt" eq_refl) as (a & -> & _).
  destruct (join_relative (builddir self) "matlab.lic" eq_refl) as (b & -> & _).
  intros H. apply (f_equal last_char) in H. rewrite !last_char_app in H; discriminate.
Qed.

(** ** [configure_step] *)

Lemma license_step_spec self st :
  exists st1,
    license_step self st = (st1, inr (licfile_of self (cfg st)))
    /\ cfg st1 = cfg st
    /\ files st1 !! template_path (cfg st) = files st !! template_path (cfg st).
Proof.
  unfold license_step, licfile_of, bind, get, getenv, write_file, modify, ret, bind, get.
  destruct (license_file (cfg st)) as [f|]; [now exists st|].
  destruct (license_server (cfg st)), (license_server_port (cfg st)); cbn;
    eexists; (split; [reflexivity|]); cbn; (split; [reflexivity|]);
    apply lookup_insert_ne; intros E; symmetry in E; now apply template_not_licfile in E.
Qed.

Lemma files_set_files f st : files (set_files f st) = f.
Proof. reflexivity. Qed.

Lemma configure_step_eq cr self st tpl :
  files st !! template_path (cfg st) = Some tpl ->
  no_newline (installdir self) -> no_backslash (installdir self) ->
  no_newline (licfile_of self (cfg st)) -> no_backslash (licfile_of self (cfg st)) ->
  let config := PyStr.join nl (map (activate (installdir self) (licfile_of self (cfg st)))
                                   (PyStr.lines tpl)) in
  exists st1,
    configure_step cr self st =
    (emit (Debug ("configuration file written to %s:" +:+ nl +:+ " %s")
                 [AStr (configfile self); AStr config])
       (set_files (<[configfile self := config]> (<[configfile self := tpl]> (files st1))) st1),
     inr tt).
Proof.
  intros Htpl Hn1 Hb1 Hn2 Hb2 config.
  destruct (license_step_spec self st) as (st1 & Hlic & Hcfg & Hfiles).
  exists st1.
  unfold configure_step. unfold bind at 1. rewrite Hlic.
  unfold except_IOError, copyfile, open_read, read_file, write_file, log_debug, modify,
    bind, get, raise, ret.
  rewrite Hcfg. fold (template_path (cfg st)).
  destruct (String.eqb_spec (template_path (cfg st)) (configfile self)) as [E|_];
    [now apply template_not_configfile in E|].
  rewrite Hfiles, Htpl. rewrite files_set_files, lookup_insert_eq.
  rewrite compose_config_spec by assumption.
  rewrite files_set_files. reflexivity.
Qed.

(** C2, as amended: when the installation directory and the license file
    path hold neither a newline nor a backslash, [configure_step] returns
    and writes a configuration whose lines are those of the template, one
    for one and in order, with every line that starts with one of the four
    markers replaced by its assignment (destinationFolder=installdir,
    agreeToLicense=Yes, mode=silent, licensePath=license file) and every
    other line unchanged; no line of it starts with a marker. *)
Theorem configure_step_activates_marker_lines cr self st tpl :
  files st !! template_path (cfg st) = Some tpl ->
  no_newline (installdir self) -> no_backslash (installdir self) ->
  no_newline (licfile_of self (cfg st)) -> no_backslash (licfile_of self (cfg st)) ->
  exists config,
    snd (configure_step cr self st) = inr tt
    /\ files (fst (configure_step cr self st)) !! configfile self = Some config
    /\ PyStr.lines config
       = map (activate (installdir self) (licfile_of self (cfg st))) (PyStr.lines tpl)
    /\ Forall (fun l => is_marker_line l = false) (PyStr.lines config).
Proof.
  intros Htpl Hn1 Hb1 Hn2 Hb2.
  destruct (configure_step_eq cr self st tpl Htpl Hn1 Hb1 Hn2 Hb2) as [st1 Heq].
  cbv zeta in Heq. rewrite Heq.
  exists (PyStr.join nl (map (activate (installdir self) (licfile_of self (cfg st)))
                           (PyStr.lines tpl))).
  assert (Hlines : PyStr.lines (PyStr.join nl (map (activate (installdir self)
                     (licfile_of self (cfg st))) (PyStr.lines tpl)))
                   = map (activate (installdir self) (licfile_of self (cfg st))) (PyStr.lines tpl)).
  { apply lines_join.
    - pose proof (lines_nonempty tpl). now destruct (PyStr.lines tpl).
    - apply List.Forall_map. eapply List.Forall_impl; [|apply lines_no_newline].
      intros l Hl. unfold activate.
      repeat (destruct (PyStr.startswith _ l); [try reflexivity; now apply no_newline_app|]).
      assumption. }
  split; [reflexivity|]. split.
  { cbn [fst]. change (files (emit ?e ?s)) with (files s).
    rewrite files_set_files. apply lookup_insert_eq. }
  split; [exact Hlines|].
  rewrite Hlines. apply List.Forall_map. apply Forall_forall. intros l _.
  apply activate_not_marker.
Qed.

(** ** The theorems at concrete inputs *)

Lemma configure_step_default_license_witness :
  license_file (cfg (ex_state None KeyNone)) = None
  /\ license_server (cfg (ex_state None KeyNone)) = None
  /\ license_server_port (cfg (ex_state None KeyNone)) = None
  /\ environ (ex_state None KeyNone) !! "EB_MATLAB_LICENSE_SERVER" = None
  /\ environ (ex_state None KeyNone) !! "EB_MATLAB_LICENSE_SERVER_PORT" = None
  /\ files (fst (configure_step no_escapes (ex_self "2020a" "/opt/matlab")
                   (ex_state None KeyNone)))
       !! Posixpath.join "/build" ["matlab.lic"]
     = Some default_lictxt.
Proof.
  repeat (split; [reflexivity|]).
  apply (configure_step_default_license no_escapes (ex_self "2020a" "/opt/matlab")
           (ex_state None KeyNone)); reflexivity.
Defined.

Lemma license_server_setting_changes_license_text :
  license_file (cfg (ex_state (Some "lic.example.org") KeyNone)) = None
  /\ environ (ex_state (Some "lic.example.org") KeyNone) !! "EB_MATLAB_LICENSE_SERVER" = None
  /\ environ (ex_state (Some "lic.example.org") KeyNone) !! "EB_MATLAB_LICENSE_SERVER_PORT" = None
  /\ files (fst (configure_step no_escapes (ex_self "2020a" "/opt/matlab")
                   (ex_state (Some "lic.example.org") KeyNone)))
       !! "/build/matlab.lic"
     = Some ("SERVER lic.example.org 000000000000 00000" +:+ nl +:+ "USE_SERVER")
  /\ "SERVER lic.example.org 000000000000 00000" +:+ nl +:+ "USE_SERVER" <> default_lictxt.
Proof.
  split; [reflexivity|]. split; [reflexivity|]. split; [reflexivity|].
  split; [vm_compute; reflexivity | discriminate].
Qed.

Lemma invalid_key_aborts_loop_witness :
  let self := ex_self "2019b" "/opt/matlab" in
  let st := ex_configured (KeyList ["AAAA"; "BBBB"; "CCCC"]) in
  let body := install_with_key picky_installer self "/build/matlab/install" "-tmpdir /tmp/t" 3 in
  let st1 := fst (for_each (enumerate ["AAAA"]) body st) in
  let st2 := fst (run_installer picky_installer self "/build/matlab/install" "-tmpdir /tmp/t"
                    "BBBB" (emit (debug_installing 2 3) st1)) in
  let cmd := " /build/matlab/install -v -tmpdir /tmp/t -inputFile /build/my_installer_input.txt -fileInstallationKey BBBB " in
  let out := "error: you have entered an INVALID file installation key" in
  for_each (enumerate ["AAAA"]) body st = (st1, inr tt)
  /\ run_installer picky_installer self "/build/matlab/install" "-tmpdir /tmp/t" "BBBB"
       (emit (debug_installing 2 3) st1) = (st2, inr (cmd, out))
  /\ PyStr.contains (PyStr.lower invalid_key_pattern) (PyStr.lower out) = true
  /\ install_loop picky_installer self "/build/matlab/install" "-tmpdir /tmp/t"
       ["AAAA"; "BBBB"; "CCCC"] st
     = (st2, inl (EasyBuildError found_error_fmt [invalid_key_pattern; cmd; out]))
  /\ length (runs (trace st2)) = length (runs (trace st)) + 1 + 1.
Proof.
  cbv zeta.
  assert (H1 : for_each (enumerate ["AAAA"])
                 (install_with_key picky_installer (ex_self "2019b" "/opt/matlab")
                    "/build/matlab/install" "-tmpdir /tmp/t" 3)
                 (ex_configured (KeyList ["AAAA"; "BBBB"; "CCCC"]))
               = (fst (for_each (enumerate ["AAAA"])
                         (install_with_key picky_installer (ex_self "2019b" "/opt/matlab")
                            "/build/matlab/install" "-tmpdir /tmp/t" 3)
                         (ex_configured (KeyList ["AAAA"; "BBBB"; "CCCC"]))), inr tt))
    by (vm_compute; reflexivity).
  split; [exact H1|].
  split; [vm_compute; reflexivity|].
  split; [vm_compute; reflexivity|].
  apply (invalid_key_aborts_loop picky_installer (ex_self "2019b" "/opt/matlab")
           "/build/matlab/install" "-tmpdir /tmp/t" ["AAAA"] "BBBB" ["CCCC"]
           (ex_configured (KeyList ["AAAA"; "BBBB"; "CCCC"]))
           (fst (for_each (enumerate ["AAAA"])
                   (install_with_key picky_installer (ex_self "2019b" "/opt/matlab")
                      "/build/matlab/install" "-tmpdir /tmp/t" 3)
                   (ex_configured (KeyList ["AAAA"; "BBBB"; "CCCC"]))))).
  - exact H1.
  - vm_compute; reflexivity.
  - vm_compute; reflexivity.
Defined.

Lemma configure_step_activates_marker_lines_witness :
  let self := ex_self "2020a" "/opt/matlab" in
  let st := ex_state None KeyNone in
  files st !! template_path (cfg st) = Some ex_template
  /\ no_newline (installdir self) /\ no_backslash (installdir self)
  /\ no_newline (licfile_of self (cfg st)) /\ no_backslash (licfile_of self (cfg st))
  /\ exists config,
       snd (configure_step no_escapes self st) = inr tt
       /\ files (fst (configure_step no_escapes self st)) !! configfile self = Some config
       /\ PyStr.lines config
          = map (activate (installdir self) (licfile_of self (cfg st))) (PyStr.lines ex_template)
       /\ Forall (fun l => is_marker_line l = false) (PyStr.lines config).
Proof.
  cbv zeta. repeat (split; [reflexivity|]).
  apply (configure_step_activates_marker_lines no_escapes (ex_self "2020a" "/opt/matlab")
           (ex_state None KeyNone) ex_template); reflexivity.
Defined.

(** An installation directory with a newline in its name: the line of the
    destination folder becomes two lines. *)
Lemma newline_in_installdir_breaks_the_line :
  let self := ex_self "2020a" ("/opt/matlab" +:+ nl +:+ "R2020a") in
  let st := ex_state None KeyNone in
  let markers := ["# destinationFolder="; "# agreeToLicense="; "# mode="; "# licensePath="] in
  files st !! template_path (cfg st) = Some ex_template
  /\ Forall (fun m => length (filter (fun l => PyStr.startswith m l = true)
                                     (PyStr.lines ex_template)) = 1) markers
  /\ snd (configure_step no_escapes self st) = inr tt
  /\ files (fst (configure_step no_escapes self st)) !! configfile self
     = Some ("## MATLAB installer input" +:+ nl
             +:+ "destinationFolder=/opt/matlab" +:+ nl
             +:+ "R2020a" +:+ nl
             +:+ "# fileInstallationKey=" +:+ nl
             +:+ "agreeToLicense=Yes" +:+ nl
             +:+ "mode=silent" +:+ nl
             +:+ "licensePath=/build/matlab.lic" +:+ nl)
  /\ ~ In ("destinationFolder=" +:+ installdir self)
          (PyStr.lines ("## MATLAB installer input" +:+ nl
             +:+ "destinationFolder=/opt/matlab" +:+ nl
             +:+ "R2020a" +:+ nl
             +:+ "# fileInstallationKey=" +:+ nl
             +:+ "agreeToLicense=Yes" +:+ nl
             +:+ "mode=silent" +:+ nl
             +:+ "licensePath=/build/matlab.lic" +:+ nl))
  /\ In "R2020a"
        (PyStr.lines ("## MATLAB installer input" +:+ nl
             +:+ "destinationFolder=/opt/matlab" +:+ nl
             +:+ "R2020a" +:+ nl
             +:+ "# fileInstallationKey=" +:+ nl
             +:+ "agreeToLicense=Yes" +:+ nl
             +:+ "mode=silent" +:+ nl
             +:+ "licensePath=/build/matlab.lic" +:+ nl))
  /\ ~ In "R2020a" (PyStr.lines ex_template).
Proof.
  cbv zeta. split; [reflexivity|]. split; [repeat constructor|].
  split; [vm_compute; reflexivity|]. split; [vm_compute; reflexivity|].
  split; [|split].
  - vm_compute. intros H. repeat (destruct H as [H|H]; [discriminate|]). exact H.
  - vm_compute. right. right. left. reflexivity.
  - vm_compute. intros H. repeat (destruct H as [H|H]; [discriminate|]). exact H.
Qed.

Lemma second_key_configuration_witness :
  let self := ex_self "2020a" "/opt/matlab" in
  let st := ex_configured (KeyList ["AAAA"; "BBBB"]) in
  let base := "## MATLAB installer input" +:+ nl
              +:+ "destinationFolder=/opt/matlab" +:+ nl
              +:+ "# fileInstallationKey=" +:+ nl
              +:+ "agreeToLicense=Yes" +:+ nl
              +:+ "mode=silent" +:+ nl
              +:+ "licensePath=/build/matlab.lic" +:+ nl in
  let st1 := fst (install_with_key silent_installer self "/build/matlab/install"
                    "-tmpdir /tmp/t" 2 (0, "AAAA") st) in
  LooseVersion.ge (lv (version self)) (lv "2020a") = Some true
  /\ files st !! configfile self = Some base
  /\ install_with_key silent_installer self "/build/matlab/install" "-tmpdir /tmp/t" 2
       (0, "AAAA") st = (st1, inr tt)
  /\ (exists name,
        trace (fst (install_loop silent_installer self "/build/matlab/install" "-tmpdir /tmp/t"
                      ["AAAA"; "BBBB"] st))
        = (trace st1
           ++ [debug_installing 2 2; debug_binary self;
               debug_tmp_config name (tmp_config_for "BBBB" base);
               RunCmd (binary_installer_cmd (cfg st) "/build/matlab/install" name)])%list)
  /\ PyStr.lines (tmp_config_for "BBBB" base)
     = ["## MATLAB installer input"; "destinationFolder=/opt/matlab";
        "fileInstallationKey=BBBB"; "agreeToLicense=Yes"; "mode=silent";
        "licensePath=/build/matlab.lic"; ""]
  /\ PyStr.contains key_marker (tmp_config_for "BBBB" base) = false
  /\ PyStr.contains "AAAA" (tmp_config_for "BBBB" base) = PyStr.contains "AAAA" base.
Proof.
  cbv zeta.
  assert (Hv : LooseVersion.ge (lv (version (ex_self "2020a" "/opt/matlab"))) (lv "2020a")
               = Some true) by reflexivity.
  assert (Hb : files (ex_configured (KeyList ["AAAA"; "BBBB"]))
                 !! configfile (ex_self "2020a" "/opt/matlab")
               = Some ("## MATLAB installer input" +:+ nl
                       +:+ "destinationFolder=/opt/matlab" +:+ nl
                       +:+ "# fileInstallationKey=" +:+ nl
                       +:+ "agreeToLicense=Yes" +:+ nl
                       +:+ "mode=silent" +:+ nl
                       +:+ "licensePath=/build/matlab.lic" +:+ nl))
    by (vm_compute; reflexivity).
  assert (H1 : install_with_key silent_installer (ex_self "2020a" "/opt/matlab")
                 "/build/matlab/install" "-tmpdir /tmp/t" 2 (0, "AAAA")
                 (ex_configured (KeyList ["AAAA"; "BBBB"]))
               = (fst (install_with_key silent_installer (ex_self "2020a" "/opt/matlab")
                         "/build/matlab/install" "-tmpdir /tmp/t" 2 (0, "AAAA")
                         (ex_configured (KeyList ["AAAA"; "BBBB"]))), inr tt))
    by (vm_compute; reflexivity).
  split; [exact Hv|]. split; [exact Hb|]. split; [exact H1|].
  split.
  - exact (proj2 second_key_configuration silent_installer (ex_self "2020a" "/opt/matlab")
             "/build/matlab/install" "-tmpdir /tmp/t"
             (ex_configured (KeyList ["AAAA"; "BBBB"])) _ _ Hv Hb H1).
  - apply (proj1 second_key_configuration _
             ["## MATLAB installer input"; "destinationFolder=/opt/matlab"]
             ["agreeToLicense=Yes"; "mode=silent"; "licensePath=/build/matlab.lic"; ""]).
    + vm_compute; reflexivity.
    + repeat constructor.
Defined.

Lemma script_install_command_witness :
  let self := ex_self "2019b" "/opt/matlab" in
  let st := ex_configured (KeyStr "AAAA") in
  let st' := fst (install_step silent_installer self st) in
  LooseVersion.lt (lv (version self)) (lv "2020a") = Some true
  /\ install_keys st = (st, inr ["AAAA"])
  /\ exists d pre before,
       (exists pfx, pre = pfx +:+ preinstallopts (cfg st))
       /\ (d ∉ dirs st) /\ (d ∉ dom (files st)) /\ (d ∈ dirs st')
       /\ mkdtemps before = [] /\ runs before = []
       /\ trace st' =
          (trace st ++ before
           ++ [Mkdtemp d; debug_installing 1 1; debug_script self;
               RunCmd (PyStr.join " " [pre; Posixpath.join (start_dir (cfg st)) ["install"];
                                       "-v"; "-tmpdir " +:+ d; "-inputFile"; configfile self;
                                       "-fileInstallationKey"; "AAAA";
                                       installopts (cfg st)])])%list.
Proof.
  cbv zeta. split; [reflexivity|]. split; [vm_compute; reflexivity|].
  apply (script_install_command silent_installer (ex_self "2019b" "/opt/matlab")
           (ex_configured (KeyStr "AAAA")) "AAAA"); vm_compute; reflexivity.
Defined.

Lemma script_installs_share_one_tmpdir_witness :
  let self := ex_self "2019b" "/opt/matlab" in
  let st := ex_configured (KeyStr "AAAA,BBBB") in
  let st' := fst (install_step silent_installer self st) in
  let src := Posixpath.join (start_dir (cfg st)) ["install"] in
  LooseVersion.lt (lv (version self)) (lv "2020a") = Some true
  /\ install_keys st = (st, inr ["AAAA"; "BBBB"])
  /\ exists d m,
       (d ∉ dirs st) /\ (d ∉ dom (files st)) /\ (d ∈ dirs st')
       /\ mkdtemps (trace st') = (mkdtemps (trace st) ++ [d])%list
       /\ m <= 2
       /\ (["AAAA"; "BBBB"] <> [] -> 1 <= m)
       /\ (snd (install_step silent_installer self st) = inr tt -> m = 2)
       /\ runs (trace st')
          = (runs (trace st)
             ++ map (script_installer_cmd (prepared_cfg (cfg st)) self src ("-tmpdir " +:+ d))
                    (firstn m ["AAAA"; "BBBB"]))%list.
Proof.
  cbv zeta. split; [reflexivity|]. split; [vm_compute; reflexivity|].
  apply (script_installs_share_one_tmpdir silent_installer (ex_self "2019b" "/opt/matlab")
           (ex_configured (KeyStr "AAAA,BBBB")) ["AAAA"; "BBBB"]); vm_compute; reflexivity.
Defined.

(** Two keys, one directory: it is made once, before the loop, and both
    installer runs are given it. *)
Lemma two_keys_one_tmpdir :
  let self := ex_self "2019b" "/opt/matlab" in
  let st := ex_configured (KeyList ["AAAA"; "BBBB"]) in
  let st' := fst (install_step silent_installer self st) in
  LooseVersion.lt (lv (version self)) (lv "2020a") = Some true
  /\ snd (install_step silent_installer self st) = inr tt
  /\ mkdtemps (trace st') = ["/tmp/tmp"]
  /\ runs (trace st')
     = ["export _JAVA_OPTIONS=" +:+ dquote +:+ "-Xmx256m" +:+ dquote
        +:+ " &&  /build/matlab/install -v -tmpdir /tmp/tmp -inputFile /build/my_installer_input.txt -fileInstallationKey AAAA ";
        "export _JAVA_OPTIONS=" +:+ dquote +:+ "-Xmx256m" +:+ dquote
        +:+ " &&  /build/matlab/install -v -tmpdir /tmp/tmp -inputFile /build/my_installer_input.txt -fileInstallationKey BBBB "].
Proof.
  cbv zeta. split; [reflexivity|]. repeat split; vm_compute; reflexivity.
Qed.

Lemma key_substitution_is_plain_replacement_witness :
  let self := ex_self "2020a" "/opt/matlab" in
  let st := ex_configured (KeyList ["AAAA"]) in
  LooseVersion.ge (lv (version self)) (lv "2020a") = Some true
  /\ files st !! configfile self
     = Some ("## MATLAB installer input" +:+ nl
             +:+ "destinationFolder=/opt/matlab" +:+ nl
             +:+ "# fileInstallationKey=" +:+ nl
             +:+ "agreeToLicense=Yes" +:+ nl
             +:+ "mode=silent" +:+ nl
             +:+ "licensePath=/build/matlab.lic" +:+ nl)
  /\ exists name,
       trace (fst (run_installer silent_installer self "/build/matlab/install"
                     "-tmpdir /tmp/t" "AAAA" st))
       = (trace st
          ++ [debug_binary self;
              debug_tmp_config name
                (tmp_config_for "AAAA"
                   ("## MATLAB installer input" +:+ nl
                    +:+ "destinationFolder=/opt/matlab" +:+ nl
                    +:+ "# fileInstallationKey=" +:+ nl
                    +:+ "agreeToLicense=Yes" +:+ nl
                    +:+ "mode=silent" +:+ nl
                    +:+ "licensePath=/build/matlab.lic" +:+ nl));
              RunCmd (binary_installer_cmd (cfg st) "/build/matlab/install" name)])%list.
Proof.
  cbv zeta.
  assert (Hv : LooseVersion.ge (lv (version (ex_self "2020a" "/opt/matlab"))) (lv "2020a")
               = Some true) by reflexivity.
  assert (Hb : files (ex_configured (KeyList ["AAAA"]))
                 !! configfile (ex_self "2020a" "/opt/matlab")
               = Some ("## MATLAB installer input" +:+ nl
                       +:+ "destinationFolder=/opt/matlab" +:+ nl
                       +:+ "# fileInstallationKey=" +:+ nl
                       +:+ "agreeToLicense=Yes" +:+ nl
                       +:+ "mode=silent" +:+ nl
                       +:+ "licensePath=/build/matlab.lic" +:+ nl))
    by (vm_compute; reflexivity).
  split; [exact Hv|]. split; [exact Hb|].
  exact (proj2 (proj2 (proj2 key_substitution_is_plain_replacement)) silent_installer
           (ex_self "2020a" "/opt/matlab") "/build/matlab/install" "-tmpdir /tmp/t" "AAAA"
           (ex_configured (KeyList ["AAAA"])) _ Hv Hb).
Defined.

(** ** [configure_step]: what it touches and how it fails *)

Lemma license_step_eq self st :
  license_step self st =
  match license_file (cfg st) with
  | Some f => (st, inr f)
  | None =>
      (set_files (<[Posixpath.join (builddir self) ["matlab.lic"]
                    := lictxt (license_host st) (license_port st)]> (files st)) st,
       inr (Posixpath.join (builddir self) ["matlab.lic"]))
  end.
Proof.
  unfold license_step, license_host, license_port, bind, get, getenv, write_file,
    modify, ret, bind, get.
  destruct (license_file (cfg st)); [reflexivity|].
  destruct (license_server (cfg st)), (license_server_port (cfg st)); cbn;
    repeat destruct (environ st !! _); reflexivity.
Qed.

Lemma license_step_state self st :
  let st1 := fst (license_step self st) in
  cfg st1 = cfg st /\ environ st1 = environ st /\ dirs st1 = dirs st /\ cwd st1 = cwd st
  /\ trace st1 = trace st.
Proof.
  rewrite license_step_eq. destruct (license_file (cfg st)); cbn; tauto.
Qed.

Lemma configure_step_state cr self st :
  let st' := fst (configure_step cr self st) in
  cfg st' = cfg st /\ environ st' = environ st /\ dirs st' = dirs st /\ cwd st' = cwd st.
Proof.
  destruct (license_step_state self st) as (Hc & He & Hd & Hw & _).
  destruct (configure_step cr self st) as [st' r] eqn:E. cbn [fst].
  revert E. unfold configure_step. unfold bind at 1.
  destruct (license_step self st) as [st1 [e|licfile]]; cbn [fst] in *;
    [intros [= <- _]; tauto|].
  rewrite <- Hc, <- He, <- Hd, <- Hw. clear Hc He Hd Hw.
  unfold except_IOError, bind, get, copyfile, open_read, read_file, write_file,
    log_debug, modify, raise, ret, bind, get.
  destruct (String.eqb _ _); [intros [= <- _]; tauto|].
  destruct (files st1 !! _) as [tpl|]; [|intros [= <- _]; tauto].
  cbn [files set_files fst]. rewrite lookup_insert_eq.
  destruct (pure_compose_config cr self licfile tpl) as [r' Hr]. rewrite Hr.
  destruct r' as [e|config]; [destruct e|]; intros [= <- _]; cbn; tauto.
Qed.

Lemma configure_step_other_files cr self st p :
  p <> configfile self ->
  (license_file (cfg st) = None -> p <> Posixpath.join (builddir self) ["matlab.lic"]) ->
  files (fst (configure_step cr self st)) !! p = files st !! p.
Proof.
  intros Hp Hl. unfold configure_step. unfold bind at 1. rewrite license_step_eq.
  destruct (license_file (cfg st)) as [f|].
  - pose proof (configure_rest_files cr self f st p Hp) as H. cbv zeta in H. exact H.
  - pose proof (configure_rest_files cr self (Posixpath.join (builddir self) ["matlab.lic"])) as H.
    cbv zeta in H. rewrite H by exact Hp.
    cbn. apply lookup_insert_ne. intros E. now apply Hl.
Qed.

Lemma configure_step_licfile cr self st :
  license_file (cfg st) = None ->
  files (fst (configure_step cr self st)) !! Posixpath.join (builddir self) ["matlab.lic"]
  = Some (lictxt (license_host st) (license_port st)).
Proof.
  intros Hf. unfold configure_step. unfold bind at 1. rewrite license_step_eq, Hf.
  pose proof (configure_rest_files cr self (Posixpath.join (builddir self) ["matlab.lic"])) as H.
  cbv zeta in H. rewrite H.
  - cbn. apply lookup_insert_eq.
  - intros E. symmetry in E. now apply configfile_not_licfile in E.
Qed.

Lemma license_step_keeps_template self st :
  files (fst (license_step self st)) !! template_path (cfg st)
  = files st !! template_path (cfg st).
Proof.
  destruct (license_step_spec self st) as (st1 & -> & _ & H). exact H.
Qed.

Lemma license_step_keeps_configfile self st :
  files (fst (license_step self st)) !! configfile self = files st !! configfile self.
Proof.
  rewrite license_step_eq. destruct (license_file (cfg st)); [reflexivity|].
  cbn. apply lookup_insert_ne. intros E. symmetry in E. now apply configfile_not_licfile in E.
Qed.

(** X1: when the template start_dir/installer_input.txt does not exist,
    [configure_step] raises the EasyBuildError "Failed to create installation
    config file" that names [self.configfile]; it has then neither written
    nor changed the configuration file and has logged nothing. *)
Theorem configure_step_without_template cr self st :
  files st !! template_path (cfg st) = None ->
  (exists msg, snd (configure_step cr self st) = inl (config_file_error self msg))
  /\ files (fst (configure_step cr self st)) !! configfile self = files st !! configfile self
  /\ trace (fst (configure_step cr self st)) = trace st.
Proof.
  intros Htpl.
  pose proof (license_step_keeps_template self st) as Ht.
  pose proof (license_step_keeps_configfile self st) as Hc.
  destruct (license_step_state self st) as (Hcfg & _ & _ & _ & Htr).
  destruct (license_step_spec self st) as (st1 & Hlic & _ & _).
  rewrite Hlic in Ht, Hc, Hcfg, Htr. cbn [fst] in Ht, Hc, Hcfg, Htr.
  destruct (configure_step cr self st) as [st' r] eqn:E. revert E.
  unfold configure_step. unfold bind at 1. rewrite Hlic.
  unfold except_IOError, copyfile, open_read, bind, get, raise, ret.
  rewrite Hcfg. fold (template_path (cfg st)).
  destruct (String.eqb_spec (template_path (cfg st)) (configfile self)) as [E|_];
    [now apply template_not_configfile in E|].
  rewrite Ht, Htpl. intros [= <- <-]. cbn [fst snd].
  split; [eexists; reflexivity|]. now split.
Qed.

(** X2: [configure_step] writes to at most two paths.  Every file other
    than [self.configfile] and, when no license file is configured, other
    than builddir/matlab.lic keeps its contents (or stays absent), and the
    settings, the environment, the directories and the working directory
    are as before, whether the step returns or raises. *)
Theorem configure_step_writes_two_files_only cr self st p :
  p <> configfile self ->
  (license_file (cfg st) = None -> p <> Posixpath.join (builddir self) ["matlab.lic"]) ->
  files (fst (configure_step cr self st)) !! p = files st !! p
  /\ cfg (fst (configure_step cr self st)) = cfg st
  /\ environ (fst (configure_step cr self st)) = environ st
  /\ dirs (fst (configure_step cr self st)) = dirs st
  /\ cwd (fst (configure_step cr self st)) = cwd st.
Proof.
  intros Hp Hl. split.
  - now apply configure_step_other_files.
  - exact (configure_step_state cr self st).
Qed.

(** X3: when no license file is configured, [configure_step] leaves in
    builddir/matlab.lic the two lines "SERVER host 000000000000 port" and
    "USE_SERVER", where host is the configured license server, else the
    value of EB_MATLAB_LICENSE_SERVER, else license.example.com, and port
    is the configured port, else the value of
    EB_MATLAB_LICENSE_SERVER_PORT, else 00000; this holds also when the
    rest of the step fails. *)
Theorem license_file_names_server_and_port cr self st :
  license_file (cfg st) = None ->
  files (fst (configure_step cr self st)) !! Posixpath.join (builddir self) ["matlab.lic"]
  = Some ("SERVER " +:+ license_host st +:+ " 000000000000 " +:+ license_port st
          +:+ nl +:+ "USE_SERVER").
Proof.
  intros Hf. rewrite configure_step_licfile by exact Hf.
  unfold lictxt. rewrite join_cons2, join_one.
  f_equal. now rewrite !str_app_assoc.
Qed.

Lemma license_host_same (a b : State) :
  cfg a = cfg b -> environ a = environ b -> license_host a = license_host b.
Proof. unfold license_host. now intros -> ->. Qed.

Lemma license_port_same (a b : State) :
  cfg a = cfg b -> environ a = environ b -> license_port a = license_port b.
Proof. unfold license_port. now intros -> ->. Qed.

Lemma configure_step_configfile cr self st tpl :
  files st !! template_path (cfg st) = Some tpl ->
  no_newline (installdir self) -> no_backslash (installdir self) ->
  no_newline (licfile_of self (cfg st)) -> no_backslash (licfile_of self (cfg st)) ->
  snd (configure_step cr self st) = inr tt
  /\ files (fst (configure_step cr self st)) !! configfile self
     = Some (PyStr.join nl (map (activate (installdir self) (licfile_of self (cfg st)))
                                (PyStr.lines tpl))).
Proof.
  intros Htpl Hn1 Hb1 Hn2 Hb2.
  destruct (configure_step_eq cr self st tpl Htpl Hn1 Hb1 Hn2 Hb2) as [st1 Heq].
  cbv zeta in Heq. rewrite Heq. split; [reflexivity|].
  cbn [fst]. change (files (emit ?e ?s)) with (files s).
  rewrite files_set_files. apply lookup_insert_eq.
Qed.

(** X4: [configure_step] can be repeated.  When the template exists and the
    installation directory and the license file path hold neither a newline
    nor a backslash, a second run after the first returns as well and
    leaves every file exactly as the first run left it: the template is not
    consumed and the configuration is composed from it again. *)
Theorem configure_step_is_repeatable cr self st tpl :
  files st !! template_path (cfg st) = Some tpl ->
  no_newline (installdir self) -> no_backslash (installdir self) ->
  no_newline (licfile_of self (cfg st)) -> no_backslash (licfile_of self (cfg st)) ->
  let st1 := fst (configure_step cr self st) in
  snd (configure_step cr self st1) = inr tt
  /\ files (fst (configure_step cr self st1)) = files st1.
Proof.
  intros Htpl Hn1 Hb1 Hn2 Hb2 st1.
  destruct (configure_step_state cr self st) as (Hcfg & Henv & _ & _).
  fold st1 in Hcfg, Henv.
  assert (Htpl1 : files st1 !! template_path (cfg st1) = Some tpl).
  { rewrite Hcfg. unfold st1. rewrite configure_step_other_files; [exact Htpl| |].
    - apply template_not_configfile.
    - intros _. apply template_not_licfile. }
  destruct (configure_step_configfile cr self st tpl Htpl Hn1 Hb1 Hn2 Hb2) as [_ Hc1].
  fold st1 in Hc1.
  destruct (configure_step_configfile cr self st1 tpl Htpl1) as [Hr2 Hc2];
    try (rewrite Hcfg; assumption); try assumption.
  split; [exact Hr2|].
  apply map_eq. intros p.
  destruct (decide (p = configfile self)) as [->|Hp].
  { rewrite Hc2, Hc1. now rewrite Hcfg. }
  destruct (license_file (cfg st)) as [f|] eqn:Hf.
  - apply configure_step_other_files; [exact Hp|]. rewrite Hcfg, Hf. discriminate.
  - destruct (decide (p = Posixpath.join (builddir self) ["matlab.lic"])) as [->|Hl].
    + rewrite configure_step_licfile by (now rewrite Hcfg).
      unfold st1 at 3. rewrite configure_step_licfile by exact Hf.
      now rewrite (license_host_same st1 st), (license_port_same st1 st).
    + apply configure_step_other_files; [exact Hp|]. intros _. exact Hl.
Qed.

(** ** [install_step]: what it leaves behind *)

Lemma same_but_trace_refl (st : State) : same_but_trace st st.
Proof. unfold same_but_trace. tauto. Qed.

Lemma same_but_trace_trans (a b c : State) :
  same_but_trace a b -> same_but_trace b c -> same_but_trace a c.
Proof.
  unfold same_but_trace. intros (H1 & H2 & H3 & H4 & H5) (G1 & G2 & G3 & G4 & G5).
  repeat split; congruence.
Qed.

Lemma same_but_trace_emit (e : event) (st : State) : same_but_trace st (emit e st).
Proof. unfold same_but_trace. cbn. tauto. Qed.

Lemma delete_fresh_insert st x :
  delete (fresh_path st) (<[fresh_path st := x]> (files st)) = files st.
Proof. rewrite delete_insert_eq. apply delete_id, fresh_path_not_file. Qed.

(** One installer run changes nothing but the events: the temporary file
    of version 2020a and later is gone when the run is over. *)
Lemma run_installer_frame inst self src tmpdir key st :
  same_but_trace st (fst (run_installer inst self src tmpdir key st)).
Proof.
  rewrite run_installer_eq. destruct (LooseVersion.ge _ _) as [[|]|].
  - rewrite run_binary_installer_eq. cbv zeta.
    destruct (_ !! configfile self) as [base|]; unfold same_but_trace;
      cbn [fst cfg environ files dirs cwd set_files emit].
    + rewrite insert_insert_eq, delete_fresh_insert. tauto.
    + rewrite delete_fresh_insert. tauto.
  - rewrite run_script_installer_eq. cbv zeta. unfold same_but_trace. cbn. tauto.
  - apply same_but_trace_refl.
Qed.

Lemma install_with_key_frame inst self src tmpdir n ik st :
  same_but_trace st (fst (install_with_key inst self src tmpdir n ik st)).
Proof.
  destruct ik as [i key]. rewrite install_with_key_eq.
  pose proof (run_installer_frame inst self src tmpdir key
                (emit (debug_installing (i + 1) n) st)) as H.
  destruct (run_installer _ _ _ _ _ _) as [st2 [e|[cmd out]]]; cbn [fst] in *;
    (eapply same_but_trace_trans; [apply same_but_trace_emit | exact H]).
Qed.

Lemma install_loop_frame inst self src tmpdir n l st :
  same_but_trace st (fst (for_each l (install_with_key inst self src tmpdir n) st)).
Proof.
  revert st; induction l as [|ik l IH]; intros st; [apply same_but_trace_refl|].
  cbn [for_each]. unfold bind.
  pose proof (install_with_key_frame inst self src tmpdir n ik st) as H.
  destruct (install_with_key _ _ _ _ _ _ _) as [st1 [e|[]]]; cbn [fst] in *; [exact H|].
  eapply same_but_trace_trans; [exact H | apply IH].
Qed.

Lemma version_defined (v b : string) :
  v <> "" -> b <> "" -> exists r, LooseVersion.ge (lv v) (lv b) = Some r.
Proof.
  unfold LooseVersion.ge, LooseVersion.cmp, lv, LooseVersion.LooseVersion.
  intros Hv Hb. destruct v; [congruence|]. destruct b; [congruence|].
  eexists. reflexivity.
Qed.

Lemma version_undefined (b : string) : LooseVersion.ge (lv "") (lv b) = None.
Proof. reflexivity. Qed.

(** The state [install_step] leaves is the one in which the keys are read,
    up to the events of the loop. *)
Lemma install_step_state inst self st recent :
  LooseVersion.ge (lv (version self)) (lv "2016b") = Some recent ->
  same_but_trace (prepared self recent st) (fst (install_step inst self st)).
Proof.
  intros Hv. rewrite install_step_eq, Hv.
  destruct (snd (install_keys st)) as [e|keys]; [apply same_but_trace_refl|].
  apply install_loop_frame.
Qed.

Lemma install_step_files inst self st :
  files (fst (install_step inst self st)) = files st.
Proof.
  destruct (LooseVersion.ge (lv (version self)) (lv "2016b")) as [recent|] eqn:Hv.
  - destruct (install_step_state inst self st recent Hv) as (_ & _ & H & _). exact H.
  - rewrite install_step_eq, Hv. reflexivity.
Qed.

(** X5: for a version that is not empty, [install_step] removes DISPLAY
    from the environment and changes no other variable, whatever the
    installer does and whether the step returns or raises; the working
    directory becomes the build directory exactly when the version is
    2016b or later. *)
Theorem install_step_unsets_display inst self st :
  version self <> "" ->
  environ (fst (install_step inst self st)) = delete "DISPLAY" (environ st)
  /\ cwd (fst (install_step inst self st))
     = match LooseVersion.ge (lv (version self)) (lv "2016b") with
       | Some true => builddir self
       | _ => cwd st
       end.
Proof.
  intros Hne.
  destruct (version_defined (version self) "2016b" Hne) as [recent Hv]; [discriminate|].
  destruct (install_step_state inst self st recent Hv) as (_ & He & _ & _ & Hw).
  rewrite He, Hw, Hv. split; [reflexivity|]. now destruct recent.
Qed.

(** X6: of its own doing, [install_step] leaves the files as it found
    them: the temporary configuration file of a run of version 2020a and
    later does not survive the step, also when the installer raises or a
    key is rejected.  The directory made by [tempfile.mkdtemp] is not
    removed: for a version that is not empty the directories after the
    step are those before it and one new one, at a path that was not in
    use. *)
Theorem install_step_leaves_tmpdir_only inst self st :
  files (fst (install_step inst self st)) = files st
  /\ (version self <> "" ->
      exists d, (d ∉ dirs st) /\ (d ∉ dom (files st))
                /\ dirs (fst (install_step inst self st)) = {[d]} ∪ dirs st).
Proof.
  split; [apply install_step_files|].
  intros Hne.
  destruct (version_defined (version self) "2016b" Hne) as [recent Hv]; [discriminate|].
  destruct (install_step_state inst self st recent Hv) as (_ & _ & _ & Hd & _).
  exists (fresh_path st). split; [apply fresh_path_not_dir|].
  split; [apply fresh_path_not_in_files|]. exact Hd.
Qed.

(** ** [install_step]: the settings and the keys *)

Lemma contains_app_l (p a b : string) :
  PyStr.contains p a = true -> PyStr.contains p (a +:+ b) = true.
Proof.
  induction a as [|c a IH]; intros H.
  - cbn [PyStr.contains] in H. rewrite orb_false_r in H.
    apply startswith_inv in H as [t Ht]. destruct p; [|discriminate].
    rewrite str_app_nil_l. destruct b; cbn [PyStr.contains]; now rewrite startswith_nil.
  - rewrite str_app_cons. cbn [PyStr.contains] in *.
    apply orb_true_iff in H as [H|H]; apply orb_true_iff.
    + left. rewrite <- str_app_cons. now apply startswith_app_l.
    + right. now apply IH.
Qed.

Lemma java_opts_mentioned (c : Cfg) (s : string) :
  PyStr.contains "_JAVA_OPTIONS" (java_opts c +:+ s) = true.
Proof. unfold java_opts. do 2 apply contains_app_l. reflexivity. Qed.

Lemma prepared_cfg_mentions (c : Cfg) :
  PyStr.contains "_JAVA_OPTIONS" (preinstallopts (prepared_cfg c)) = true.
Proof.
  unfold prepared_cfg.
  destruct (PyStr.contains "_JAVA_OPTIONS" (preinstallopts c)) eqn:E; [exact E|].
  apply java_opts_mentioned.
Qed.

Lemma prepared_cfg_idem (c : Cfg) : prepared_cfg (prepared_cfg c) = prepared_cfg c.
Proof.
  unfold prepared_cfg at 1. now rewrite prepared_cfg_mentions.
Qed.

Lemma prepared_cfg_rest (c : Cfg) :
  prepared_cfg c = set_preinstallopts (preinstallopts (prepared_cfg c)) c.
Proof.
  unfold prepared_cfg. destruct (PyStr.contains _ _); [|reflexivity]. now destruct c.
Qed.

(** X7: for a version that is not empty, [install_step] leaves
    [preinstallopts] with a mention of _JAVA_OPTIONS and changes no other
    setting.  Options that mention _JAVA_OPTIONS already are kept as they
    are; otherwise the export of the configured [java_options] is put in
    front, once: a second [install_step] changes the settings no more. *)
Theorem java_options_are_exported_once inst self st :
  version self <> "" ->
  let c' := cfg (fst (install_step inst self st)) in
  PyStr.contains "_JAVA_OPTIONS" (preinstallopts c') = true
  /\ (if PyStr.contains "_JAVA_OPTIONS" (preinstallopts (cfg st))
      then c' = cfg st
      else preinstallopts c'
           = "export _JAVA_OPTIONS=" +:+ dquote +:+ java_options (cfg st) +:+ dquote
             +:+ " && " +:+ preinstallopts (cfg st))
  /\ c' = set_preinstallopts (preinstallopts c') (cfg st)
  /\ (forall inst2, cfg (fst (install_step inst2 self (fst (install_step inst self st)))) = c').
Proof.
  intros Hne c'.
  destruct (version_defined (version self) "2016b" Hne) as [recent Hv]; [discriminate|].
  assert (Hc : forall i s, cfg (fst (install_step i self s)) = prepared_cfg (cfg s)).
  { intros i s. now destruct (install_step_state i self s recent Hv) as (H & _). }
  subst c'. rewrite !Hc. split; [apply prepared_cfg_mentions|].
  split; [|split].
  - unfold prepared_cfg.
    destruct (PyStr.contains "_JAVA_OPTIONS" (preinstallopts (cfg st))); [reflexivity|].
    cbn [preinstallopts set_preinstallopts]. unfold java_opts.
    now rewrite !str_app_assoc.
  - apply prepared_cfg_rest.
  - intros inst2. rewrite !Hc. apply prepared_cfg_idem.
Qed.

(** X8: [install_step] fails on its first version test exactly when the
    version is the empty string.  It then raises the AttributeError of a
    [LooseVersion] without [version], having only made the install script
    executable: no command has run.  For any other version the steps
    before the loop return the path of the install script and the
    [-tmpdir] option. *)
Theorem install_step_needs_a_version inst self st :
  (version self = "" ->
   install_step inst self st
   = (emit (AdjustPermissions (Posixpath.join (start_dir (cfg st)) ["install"])) st,
      inl no_version_error))
  /\ (version self <> "" ->
      exists d,
        snd (install_prepare self st)
        = inr (Posixpath.join (start_dir (cfg st)) ["install"], "-tmpdir " +:+ d)).
Proof.
  split.
  - intros Hv. rewrite install_step_eq, Hv. reflexivity.
  - intros Hne.
    destruct (version_defined (version self) "2016b" Hne) as [recent Hv]; [discriminate|].
    exists (fresh_path st). rewrite install_prepare_eq. unfold lv in Hv. now rewrite Hv.
Qed.

Lemma runs_prepared self recent st : runs (trace (prepared self recent st)) = runs (trace st).
Proof.
  unfold prepared. cbn [trace]. rewrite runs_app, runs_prepare_events. apply app_nil_r.
Qed.

(** X9: with an empty list of keys, [install_step] of a version that is
    not empty returns without an error and without having run the
    installer at all. *)
Theorem empty_key_list_installs_nothing inst self st :
  version self <> "" ->
  key (cfg st) = KeyList [] ->
  snd (install_step inst self st) = inr tt
  /\ runs (trace (fst (install_step inst self st))) = runs (trace st).
Proof.
  intros Hne Hk.
  destruct (version_defined (version self) "2016b" Hne) as [recent Hv]; [discriminate|].
  rewrite install_step_eq, Hv, (install_keys_list st [] Hk). cbn [snd].
  unfold install_loop. cbn [enumerate enumerate_from for_each ret fst snd].
  split; [reflexivity | apply runs_prepared].
Qed.

(** X10: for version 2020a and later the loop over the keys does not
    depend on the [-tmpdir] option: the directory [install_step] makes
    with [tempfile.mkdtemp] is not given to the installer. *)
Theorem binary_installer_ignores_tmpdir inst self src tmpdir tmpdir' keys st :
  LooseVersion.ge (lv (version self)) (lv "2020a") = Some true ->
  install_loop inst self src tmpdir keys st = install_loop inst self src tmpdir' keys st.
Proof.
  intros Hv. unfold install_loop. apply for_each_ext. intros [i k] st0.
  rewrite !install_with_key_eq, !run_installer_eq. unfold lv in Hv. now rewrite Hv.
Qed.

(** ** The keys of an easyconfig without [key] *)

Lemma install_keys_none st :
  key (cfg st) = KeyNone ->
  install_keys st
  = (st, inr (PyStr.split_go "," 0
                (match environ st !! "EB_MATLAB_KEY" with
                 | Some v => v
                 | None => placeholder_key
                 end))).
Proof.
  intros Hk. unfold install_keys, bind, get, getenv, str_split, ret, bind, get.
  rewrite Hk. cbn. now destruct (environ st !! "EB_MATLAB_KEY").
Qed.

Lemma map_firstn_enumerate {B} (f : string -> B) (m i : nat) (keys : list string) :
  map (fun ik : nat * string => f (snd ik)) (firstn m (enumerate_from i keys))
  = map f (firstn m keys).
Proof.
  revert m i. induction keys as [|k keys IH]; intros m i.
  - now destruct m.
  - destruct m; [reflexivity|]. cbn [enumerate_from firstn map snd]. now rewrite IH.
Qed.

(** The commands of [install_step] for a version below 2020a. *)
Lemma script_step_runs inst self st keys :
  LooseVersion.lt (lv (version self)) (lv "2020a") = Some true ->
  snd (install_keys st) = inr keys ->
  exists m,
    m <= length keys
    /\ (keys <> [] -> 1 <= m)
    /\ runs (trace (fst (install_step inst self st)))
       = (runs (trace st)
          ++ map (script_installer_cmd (prepared_cfg (cfg st)) self
                    (Posixpath.join (start_dir (cfg st)) ["install"])
                    ("-tmpdir " +:+ fresh_path st))
                 (firstn m keys))%list.
Proof.
  intros Hlt Hkeys.
  destruct (ge_defined_of_lt _ _ "2016b" _ Hlt) as [recent [Hrec|?]]; [|discriminate].
  rewrite install_step_eq, Hrec, Hkeys.
  apply lt_not_ge in Hlt. unfold install_loop.
  destruct (script_loop inst self (Posixpath.join (start_dir (cfg st)) ["install"])
              ("-tmpdir " +:+ fresh_path st) (length keys)
              (enumerate keys) (prepared self recent st) Hlt)
    as (m & Hm & Hne & _ & _ & Hruns & _).
  cbv zeta in *. unfold enumerate in *. rewrite length_enumerate_from in *.
  exists m. split; [exact Hm|]. split.
  - intros Hk. apply Hne. destruct keys; [congruence | discriminate].
  - rewrite Hruns, runs_prepared. f_equal.
    change (cfg (prepared self recent st)) with (prepared_cfg (cfg st)).
    apply map_firstn_enumerate.
Qed.

(** X11: when no key is configured, [install_step] takes the keys from
    EB_MATLAB_KEY, split at the commas like a configured string; when the
    variable is not set either, a version below 2020a runs exactly one
    command, the script command with the key of fifty zeros in ten groups. *)
Theorem unconfigured_key_falls_back inst self st :
  LooseVersion.lt (lv (version self)) (lv "2020a") = Some true ->
  key (cfg st) = KeyNone ->
  let cmd := script_installer_cmd (prepared_cfg (cfg st)) self
               (Posixpath.join (start_dir (cfg st)) ["install"])
               ("-tmpdir " +:+ fresh_path st) in
  match environ st !! "EB_MATLAB_KEY" with
  | None =>
      runs (trace (fst (install_step inst self st)))
      = (runs (trace st) ++ [cmd placeholder_key])%list
  | Some v =>
      exists m,
        1 <= m <= PyStr.count_char "," v + 1
        /\ runs (trace (fst (install_step inst self st)))
           = (runs (trace st) ++ map cmd (firstn m (PyStr.split_go "," 0 v)))%list
  end.
Proof.
  intros Hlt Hk cmd.
  pose proof (install_keys_none st Hk) as Hkeys. apply (f_equal snd) in Hkeys.
  cbn [snd] in Hkeys.
  destruct (script_step_runs inst self st _ Hlt Hkeys) as (m & Hm & Hne & Hruns).
  fold cmd in Hruns.
  destruct (environ st !! "EB_MATLAB_KEY") as [v|].
  - exists m. rewrite split_char_length in Hm.
    split; [|exact Hruns]. split; [|exact Hm]. apply Hne, split_go_nonempty.
  - rewrite Hruns.
    change (PyStr.split_go "," 0 placeholder_key) with [placeholder_key] in *.
    assert (m = 1) as -> by (cbn [length] in Hm; specialize (Hne ltac:(discriminate)); lia).
    reflexivity.
Qed.

(** ** The run of version 2020a and later *)

Lemma runs_binary_pass (tr : list event) (a b : event) (cmd : string) :
  runs [a] = [] -> runs [b] = [] ->
  runs (((tr ++ [a]) ++ [b]) ++ [RunCmd cmd]) = (runs tr ++ [cmd])%list.
Proof.
  intros Ha Hb. rewrite !runs_app, Ha, Hb. cbn [runs]. now rewrite !app_nil_r.
Qed.

(** X12: for version 2020a and later, with the configuration file in
    place, one installer run is the command "preinstallopts install
    -inputFile name installopts", where name is the path of a temporary
    file that was not in use before.  The command runs with every other
    file, the settings, the environment and the working directory as they
    were; after the run the temporary file is removed, also when the
    command raises.  An IOError of the command is reported as the
    EasyBuildError "Failed to create temporary config file" that names
    name; any other exception is passed on unchanged. *)
Theorem binary_installer_uses_temporary_file inst self src tmpdir key st base :
  LooseVersion.ge (lv (version self)) (lv "2020a") = Some true ->
  files st !! configfile self = Some base ->
  exists name at_run,
    let cmd := PyStr.join " " [preinstallopts (cfg st); src; "-inputFile"; name;
                               installopts (cfg st)] in
    files st !! name = None
    /\ (forall p, p <> name -> files at_run !! p = files st !! p)
    /\ cfg at_run = cfg st /\ environ at_run = environ st /\ cwd at_run = cwd st
    /\ runs (trace (fst (run_installer inst self src tmpdir key st)))
       = (runs (trace st) ++ [cmd])%list
    /\ snd (run_installer inst self src tmpdir key st)
       = match inst at_run cmd with
         | inr (out, _) => inr (cmd, out)
         | inl (IOError msg) => inl (tmp_config_error name msg)
         | inl e => inl e
         end
    /\ files (fst (run_installer inst self src tmpdir key st)) = files st.
Proof.
  intros Hv Hbase. rewrite run_installer_eq. unfold lv in Hv. rewrite Hv.
  rewrite (run_binary_installer_found inst self src key st base Hbase). cbv zeta.
  exists (fresh_path st).
  exists (emit (debug_tmp_config (fresh_path st) (tmp_config_for key base))
            (set_files (<[fresh_path st := tmp_config_for key base]> (files st))
               (emit (debug_binary self) st))).
  cbn [fst snd files cfg environ cwd trace emit set_files].
  split; [apply fresh_path_not_file|].
  split; [intros p Hp; now apply lookup_insert_ne|].
  do 3 (split; [reflexivity|]).
  split; [now apply runs_binary_pass|].
  split; reflexivity.
Qed.

(** ** The order of the three version tests *)

Lemma lv_2016b : lv "2016b" = Some [LooseVersion.Num 2016; LooseVersion.Str "b"].
Proof. reflexivity. Qed.

Lemma lv_2017a : lv "2017a" = Some [LooseVersion.Num 2017; LooseVersion.Str "a"].
Proof. reflexivity. Qed.

Lemma lv_2020a : lv "2020a" = Some [LooseVersion.Num 2020; LooseVersion.Str "a"].
Proof. reflexivity. Qed.

(** A version that is not before year [y] with some letter is after any
    earlier year, whatever the letters. *)
Lemma ge_later_year (v : option (list LooseVersion.component)) (y y' : N) (a b : string) :
  (y' < y)%N ->
  LooseVersion.ge v (Some [LooseVersion.Num y; LooseVersion.Str a]) = Some true ->
  LooseVersion.ge v (Some [LooseVersion.Num y'; LooseVersion.Str b]) = Some true.
Proof.
  intros Hy. destruct v as [l|]; [|discriminate].
  unfold LooseVersion.ge, LooseVersion.cmp. cbn [option_map].
  destruct l as [|x l]; [discriminate|]. cbn [LooseVersion.cmp_list].
  destruct x as [n|s]; cbn [LooseVersion.cmp_component]; [|reflexivity].
  destruct (N.compare_spec n y) as [->|Hlt|Hgt].
  - intros _. now apply N.compare_gt_iff in Hy as ->.
  - discriminate.
  - intros _. assert (H : (y' < n)%N) by lia. now apply N.compare_gt_iff in H as ->.
Qed.

Lemma ge_2020a_ge_2016b (v : string) :
  LooseVersion.ge (lv v) (lv "2020a") = Some true ->
  LooseVersion.ge (lv v) (lv "2016b") = Some true.
Proof. rewrite lv_2020a, lv_2016b. now apply ge_later_year. Qed.

Lemma ge_2020a_ge_2017a (v : string) :
  LooseVersion.ge (lv v) (lv "2020a") = Some true ->
  LooseVersion.ge (lv v) (lv "2017a") = Some true.
Proof. rewrite lv_2020a, lv_2017a. now apply ge_later_year. Qed.

(** The events of a step come after those that were there. *)
Lemma run_installer_extends inst self src tmpdir key st :
  exists rest,
    trace (fst (run_installer inst self src tmpdir key st)) = (trace st ++ rest)%list.
Proof.
  rewrite run_installer_eq. destruct (LooseVersion.ge _ _) as [[|]|].
  - rewrite run_binary_installer_eq. cbv zeta.
    destruct (_ !! configfile self) as [base|]; cbn [fst trace set_files emit];
      eexists; rewrite <- ?app_assoc; reflexivity.
  - rewrite run_script_installer_eq. cbv zeta. cbn [fst trace emit].
    eexists; rewrite <- ?app_assoc; reflexivity.
  - exists []. now rewrite app_nil_r.
Qed.

Lemma install_with_key_extends inst self src tmpdir n ik st :
  exists rest,
    trace (fst (install_with_key inst self src tmpdir n ik st)) = (trace st ++ rest)%list.
Proof.
  destruct ik as [i key]. rewrite install_with_key_eq.
  destruct (run_installer_extends inst self src tmpdir key
              (emit (debug_installing (i + 1) n) st)) as [rest H].
  destruct (run_installer _ _ _ _ _ _) as [st2 [e|[cmd out]]]; cbn [fst] in *;
    rewrite H; cbn [trace emit]; rewrite <- app_assoc; eexists; reflexivity.
Qed.

Lemma install_loop_extends inst self src tmpdir n l st :
  exists rest,
    trace (fst (for_each l (install_with_key inst self src tmpdir n) st))
    = (trace st ++ rest)%list.
Proof.
  revert st; induction l as [|ik l IH]; intros st.
  - exists []. cbn. now rewrite app_nil_r.
  - cbn [for_each]. unfold bind.
    destruct (install_with_key_extends inst self src tmpdir n ik st) as [r1 H1].
    destruct (install_with_key _ _ _ _ _ _ _) as [st1 [e|[]]]; cbn [fst] in *.
    + now exists r1.
    + destruct (IH st1) as [r2 H2]. exists (r1 ++ r2)%list.
      now rewrite H2, H1, app_assoc.
Qed.

(** X13: a version that passes the test for 2020a passes the tests for
    2016b and 2017a.  So the installer of version 2020a and later always
    runs after the three permission changes and from the build directory:
    [install_step] begins with these events, before any command, and ends
    in the build directory. *)
Theorem binary_installer_runs_in_builddir inst self st :
  LooseVersion.ge (lv (version self)) (lv "2020a") = Some true ->
  LooseVersion.ge (lv (version self)) (lv "2016b") = Some true
  /\ LooseVersion.ge (lv (version self)) (lv "2017a") = Some true
  /\ cwd (fst (install_step inst self st)) = builddir self
  /\ exists d rest,
       trace (fst (install_step inst self st))
       = (trace st
          ++ [AdjustPermissions (Posixpath.join (start_dir (cfg st)) ["install"]);
              AdjustPermissions (Posixpath.join (start_dir (cfg st)) ["bin"; "glnxa64"]);
              AdjustPermissions (Posixpath.join (start_dir (cfg st))
                                   ["sys"; "java"; "jre"; "glnxa64"; "jre"; "bin"]);
              ChangeDir (builddir self);
              Mkdtemp d]
          ++ rest)%list.
Proof.
  intros Hv. pose proof (ge_2020a_ge_2016b _ Hv) as Hrec.
  split; [exact Hrec|]. split; [now apply ge_2020a_ge_2017a|].
  split.
  - now destruct (install_step_state inst self st true Hrec) as (_ & _ & _ & _ & H).
  - exists (fresh_path st). rewrite install_step_eq, Hrec.
    destruct (snd (install_keys st)) as [e|keys].
    + exists []. cbn [fst prepared trace prepare_events]. now rewrite app_nil_r.
    + unfold install_loop.
      destruct (install_loop_extends inst self (Posixpath.join (start_dir (cfg st)) ["install"])
                  ("-tmpdir " +:+ fresh_path st) (length keys) (enumerate keys)
                  (prepared self true st)) as [rest H].
      exists rest. rewrite H. cbn [prepared trace prepare_events].
      now rewrite <- app_assoc.
Qed.

(** ** The module file *)

(** X14: the text [make_module_extra] returns is the text of the parent
    class followed, for version 2017a and later, by the LD_LIBRARY_PATH
    entries of runtime/glnxa64, bin/glnxa64 and sys/os/glnxa64, in this
    order, and then, when [java_options] is not empty, by the setting of
    _JAVA_OPTIONS to it.  An older version gets no library path. *)
Theorem make_module_extra_text super prepend_paths set_environment self st st1 txt :
  super st = (st1, inr txt) ->
  version self <> "" ->
  make_module_extra super prepend_paths set_environment self st
  = (st1,
     inr (txt
          +:+ (match LooseVersion.ge (lv (version self)) (lv "2017a") with
               | Some true =>
                   prepend_paths "LD_LIBRARY_PATH" "runtime/glnxa64"
                   +:+ prepend_paths "LD_LIBRARY_PATH" "bin/glnxa64"
                   +:+ prepend_paths "LD_LIBRARY_PATH" "sys/os/glnxa64"
               | _ => ""
               end)
          +:+ (if String.eqb (java_options (cfg st1)) "" then ""
               else set_environment "_JAVA_OPTIONS" (java_options (cfg st1))))).
Proof.
  intros Hsuper Hne.
  destruct (version_defined (version self) "2017a" Hne) as [r Hv]; [discriminate|].
  unfold make_module_extra. unfold bind at 1. rewrite Hsuper.
  unfold version_ge. unfold lv in Hv. unfold lv. rewrite Hv.
  unfold bind, get, ret. f_equal. f_equal.
  destruct r, (String.eqb (java_options (cfg st1)) "");
    cbn [fold_left Posixpath.join]; rewrite ?str_app_nil_r, ?str_app_assoc; reflexivity.
Qed.

(** ** From the template to the installer *)

Lemma tmp_config_for_marker (key : string) :
  tmp_config_for key key_marker = "fileInstallationKey=" +:+ key.
Proof.
  pose proof (replace_go_occurrence "#" " fileInstallationKey="
                ("fileInstallationKey=" +:+ key) "") as H.
  change (PyStr.replace_go "# fileInstallationKey=" ("fileInstallationKey=" +:+ key) 0 "")
    with "" in H.
  rewrite !str_app_nil_r in H. exact H.
Qed.

Lemma activate_key_marker (installdir licfile : string) :
  activate installdir licfile key_marker = key_marker.
Proof. reflexivity. Qed.

Lemma no_newline_activate (installdir licfile l : string) :
  no_newline installdir -> no_newline licfile -> no_newline l ->
  no_newline (activate installdir licfile l).
Proof.
  intros Hi Hf Hl. unfold activate.
  repeat (destruct (PyStr.startswith _ l); [try reflexivity; now apply no_newline_app|]).
  exact Hl.
Qed.

Lemma lines_tmp_config_for (key base : string) :
  no_newline key ->
  PyStr.lines (tmp_config_for key base) = map (tmp_config_for key) (PyStr.lines base).
Proof.
  intros Hk. unfold tmp_config_for.
  change (PyStr.replace "# fileInstallationKey=" ("fileInstallationKey=" +:+ key))
    with (PyStr.replace_go "# fileInstallationKey=" ("fileInstallationKey=" +:+ key) 0).
  apply lines_replace; [reflexivity | discriminate |].
  now apply no_newline_app.
Qed.

(** X15: [configure_step] and the run of version 2020a and later, one
    after the other.  When the installation directory, the license file
    path and the key hold no newline and the two paths no backslash, the
    text composed for the installer has the lines of the template, one for
    one and in order, each first activated (the four markers) and then
    given the key; a template line that is exactly the marker
    "# fileInstallationKey=" arrives as "fileInstallationKey=" and the key. *)
Theorem configured_template_reaches_installer cr inst self src tmpdir key st tpl :
  LooseVersion.ge (lv (version self)) (lv "2020a") = Some true ->
  files st !! template_path (cfg st) = Some tpl ->
  no_newline (installdir self) -> no_backslash (installdir self) ->
  no_newline (licfile_of self (cfg st)) -> no_backslash (licfile_of self (cfg st)) ->
  no_newline key ->
  let st1 := fst (configure_step cr self st) in
  exists name txt,
    trace (fst (run_installer inst self src tmpdir key st1))
    = (trace st1 ++ [debug_binary self; debug_tmp_config name txt;
                     RunCmd (binary_installer_cmd (cfg st) src name)])%list
    /\ PyStr.lines txt
       = map (fun l => tmp_config_for key
                         (activate (installdir self) (licfile_of self (cfg st)) l))
             (PyStr.lines tpl)
    /\ (forall i, nth_error (PyStr.lines tpl) i = Some key_marker ->
                  nth_error (PyStr.lines txt) i = Some ("fileInstallationKey=" +:+ key)).
Proof.
  intros Hv Htpl Hn1 Hb1 Hn2 Hb2 Hk st1.
  destruct (configure_step_configfile cr self st tpl Htpl Hn1 Hb1 Hn2 Hb2) as [_ Hc].
  destruct (configure_step_state cr self st) as (Hcfg & _).
  fold st1 in Hc, Hcfg.
  set (config := PyStr.join nl (map (activate (installdir self) (licfile_of self (cfg st)))
                                    (PyStr.lines tpl))) in *.
  assert (Hlines : PyStr.lines (tmp_config_for key config)
                   = map (fun l => tmp_config_for key
                                     (activate (installdir self) (licfile_of self (cfg st)) l))
                         (PyStr.lines tpl)).
  { rewrite lines_tmp_config_for by exact Hk. unfold config.
    rewrite lines_join.
    - apply map_map.
    - pose proof (lines_nonempty tpl). now destruct (PyStr.lines tpl).
    - apply List.Forall_map. eapply List.Forall_impl; [|apply lines_no_newline].
      intros l Hl. now apply no_newline_activate. }
  exists (fresh_path st1), (tmp_config_for key config).
  split; [|split].
  - rewrite run_installer_eq. unfold lv in Hv. rewrite Hv.
    rewrite (run_binary_installer_found inst self src key st1 config Hc). cbv zeta.
    cbn [fst trace emit set_files]. rewrite Hcfg. now rewrite <- !app_assoc.
  - exact Hlines.
  - intros i Hi. rewrite Hlines, List.nth_error_map, Hi. cbn [option_map].
    now rewrite activate_key_marker, tmp_config_for_marker.
Qed.

(** ** A pass that raises *)

(** X16: the loop over the keys stops at the first pass that raises,
    whatever it raises (a rejected key, an exception of the command, a
    failure around the temporary file): [install_step]'s loop raises the
    same exception, the keys after it are not tried, and at most one
    command more than the passes before it has run. *)
Theorem failing_pass_ends_the_loop inst self src tmpdir pre k post st st1 st2 e :
  let keys := (pre ++ k :: post)%list in
  for_each (enumerate pre) (install_with_key inst self src tmpdir (length keys)) st
    = (st1, inr tt) ->
  install_with_key inst self src tmpdir (length keys) (length pre, k) st1 = (st2, inl e) ->
  install_loop inst self src tmpdir keys st = (st2, inl e)
  /\ length (runs (trace st1)) = length (runs (trace st)) + length pre
  /\ length (runs (trace st2)) <= length (runs (trace st1)) + 1.
Proof.
  intros keys Hpre Hk. split; [|split].
  - unfold install_loop, enumerate, keys.
    rewrite enumerate_from_app. cbn [enumerate_from]. rewrite for_each_app.
    unfold bind. unfold enumerate in Hpre. fold keys. rewrite Hpre.
    cbn [for_each]. unfold bind. cbn [Nat.add]. now rewrite Hk.
  - apply for_each_ok_runs in Hpre. unfold enumerate in Hpre.
    now rewrite length_enumerate_from in Hpre.
  - rewrite install_with_key_eq in Hk.
    destruct (run_installer_runs inst self src tmpdir k
                (emit (debug_installing (length pre + 1) (length keys)) st1))
      as (l & Hl & Hlen & _).
    destruct (run_installer _ _ _ _ _ _) as [st3 [e'|[cmd out]]]; cbn [fst] in Hl.
    + injection Hk as <- _. rewrite Hl, length_app. cbn [trace emit].
      rewrite runs_app. cbn. rewrite app_nil_r. lia.
    + destruct (PyStr.contains _ _); [|discriminate]. injection Hk as <- _.
      rewrite Hl, length_app. cbn [trace emit]. rewrite runs_app. cbn.
      rewrite app_nil_r. lia.
Qed.

(** ** The template *)

(** X17: [configure_step] never changes the template
    start_dir/installer_input.txt, whatever the directories are, also when
    the start directory is the build directory: the template, the
    configuration file and the license file it creates are three different
    paths. *)
Theorem configure_step_keeps_template cr self st :
  files (fst (configure_step cr self st)) !! template_path (cfg st)
  = files st !! template_path (cfg st)
  /\ template_path (cfg st) <> configfile self
  /\ template_path (cfg st) <> Posixpath.join (builddir self) ["matlab.lic"]
  /\ configfile self <> Posixpath.join (builddir self) ["matlab.lic"].
Proof.
  pose proof (template_not_configfile self (cfg st)) as H1.
  pose proof (template_not_licfile self (cfg st)) as H2.
  split; [|split; [exact H1|split; [exact H2|apply configfile_not_licfile]]].
  apply configure_step_other_files; [exact H1|]. intros _. exact H2.
Qed.

(** ** The further properties at concrete inputs *)

Lemma configure_step_without_template_witness :
  let self := ex_self "2020a" "/opt/matlab" in
  let st := mkState (ex_cfg None KeyNone) ∅ ∅ ∅ "/" [] in
  files st !! template_path (cfg st) = None
  /\ (exists msg, snd (configure_step no_escapes self st) = inl (config_file_error self msg))
  /\ files (fst (configure_step no_escapes self st)) !! configfile self
     = files st !! configfile self
  /\ trace (fst (configure_step no_escapes self st)) = trace st.
Proof.
  cbv zeta. split; [vm_compute; reflexivity|].
  apply (configure_step_without_template no_escapes (ex_self "2020a" "/opt/matlab")
           (mkState (ex_cfg None KeyNone) ∅ ∅ ∅ "/" [])).
  vm_compute; reflexivity.
Defined.

Lemma configure_step_writes_two_files_only_witness :
  let self := ex_self "2020a" "/opt/matlab" in
  let st := ex_state None KeyNone in
  let p := "/build/matlab/installer_input.txt" in
  p <> configfile self
  /\ (license_file (cfg st) = None -> p <> Posixpath.join (builddir self) ["matlab.lic"])
  /\ files (fst (configure_step no_escapes self st)) !! p = files st !! p
  /\ cfg (fst (configure_step no_escapes self st)) = cfg st
  /\ environ (fst (configure_step no_escapes self st)) = environ st
  /\ dirs (fst (configure_step no_escapes self st)) = dirs st
  /\ cwd (fst (configure_step no_escapes self st)) = cwd st.
Proof.
  cbv zeta.
  assert (H1 : "/build/matlab/installer_input.txt"
               <> configfile (ex_self "2020a" "/opt/matlab"))
    by (vm_compute; discriminate).
  assert (H2 : license_file (cfg (ex_state None KeyNone)) = None ->
               "/build/matlab/installer_input.txt"
               <> Posixpath.join (builddir (ex_self "2020a" "/opt/matlab")) ["matlab.lic"])
    by (intros _; vm_compute; discriminate).
  split; [exact H1|]. split; [exact H2|].
  exact (configure_step_writes_two_files_only no_escapes (ex_self "2020a" "/opt/matlab")
           (ex_state None KeyNone) "/build/matlab/installer_input.txt" H1 H2).
Defined.

Lemma license_file_names_server_and_port_witness :
  let self := ex_self "2020a" "/opt/matlab" in
  let st := ex_state (Some "lic.example.org") KeyNone in
  license_file (cfg st) = None
  /\ files (fst (configure_step no_escapes self st)) !! Posixpath.join (builddir self) ["matlab.lic"]
     = Some ("SERVER " +:+ license_host st +:+ " 000000000000 " +:+ license_port st
             +:+ nl +:+ "USE_SERVER").
Proof.
  cbv zeta. split; [reflexivity|].
  apply (license_file_names_server_and_port no_escapes (ex_self "2020a" "/opt/matlab")
           (ex_state (Some "lic.example.org") KeyNone)).
  reflexivity.
Defined.

Lemma configure_step_is_repeatable_witness :
  let self := ex_self "2020a" "/opt/matlab" in
  let st := ex_state None KeyNone in
  let st1 := fst (configure_step no_escapes self st) in
  files st !! template_path (cfg st) = Some ex_template
  /\ no_newline (installdir self) /\ no_backslash (installdir self)
  /\ no_newline (licfile_of self (cfg st)) /\ no_backslash (licfile_of self (cfg st))
  /\ snd (configure_step no_escapes self st1) = inr tt
  /\ files (fst (configure_step no_escapes self st1)) = files st1.
Proof.
  cbv zeta.
  do 5 (split; [vm_compute; reflexivity|]).
  apply (configure_step_is_repeatable no_escapes (ex_self "2020a" "/opt/matlab")
           (ex_state None KeyNone) ex_template); vm_compute; reflexivity.
Defined.

Lemma install_step_unsets_display_witness :
  let self := ex_self "2019b" "/opt/matlab" in
  let st := mkState (ex_cfg None (KeyList ["AAAA"]))
                    {[ "DISPLAY" := ":0"; "HOME" := "/root" ]} ∅ ∅ "/" [] in
  version self <> ""
  /\ environ (fst (install_step silent_installer self st)) = delete "DISPLAY" (environ st)
  /\ cwd (fst (install_step silent_installer self st))
     = match LooseVersion.ge (lv (version self)) (lv "2016b") with
       | Some true => builddir self
       | _ => cwd st
       end.
Proof.
  cbv zeta.
  assert (H : version (ex_self "2019b" "/opt/matlab") <> "") by discriminate.
  split; [exact H|].
  exact (install_step_unsets_display silent_installer (ex_self "2019b" "/opt/matlab")
           (mkState (ex_cfg None (KeyList ["AAAA"]))
                    {[ "DISPLAY" := ":0"; "HOME" := "/root" ]} ∅ ∅ "/" []) H).
Defined.

Lemma java_options_are_exported_once_witness :
  let self := ex_self "2019b" "/opt/matlab" in
  let st := ex_state None (KeyList ["AAAA"]) in
  let c' := cfg (fst (install_step silent_installer self st)) in
  version self <> ""
  /\ PyStr.contains "_JAVA_OPTIONS" (preinstallopts c') = true
  /\ (if PyStr.contains "_JAVA_OPTIONS" (preinstallopts (cfg st))
      then c' = cfg st
      else preinstallopts c'
           = "export _JAVA_OPTIONS=" +:+ dquote +:+ java_options (cfg st) +:+ dquote
             +:+ " && " +:+ preinstallopts (cfg st))
  /\ c' = set_preinstallopts (preinstallopts c') (cfg st)
  /\ (forall inst2,
         cfg (fst (install_step inst2 self (fst (install_step silent_installer self st))))
         = c').
Proof.
  cbv zeta.
  assert (H : version (ex_self "2019b" "/opt/matlab") <> "") by discriminate.
  split; [exact H|].
  exact (java_options_are_exported_once silent_installer (ex_self "2019b" "/opt/matlab")
           (ex_state None (KeyList ["AAAA"])) H).
Defined.

Lemma install_step_needs_a_version_witness :
  let st := ex_state None (KeyList ["AAAA"]) in
  version (ex_self "" "/opt/matlab") = ""
  /\ install_step silent_installer (ex_self "" "/opt/matlab") st
     = (emit (AdjustPermissions (Posixpath.join (start_dir (cfg st)) ["install"])) st,
        inl no_version_error)
  /\ version (ex_self "R2019b" "/opt/matlab") <> ""
  /\ exists d,
       snd (install_prepare (ex_self "R2019b" "/opt/matlab") st)
       = inr (Posixpath.join (start_dir (cfg st)) ["install"], "-tmpdir " +:+ d).
Proof.
  cbv zeta.
  assert (H1 : version (ex_self "" "/opt/matlab") = "") by reflexivity.
  assert (H2 : version (ex_self "R2019b" "/opt/matlab") <> "") by discriminate.
  split; [exact H1|]. split.
  - exact (proj1 (install_step_needs_a_version silent_installer (ex_self "" "/opt/matlab")
                    (ex_state None (KeyList ["AAAA"]))) H1).
  - split; [exact H2|].
    exact (proj2 (install_step_needs_a_version silent_installer
                    (ex_self "R2019b" "/opt/matlab")
                    (ex_state None (KeyList ["AAAA"]))) H2).
Defined.

Lemma unconfigured_key_falls_back_witness :
  let self := ex_self "2019b" "/opt/matlab" in
  let st := ex_state None KeyNone in
  let cmd := script_installer_cmd (prepared_cfg (cfg st)) self
               (Posixpath.join (start_dir (cfg st)) ["install"])
               ("-tmpdir " +:+ fresh_path st) in
  LooseVersion.lt (lv (version self)) (lv "2020a") = Some true
  /\ key (cfg st) = KeyNone
  /\ match environ st !! "EB_MATLAB_KEY" with
     | None =>
         runs (trace (fst (install_step silent_installer self st)))
         = (runs (trace st) ++ [cmd placeholder_key])%list
     | Some v =>
         exists m,
           1 <= m <= PyStr.count_char "," v + 1
           /\ runs (trace (fst (install_step silent_installer self st)))
              = (runs (trace st) ++ map cmd (firstn m (PyStr.split_go "," 0 v)))%list
     end.
Proof.
  cbv zeta.
  assert (Hv : LooseVersion.lt (lv (version (ex_self "2019b" "/opt/matlab"))) (lv "2020a")
               = Some true) by reflexivity.
  assert (Hk : key (cfg (ex_state None KeyNone)) = KeyNone) by reflexivity.
  split; [exact Hv|]. split; [exact Hk|].
  exact (unconfigured_key_falls_back silent_installer (ex_self "2019b" "/opt/matlab")
           (ex_state None KeyNone) Hv Hk).
Defined.

Lemma empty_key_list_installs_nothing_witness :
  let self := ex_self "2019b" "/opt/matlab" in
  let st := ex_state None (KeyList []) in
  version self <> ""
  /\ key (cfg st) = KeyList []
  /\ snd (install_step silent_installer self st) = inr tt
  /\ runs (trace (fst (install_step silent_installer self st))) = runs (trace st).
Proof.
  cbv zeta.
  assert (H : version (ex_self "2019b" "/opt/matlab") <> "") by discriminate.
  assert (Hk : key (cfg (ex_state None (KeyList []))) = KeyList []) by reflexivity.
  split; [exact H|]. split; [exact Hk|].
  exact (empty_key_list_installs_nothing silent_installer (ex_self "2019b" "/opt/matlab")
           (ex_state None (KeyList [])) H Hk).
Defined.

Lemma install_step_leaves_tmpdir_only_witness :
  let self := ex_self "2020a" "/opt/matlab" in
  let st := ex_configured (KeyList ["AAAA"; "BBBB"]) in
  version self <> ""
  /\ files (fst (install_step picky_installer self st)) = files st
  /\ exists d, (d ∉ dirs st) /\ (d ∉ dom (files st))
               /\ dirs (fst (install_step picky_installer self st)) = {[d]} ∪ dirs st.
Proof.
  cbv zeta.
  assert (H : version (ex_self "2020a" "/opt/matlab") <> "") by discriminate.
  split; [exact H|]. split.
  - exact (proj1 (install_step_leaves_tmpdir_only picky_installer
                    (ex_self "2020a" "/opt/matlab")
                    (ex_configured (KeyList ["AAAA"; "BBBB"])))).
  - exact (proj2 (install_step_leaves_tmpdir_only picky_installer
                    (ex_self "2020a" "/opt/matlab")
                    (ex_configured (KeyList ["AAAA"; "BBBB"]))) H).
Defined.

Lemma binary_installer_uses_temporary_file_witness :
  let self := ex_self "2020a" "/opt/matlab" in
  let st := ex_configured (KeyList ["AAAA"]) in
  let base := "## MATLAB installer input" +:+ nl
              +:+ "destinationFolder=/opt/matlab" +:+ nl
              +:+ "# fileInstallationKey=" +:+ nl
              +:+ "agreeToLicense=Yes" +:+ nl
              +:+ "mode=silent" +:+ nl
              +:+ "licensePath=/build/matlab.lic" +:+ nl in
  let inst : State -> string -> exn + (string * Z) :=
    fun _ _ => inl (IOError "No space left on device") in
  LooseVersion.ge (lv (version self)) (lv "2020a") = Some true
  /\ files st !! configfile self = Some base
  /\ exists name at_run,
       let cmd := PyStr.join " " [preinstallopts (cfg st); "/build/matlab/install";
                                  "-inputFile"; name; installopts (cfg st)] in
       files st !! name = None
       /\ (forall p, p <> name -> files at_run !! p = files st !! p)
       /\ cfg at_run = cfg st /\ environ at_run = environ st /\ cwd at_run = cwd st
       /\ runs (trace (fst (run_installer inst self "/build/matlab/install" "-tmpdir /tmp/t"
                              "AAAA" st)))
          = (runs (trace st) ++ [cmd])%list
       /\ snd (run_installer inst self "/build/matlab/install" "-tmpdir /tmp/t" "AAAA" st)
          = match inst at_run cmd with
            | inr (out, _) => inr (cmd, out)
            | inl (IOError msg) => inl (tmp_config_error name msg)
            | inl e => inl e
            end
       /\ files (fst (run_installer inst self "/build/matlab/install" "-tmpdir /tmp/t"
                        "AAAA" st)) = files st.
Proof.
  cbv zeta.
  assert (Hv : LooseVersion.ge (lv (version (ex_self "2020a" "/opt/matlab"))) (lv "2020a")
               = Some true) by reflexivity.
  assert (Hb : files (ex_configured (KeyList ["AAAA"]))
                 !! configfile (ex_self "2020a" "/opt/matlab")
               = Some ("## MATLAB installer input" +:+ nl
                       +:+ "destinationFolder=/opt/matlab" +:+ nl
                       +:+ "# fileInstallationKey=" +:+ nl
                       +:+ "agreeToLicense=Yes" +:+ nl
                       +:+ "mode=silent" +:+ nl
                       +:+ "licensePath=/build/matlab.lic" +:+ nl))
    by (vm_compute; reflexivity).
  split; [exact Hv|]. split; [exact Hb|].
  exact (binary_installer_uses_temporary_file
           (fun _ _ => inl (IOError "No space left on device"))
           (ex_self "2020a" "/opt/matlab") "/build/matlab/install" "-tmpdir /tmp/t" "AAAA"
           (ex_configured (KeyList ["AAAA"])) _ Hv Hb).
Defined.

Lemma failing_pass_ends_the_loop_witness :
  let self := ex_self "2019b" "/opt/matlab" in
  let st := ex_configured (KeyList ["AAAA"; "BBBB"; "CCCC"]) in
  let inst : State -> string -> exn + (string * Z) :=
    fun _ cmd => if PyStr.contains "BBBB" cmd
                 then inl (Raised "OSError" "Cannot allocate memory")
                 else inr ("Installation finished", 0%Z) in
  let body := install_with_key inst self "/build/matlab/install" "-tmpdir /tmp/t" 3 in
  let st1 := fst (for_each (enumerate ["AAAA"]) body st) in
  let st2 := fst (body (1, "BBBB") st1) in
  let e := Raised "OSError" "Cannot allocate memory" in
  for_each (enumerate ["AAAA"]) body st = (st1, inr tt)
  /\ body (1, "BBBB") st1 = (st2, inl e)
  /\ install_loop inst self "/build/matlab/install" "-tmpdir /tmp/t"
       ["AAAA"; "BBBB"; "CCCC"] st = (st2, inl e)
  /\ length (runs (trace st1)) = length (runs (trace st)) + 1
  /\ length (runs (trace st2)) <= length (runs (trace st1)) + 1.
Proof.
  cbv zeta.
  set (inst := fun (_ : State) (cmd : string) =>
                 if PyStr.contains "BBBB" cmd
                 then @inl exn (string * Z) (Raised "OSError" "Cannot allocate memory")
                 else inr ("Installation finished", 0%Z)).
  set (self := ex_self "2019b" "/opt/matlab").
  set (st := ex_configured (KeyList ["AAAA"; "BBBB"; "CCCC"])).
  assert (H1 : for_each (enumerate ["AAAA"])
                 (install_with_key inst self "/build/matlab/install" "-tmpdir /tmp/t" 3) st
               = (fst (for_each (enumerate ["AAAA"])
                         (install_with_key inst self "/build/matlab/install"
                            "-tmpdir /tmp/t" 3) st), inr tt))
    by (vm_compute; reflexivity).
  assert (H2 : install_with_key inst self "/build/matlab/install" "-tmpdir /tmp/t" 3
                 (1, "BBBB")
                 (fst (for_each (enumerate ["AAAA"])
                         (install_with_key inst self "/build/matlab/install"
                            "-tmpdir /tmp/t" 3) st))
               = (fst (install_with_key inst self "/build/matlab/install" "-tmpdir /tmp/t" 3
                         (1, "BBBB")
                         (fst (for_each (enumerate ["AAAA"])
                                 (install_with_key inst self "/build/matlab/install"
                                    "-tmpdir /tmp/t" 3) st))),
                  inl (Raised "OSError" "Cannot allocate memory")))
    by (vm_compute; reflexivity).
  split; [exact H1|]. split; [exact H2|].
  exact (failing_pass_ends_the_loop inst self "/build/matlab/install" "-tmpdir /tmp/t"
           ["AAAA"] "BBBB" ["CCCC"] st _ _ _ H1 H2).
Defined.

Lemma binary_installer_runs_in_builddir_witness :
  let self := ex_self "2021b" "/opt/matlab" in
  let st := ex_configured (KeyList ["AAAA"]) in
  LooseVersion.ge (lv (version self)) (lv "2020a") = Some true
  /\ LooseVersion.ge (lv (version self)) (lv "2016b") = Some true
  /\ LooseVersion.ge (lv (version self)) (lv "2017a") = Some true
  /\ cwd (fst (install_step silent_installer self st)) = builddir self
  /\ exists d rest,
       trace (fst (install_step silent_installer self st))
       = (trace st
          ++ [AdjustPermissions (Posixpath.join (start_dir (cfg st)) ["install"]);
              AdjustPermissions (Posixpath.join (start_dir (cfg st)) ["bin"; "glnxa64"]);
              AdjustPermissions (Posixpath.join (start_dir (cfg st))
                                   ["sys"; "java"; "jre"; "glnxa64"; "jre"; "bin"]);
              ChangeDir (builddir self);
              Mkdtemp d]
          ++ rest)%list.
Proof.
  cbv zeta.
  assert (Hv : LooseVersion.ge (lv (version (ex_self "2021b" "/opt/matlab"))) (lv "2020a")
               = Some true) by reflexivity.
  split; [exact Hv|].
  exact (binary_installer_runs_in_builddir silent_installer (ex_self "2021b" "/opt/matlab")
           (ex_configured (KeyList ["AAAA"])) Hv).
Defined.

Lemma make_module_extra_text_witness :
  let self := ex_self "2020a" "/opt/matlab" in
  let st := ex_state None KeyNone in
  let super : Py string := ret ("prepend-path PATH bin" +:+ nl) in
  let prepend_paths := fun k v => "prepend-path " +:+ k +:+ " " +:+ v +:+ nl in
  let set_environment := fun k v => "setenv " +:+ k +:+ " " +:+ v +:+ nl in
  super st = (st, inr ("prepend-path PATH bin" +:+ nl))
  /\ version self <> ""
  /\ make_module_extra super prepend_paths set_environment self st
     = (st,
        inr (("prepend-path PATH bin" +:+ nl)
             +:+ (match LooseVersion.ge (lv (version self)) (lv "2017a") with
                  | Some true =>
                      prepend_paths "LD_LIBRARY_PATH" "runtime/glnxa64"
                      +:+ prepend_paths "LD_LIBRARY_PATH" "bin/glnxa64"
                      +:+ prepend_paths "LD_LIBRARY_PATH" "sys/os/glnxa64"
                  | _ => ""
                  end)
             +:+ (if String.eqb (java_options (cfg st)) "" then ""
                  else set_environment "_JAVA_OPTIONS" (java_options (cfg st))))).
Proof.
  cbv zeta.
  assert (H1 : @ret string ("prepend-path PATH bin" +:+ nl) (ex_state None KeyNone)
               = (ex_state None KeyNone, inr ("prepend-path PATH bin" +:+ nl)))
    by reflexivity.
  assert (H2 : version (ex_self "2020a" "/opt/matlab") <> "") by discriminate.
  split; [exact H1|]. split; [exact H2|].
  exact (make_module_extra_text (ret ("prepend-path PATH bin" +:+ nl))
           (fun k v => "prepend-path " +:+ k +:+ " " +:+ v +:+ nl)
           (fun k v => "setenv " +:+ k +:+ " " +:+ v +:+ nl)
           (ex_self "2020a" "/opt/matlab") (ex_state None KeyNone) _ _ H1 H2).
Defined.

Lemma configured_template_reaches_installer_witness :
  let self := ex_self "2020a" "/opt/matlab" in
  let st := ex_state None (KeyList ["AAAA"]) in
  let st1 := fst (configure_step no_escapes self st) in
  LooseVersion.ge (lv (version self)) (lv "2020a") = Some true
  /\ files st !! template_path (cfg st) = Some ex_template
  /\ no_newline (installdir self) /\ no_backslash (installdir self)
  /\ no_newline (licfile_of self (cfg st)) /\ no_backslash (licfile_of self (cfg st))
  /\ no_newline "AAAA"
  /\ exists name txt,
       trace (fst (run_installer silent_installer self "/build/matlab/install"
                     "-tmpdir /tmp/t" "AAAA" st1))
       = (trace st1 ++ [debug_binary self; debug_tmp_config name txt;
                        RunCmd (binary_installer_cmd (cfg st) "/build/matlab/install" name)])%list
       /\ PyStr.lines txt
          = map (fun l => tmp_config_for "AAAA"
                            (activate (installdir self) (licfile_of self (cfg st)) l))
                (PyStr.lines ex_template)
       /\ (forall i, nth_error (PyStr.lines ex_template) i = Some key_marker ->
                     nth_error (PyStr.lines txt) i = Some ("fileInstallationKey=" +:+ "AAAA")).
Proof.
  cbv zeta.
  do 7 (split; [vm_compute; reflexivity|]).
  apply (configured_template_reaches_installer no_escapes silent_installer
           (ex_self "2020a" "/opt/matlab") "/build/matlab/install" "-tmpdir /tmp/t" "AAAA"
           (ex_state None (KeyList ["AAAA"])) ex_template); vm_compute; reflexivity.
Defined.

Lemma binary_installer_ignores_tmpdir_witness :
  let self := ex_self "2020a" "/opt/matlab" in
  let st := ex_configured (KeyList ["AAAA"; "BBBB"]) in
  LooseVersion.ge (lv (version self)) (lv "2020a") = Some true
  /\ install_loop picky_installer self "/build/matlab/install" "-tmpdir /tmp/a"
       ["AAAA"; "BBBB"] st
     = install_loop picky_installer self "/build/matlab/install" "-tmpdir /tmp/b"
         ["AAAA"; "BBBB"] st.
Proof.
  cbv zeta.
  assert (Hv : LooseVersion.ge (lv (version (ex_self "2020a" "/opt/matlab"))) (lv "2020a")
               = Some true) by reflexivity.
  split; [exact Hv|].
  exact (binary_installer_ignores_tmpdir picky_installer (ex_self "2020a" "/opt/matlab")
           "/build/matlab/install" "-tmpdir /tmp/a" "-tmpdir /tmp/b" ["AAAA"; "BBBB"]
           (ex_configured (KeyList ["AAAA"; "BBBB"])) Hv).
Defined.

(** ** The exit status of the installer *)

(** One installer run looks at the output of the command only. *)
Lemma run_installer_same_output proc proc' self src tmpdir key st :
  (forall s c, fst (proc s c) = fst (proc' s c)) ->
  run_installer (spec_run_cmd proc) self src tmpdir key st
  = run_installer (spec_run_cmd proc') self src tmpdir key st.
Proof.
  intros Hout. rewrite !run_installer_eq.
  destruct (LooseVersion.ge _ _) as [[|]|]; [| |reflexivity].
  - rewrite !run_binary_installer_eq. cbv zeta.
    destruct (_ !! configfile self) as [base|]; [|reflexivity].
    unfold spec_run_cmd.
    match goal with |- context [proc ?s ?c] => specialize (Hout s c);
      destruct (proc s c) as [out ec], (proc' s c) as [out' ec'] end.
    cbn [fst] in Hout. now subst.
  - rewrite !run_script_installer_eq. cbv zeta. unfold spec_run_cmd.
    match goal with |- context [proc ?s ?c] => specialize (Hout s c);
      destruct (proc s c) as [out ec], (proc' s c) as [out' ec'] end.
    cbn [fst] in Hout. now subst.
Qed.

Lemma install_loop_same_output proc proc' self src tmpdir keys st :
  (forall s c, fst (proc s c) = fst (proc' s c)) ->
  install_loop (spec_run_cmd proc) self src tmpdir keys st
  = install_loop (spec_run_cmd proc') self src tmpdir keys st.
Proof.
  intros Hout. unfold install_loop. apply for_each_ext. intros [i key] st0.
  rewrite !install_with_key_eq. now rewrite (run_installer_same_output proc proc').
Qed.

Lemma app_one_not_nil {A} (l : list A) (x : A) : l <> (l ++ [x])%list.
Proof.
  intros H. apply (f_equal (@length A)) in H. rewrite length_app in H. cbn in H. lia.
Qed.

Ltac runs_simpl H :=
  unfold debug_installing, debug_binary, debug_script, debug_tmp_config in H;
  cbn [fst trace emit set_files] in H;
  rewrite !runs_app in H; cbn [runs] in H; rewrite ?app_nil_r in H.

Ltac same_call E :=
  match type of E with
  | ?p ?s0 ?c0 = _ =>
      repeat match goal with
        | |- context [p ?s1 ?c1] =>
            lazymatch c1 with
            | c0 => fail
            | _ => change (p s1 c1) with (p s0 c0)
            end
        end
  end.

(** A pass that ran a command returns or raises by the output of that
    command. *)
Lemma pass_by_output proc self src tmpdir n i key st cmd :
  runs (trace (fst (install_with_key (spec_run_cmd proc) self src tmpdir n (i, key) st)))
  = (runs (trace st) ++ [cmd])%list ->
  exists s,
    cfg s = cfg st /\ environ s = environ st /\ cwd s = cwd st
    /\ snd (install_with_key (spec_run_cmd proc) self src tmpdir n (i, key) st)
       = if PyStr.contains (PyStr.lower invalid_key_pattern) (PyStr.lower (fst (proc s cmd)))
         then inl (EasyBuildError found_error_fmt [invalid_key_pattern; cmd; fst (proc s cmd)])
         else inr tt.
Proof.
  rewrite install_with_key_eq, run_installer_eq.
  destruct (LooseVersion.ge _ _) as [[|]|].
  - rewrite run_binary_installer_eq. cbv zeta.
    destruct (_ !! configfile self) as [base|].
    + unfold spec_run_cmd.
      match goal with |- context [proc ?s ?c] =>
        intros H; exists s; destruct (proc s c) as [out ec] eqn:E end.
      runs_simpl H. apply app_inv_head in H. injection H as <-.
      same_call E. rewrite E. cbn [fst snd]. repeat split; reflexivity.
    + intros H. runs_simpl H. now apply app_one_not_nil in H.
  - rewrite run_script_installer_eq. cbv zeta. unfold spec_run_cmd.
    match goal with |- context [proc ?s ?c] =>
      intros H; exists s; destruct (proc s c) as [out ec] eqn:E end.
    runs_simpl H. apply app_inv_head in H. injection H as <-.
    same_call E. rewrite E. cbn [fst snd]. repeat split; reflexivity.
  - intros H. runs_simpl H. now apply app_one_not_nil in H.
Qed.

(** A pass whose command prints no known message returns, whatever the
    exit status is. *)
Lemma quiet_pass proc self src tmpdir n ik st :
  version self <> "" ->
  (LooseVersion.ge (lv (version self)) (lv "2020a") = Some true ->
   exists base, files st !! configfile self = Some base) ->
  (forall s c, PyStr.contains (PyStr.lower invalid_key_pattern)
                 (PyStr.lower (fst (proc s c))) = false) ->
  snd (install_with_key (spec_run_cmd proc) self src tmpdir n ik st) = inr tt.
Proof.
  intros Hne Hconf Hquiet. destruct ik as [i key].
  rewrite install_with_key_eq, run_installer_eq.
  destruct (version_defined (version self) "2020a" Hne) as [m Hv]; [discriminate|].
  rewrite Hv in Hconf. unfold lv in Hv. rewrite Hv. destruct m.
  - destruct (Hconf eq_refl) as [base Hbase].
    rewrite (run_binary_installer_found (spec_run_cmd proc) self src key
               (emit (debug_installing (i + 1) n) st) base Hbase).
    cbv zeta. unfold spec_run_cmd.
    match goal with |- context [proc ?s ?c] =>
      specialize (Hquiet s c); destruct (proc s c) as [out ec] end.
    cbn [fst snd] in *. now rewrite Hquiet.
  - rewrite run_script_installer_eq. cbv zeta. unfold spec_run_cmd.
    match goal with |- context [proc ?s ?c] =>
      specialize (Hquiet s c); destruct (proc s c) as [out ec] end.
    cbn [fst snd] in *. now rewrite Hquiet.
Qed.

Lemma quiet_loop proc self src tmpdir n l st :
  version self <> "" ->
  (LooseVersion.ge (lv (version self)) (lv "2020a") = Some true ->
   exists base, files st !! configfile self = Some base) ->
  (forall s c, PyStr.contains (PyStr.lower invalid_key_pattern)
                 (PyStr.lower (fst (proc s c))) = false) ->
  snd (for_each l (install_with_key (spec_run_cmd proc) self src tmpdir n) st) = inr tt.
Proof.
  intros Hne Hconf Hquiet. revert st Hconf.
  induction l as [|ik l IH]; intros st Hconf; [reflexivity|].
  cbn [for_each]. unfold bind.
  pose proof (quiet_pass proc self src tmpdir n ik st Hne Hconf Hquiet) as Hp.
  destruct (install_with_key_frame (spec_run_cmd proc) self src tmpdir n ik st)
    as (_ & _ & Hf & _).
  destruct (install_with_key _ _ _ _ _ _ _) as [st1 [e|[]]]; cbn [fst snd] in *;
    [discriminate|].
  apply IH. now rewrite Hf.
Qed.

Lemma install_keys_total st : exists keys, snd (install_keys st) = inr keys.
Proof.
  unfold install_keys, bind, get, getenv, str_split, bind, get, ret.
  destruct (key (cfg st)); cbn; eexists; reflexivity.
Qed.

(** C3: the exit status of the installer has no part in [install_step].
    With [run_cmd] as the spec describes it (the command is executed, its
    output and its exit status are captured), the step is the same for
    two installers that print the same, whatever their exit statuses; a
    pass that ran its command raises exactly when the output of that command
    holds the invalid-key message, with the error of that message; and when
    no output holds the message, the step returns, also when every command
    exits with a status that is not zero. *)
Theorem exit_code_is_not_checked :
  (forall proc proc' self st,
      (forall s c, fst (proc s c) = fst (proc' s c)) ->
      install_step (spec_run_cmd proc) self st = install_step (spec_run_cmd proc') self st)
  /\ (forall proc self src tmpdir n i key st cmd,
         runs (trace (fst (install_with_key (spec_run_cmd proc) self src tmpdir n (i, key) st)))
         = (runs (trace st) ++ [cmd])%list ->
         exists s,
           cfg s = cfg st /\ environ s = environ st /\ cwd s = cwd st
           /\ snd (install_with_key (spec_run_cmd proc) self src tmpdir n (i, key) st)
              = if PyStr.contains (PyStr.lower invalid_key_pattern)
                     (PyStr.lower (fst (proc s cmd)))
                then inl (EasyBuildError found_error_fmt
                            [invalid_key_pattern; cmd; fst (proc s cmd)])
                else inr tt)
  /\ (forall proc self st,
         version self <> "" ->
         (LooseVersion.ge (lv (version self)) (lv "2020a") = Some true ->
          exists base, files st !! configfile self = Some base) ->
         (forall s c, PyStr.contains (PyStr.lower invalid_key_pattern)
                        (PyStr.lower (fst (proc s c))) = false) ->
         snd (install_step (spec_run_cmd proc) self st) = inr tt).
Proof.
  split; [|split].
  - intros proc proc' self st Hout. unfold install_step, bind.
    destruct (install_prepare self st) as [st1 [e|[src tmpdir]]]; [reflexivity|].
    destruct (install_keys st1) as [st2 [e|keys]]; [reflexivity|].
    now apply install_loop_same_output.
  - intros proc self src tmpdir n i key st cmd. apply pass_by_output.
  - intros proc self st Hne Hconf Hquiet.
    destruct (version_defined (version self) "2016b" Hne) as [recent Hv]; [discriminate|].
    destruct (install_keys_total st) as [keys Hkeys].
    rewrite install_step_eq, Hv, Hkeys. unfold install_loop.
    now apply quiet_loop.
Qed.

(** ** The passes, key by key *)





(** An installer that exits with status 1 and prints no known message: the
    step returns. *)
Lemma exit_code_is_not_checked_witness :
  let proc : State -> string -> string * Z := fun _ _ => ("Installation finished", 1%Z) in
  let proc0 : State -> string -> string * Z := fun _ _ => ("Installation finished", 0%Z) in
  let self := ex_self "2020a" "/opt/matlab" in
  let old := ex_self "2019b" "/opt/matlab" in
  let st := ex_configured (KeyList ["AAAA"; "BBBB"]) in
  let cmd := " /build/matlab/install -v -tmpdir /tmp/t -inputFile /build/my_installer_input.txt -fileInstallationKey AAAA " in
  (forall s c, snd (proc s c) = 1%Z)
  /\ (forall s c, fst (proc s c) = fst (proc0 s c))
  /\ install_step (spec_run_cmd proc) self st = install_step (spec_run_cmd proc0) self st
  /\ runs (trace (fst (install_with_key (spec_run_cmd proc) old "/build/matlab/install"
                         "-tmpdir /tmp/t" 2 (0, "AAAA") st)))
     = (runs (trace st) ++ [cmd])%list
  /\ (exists s,
        cfg s = cfg st /\ environ s = environ st /\ cwd s = cwd st
        /\ snd (install_with_key (spec_run_cmd proc) old "/build/matlab/install"
                  "-tmpdir /tmp/t" 2 (0, "AAAA") st)
           = if PyStr.contains (PyStr.lower invalid_key_pattern)
                  (PyStr.lower (fst (proc s cmd)))
             then inl (EasyBuildError found_error_fmt
                         [invalid_key_pattern; cmd; fst (proc s cmd)])
             else inr tt)
  /\ version self <> ""
  /\ (LooseVersion.ge (lv (version self)) (lv "2020a") = Some true ->
      exists base, files st !! configfile self = Some base)
  /\ (forall s c, PyStr.contains (PyStr.lower invalid_key_pattern)
                    (PyStr.lower (fst (proc s c))) = false)
  /\ snd (install_step (spec_run_cmd proc) self st) = inr tt.
Proof.
  cbv zeta.
  set (proc := fun (_ : State) (_ : string) => ("Installation finished", 1%Z)).
  set (proc0 := fun (_ : State) (_ : string) => ("Installation finished", 0%Z)).
  set (st := ex_configured (KeyList ["AAAA"; "BBBB"])).
  assert (Hsame : forall s c, fst (proc s c) = fst (proc0 s c)) by reflexivity.
  assert (Hrun : runs (trace (fst (install_with_key (spec_run_cmd proc)
                                     (ex_self "2019b" "/opt/matlab") "/build/matlab/install"
                                     "-tmpdir /tmp/t" 2 (0, "AAAA") st)))
                 = (runs (trace st)
                    ++ [" /build/matlab/install -v -tmpdir /tmp/t -inputFile /build/my_installer_input.txt -fileInstallationKey AAAA "])%list)
    by (vm_compute; reflexivity).
  assert (Hne : version (ex_self "2020a" "/opt/matlab") <> "") by discriminate.
  assert (Hconf : LooseVersion.ge (lv (version (ex_self "2020a" "/opt/matlab"))) (lv "2020a")
                  = Some true ->
                  exists base, files st !! configfile (ex_self "2020a" "/opt/matlab")
                               = Some base)
    by (intros _; eexists; vm_compute; reflexivity).
  assert (Hquiet : forall s c, PyStr.contains (PyStr.lower invalid_key_pattern)
                                 (PyStr.lower (fst (proc s c))) = false)
    by (intros s c; vm_compute; reflexivity).
  split; [reflexivity|]. split; [exact Hsame|].
  split; [exact (proj1 exit_code_is_not_checked proc proc0 _ st Hsame)|].
  split; [exact Hrun|].
  split; [exact (proj1 (proj2 exit_code_is_not_checked) proc _ _ _ _ _ _ st _ Hrun)|].
  split; [exact Hne|]. split; [exact Hconf|]. split; [exact Hquiet|].
  exact (proj2 (proj2 exit_code_is_not_checked) proc _ st Hne Hconf Hquiet).
Defined.

